(** * runUp: Arduino Pomodoro timer -- counter log, calendar, statistics

    A shallow embedding of [src/runup-arduino-pomodoro-mfs.ino] (the
    firmware for the ATmega328P based Arduino Uno) together with the
    properties of its persistent counter log, its calendar arithmetic,
    its statistics aggregation and its sprint scheduler.

    Conventions of the embedding:
    - C integers are [Z]; where the source narrows a value the
      wrap-around is written out with [uint8], [uint16], [int16]
      (on AVR [int] is 16 bits wide, [char] is signed 8 bits);
    - [%] on [int] is [Z.rem] (truncation towards zero);
    - the global variables of the sketch are the fields of [State];
    - the EEPROM is a finite map from addresses to bytes; a cell that
      was never written reads as 0xFF, as erased EEPROM does (the device
      has 1024 cells; the counter log uses the addresses 1..368);
    - every call of [EEPROM.update] is also appended to [eepromLog], so
      that the order of the writes can be stated;
    - display, LED, buzzer and serial output are not part of the state. *)

From Stdlib Require Import ZArith Lia List Bool.
From Stdlib Require Import Floats.SpecFloat.
From stdpp Require Import base numbers list list_numbers gmap strings pretty.

Local Open Scope Z_scope.

(** ** Machine integers *)

Definition uint8 (z : Z) : Z := z mod 256.
Definition uint16 (z : Z) : Z := z mod 65536.
Definition int16 (z : Z) : Z := (z + 32768) mod 65536 - 32768.
Definition int8 (z : Z) : Z := (z + 128) mod 256 - 128.

(** ** Constants and enumerations (lines 58-66, 92-101, 136-142, 228-232) *)

Inductive OperatingStates : Set :=
  | STANDBY | COUNTING | PAUSED | SLEEPING | DATETIMESETUP | CLEARING | ERROR.

Definition OperatingStates_eqb (a b : OperatingStates) : bool :=
  match a, b with
  | STANDBY, STANDBY | COUNTING, COUNTING | PAUSED, PAUSED
  | SLEEPING, SLEEPING | DATETIMESETUP, DATETIMESETUP
  | CLEARING, CLEARING | ERROR, ERROR => true
  | _, _ => false
  end.

(* enum StatisticsMenuModes *)
Definition NOW : Z := 0.
Definition DAILY : Z := 1.
Definition TOTAL : Z := 2.
Definition MINIMUM : Z := 3.
Definition AVERAGE : Z := 4.
Definition MAXIMUM : Z := 5.

(* enum CountedDoW; [config.countingDoWs] is a 4-bit field compared
   against these values *)
Definition FIVE_DAYS : Z := 0.
Definition SIX_DAYS : Z := 1.
Definition SEVEN_DAYS : Z := 2.
Definition NOT_0_DAYS : Z := 3.

Definition EMPTY_VALUE : Z := 255.      (* 0xFF *)
Definition SPRINTS_END_BYTE : Z := 237. (* 0xED *)

(** ** Global state *)

(** The fields of [struct Config] that influence the modelled code. *)
Record Config : Set := mkConfig {
  buzzEnabled : bool;
  cueEnabled : bool;
  countingDoWs : Z;
  countingUnits : Z;
  heroModeEnabled : bool;
  muteModeEnabled : bool
}.

Record State : Type := mkState {
  operatingState : OperatingStates;
  errorCode : Z;
  currentInterval : Z;
  tenths : Z;
  seconds : Z;
  minutes : Z;
  sprintCounter : Z;
  currentDayOfWeek : Z;
  currentDayOfYear : Z;
  currentMonth : Z;
  currentYear : Z;
  config : Config;
  showStaticInfo : bool;
  statisticsArray : gmap (Z * Z) Z;
  eeprom : gmap Z Z;
  eepromLog : list (Z * Z)
}.

(** The value the reading of the real-time clock carries
    ([RtcDateTime] of the Rtc library, through its accessors). *)
Record RtcDateTime : Set := mkRtcDateTime {
  Year : Z;
  Month : Z;
  Day : Z;
  Hour : Z;
  Minute : Z;
  Second : Z;
  DayOfWeek : Z
}.

(** Field updates. *)
Definition set_error (code : Z) (s : State) : State :=
  mkState ERROR code (currentInterval s) (tenths s) (seconds s) (minutes s)
    (sprintCounter s) (currentDayOfWeek s) (currentDayOfYear s)
    (currentMonth s) (currentYear s) (config s) (showStaticInfo s)
    (statisticsArray s) (eeprom s) (eepromLog s).

Definition set_sprintCounter (n : Z) (s : State) : State :=
  mkState (operatingState s) (errorCode s) (currentInterval s) (tenths s)
    (seconds s) (minutes s) n (currentDayOfWeek s) (currentDayOfYear s)
    (currentMonth s) (currentYear s) (config s) (showStaticInfo s)
    (statisticsArray s) (eeprom s) (eepromLog s).

Definition set_date (doy dow month year : Z) (s : State) : State :=
  mkState (operatingState s) (errorCode s) (currentInterval s) (tenths s)
    (seconds s) (minutes s) (sprintCounter s) dow doy month year
    (config s) (showStaticInfo s) (statisticsArray s) (eeprom s)
    (eepromLog s).

Definition set_countdown (interval t sec min : Z) (s : State) : State :=
  mkState (operatingState s) (errorCode s) interval t sec min
    (sprintCounter s) (currentDayOfWeek s) (currentDayOfYear s)
    (currentMonth s) (currentYear s) (config s) (showStaticInfo s)
    (statisticsArray s) (eeprom s) (eepromLog s).

Definition set_showStaticInfo (b : bool) (s : State) : State :=
  mkState (operatingState s) (errorCode s) (currentInterval s) (tenths s)
    (seconds s) (minutes s) (sprintCounter s) (currentDayOfWeek s)
    (currentDayOfYear s) (currentMonth s) (currentYear s) (config s) b
    (statisticsArray s) (eeprom s) (eepromLog s).

Definition set_statistics (mode period value : Z) (s : State) : State :=
  mkState (operatingState s) (errorCode s) (currentInterval s) (tenths s)
    (seconds s) (minutes s) (sprintCounter s) (currentDayOfWeek s)
    (currentDayOfYear s) (currentMonth s) (currentYear s) (config s)
    (showStaticInfo s) (<[(mode, period) := value]> (statisticsArray s))
    (eeprom s) (eepromLog s).

(** ** EEPROM primitives *)

(** [EEPROM.read(idx)]: the byte stored in the cell. *)
Definition EEPROM_read (e : gmap Z Z) (idx : Z) : Z :=
  uint8 (default EMPTY_VALUE (e !! idx)).

(** [EEPROM.update(idx, val)]: the cell is written only when the value
    differs from the one stored; the call is logged in any case. *)
Definition set_eeprom (e : gmap Z Z) (log : list (Z * Z)) (s : State) : State :=
  mkState (operatingState s) (errorCode s) (currentInterval s) (tenths s)
    (seconds s) (minutes s) (sprintCounter s) (currentDayOfWeek s)
    (currentDayOfYear s) (currentMonth s) (currentYear s) (config s)
    (showStaticInfo s) (statisticsArray s) e log.

Definition EEPROM_update (idx val : Z) (s : State) : State :=
  set_eeprom
    (if EEPROM_read (eeprom s) idx =? uint8 val then eeprom s
     else <[idx := uint8 val]> (eeprom s))
    (eepromLog s ++ [(idx, uint8 val)]) s.

(** Reading through the state. *)
Definition readCell (s : State) (idx : Z) : Z := EEPROM_read (eeprom s) idx.

(** ** Calendar (lines 775-870) *)

(** [bool isLeapYear(uint16_t year)] *)
Definition isLeapYear (year : Z) : bool :=
  (year mod 4 =? 0) && (negb (year mod 100 =? 0) || (year mod 400 =? 0)).

Definition dim : list Z := [31; 28; 31; 30; 31; 30; 31; 31; 30; 31; 30; 31].

(** [uint8_t getDaysInMonth(uint16_t year, uint8_t month)]; [None] is
    the read outside of the table [dim]. *)
Definition getDaysInMonth (year month : Z) : option Z :=
  if (month =? 2) && isLeapYear year then Some 29
  else if (1 <=? month) && (month <=? 12) then dim !! Z.to_nat (month - 1)
  else None.

(** [bool isRtcDateTimeSane(const RtcDateTime& now)] *)
Definition isRtcDateTimeSane (now : RtcDateTime) : bool :=
  if (Year now <? 2025) || (2050 <? Year now) then false
  else if (Month now <? 1) || (12 <? Month now) then false
  else if (Day now <? 1)
          || (default 0 (getDaysInMonth (Year now) (Month now)) <? Day now)
       then false
  else if (23 <? Hour now) || (59 <? Minute now) || (59 <? Second now)
       then false
  else true.

(** The day-of-year computation of [getCurrentDate] (lines 797-808):
    day of the month, plus the lengths of the months before, plus one
    after February of a leap year. *)
Definition daysInMonth : list Z := dim.

Definition dayOfYearOf (now : RtcDateTime) : Z :=
  let dayOfYear :=
    fold_left (fun acc i => uint16 (acc + default 0 (daysInMonth !! Z.to_nat i)))
              (seqZ 0 (Month now - 1)) (Day now) in
  if (2 <? Month now) && isLeapYear (Year now) then uint16 (dayOfYear + 1)
  else dayOfYear.

(** [void getCurrentDate()], on the clock reading [now]. *)
Definition getCurrentDate (now : RtcDateTime) (s : State) : State :=
  if isRtcDateTimeSane now then
    let dow := DayOfWeek now in
    set_date (dayOfYearOf now) (if dow =? 0 then 7 else dow)
             (Month now) (Year now) s
  else set_error 2 s.

(** The [while] loop of [getDateFromDayOfYear] (lines 843-846).  Each
    turn moves to the next month, and the table has twelve entries, so
    thirteen turns always suffice; [None] is a read outside the table. *)
Fixpoint monthWalk (fuel : nat) (year day month : Z) : option (Z * Z) :=
  match fuel with
  | O => None
  | S fuel' =>
      match getDaysInMonth year month with
      | None => None
      | Some len =>
          if len <? day then monthWalk fuel' year (day - len) (month + 1)
          else Some (day, month)
      end
  end.

(** The (day, month) pair that [getDateFromDayOfYear] prints. *)
Definition dateFromDayOfYear (inputDayOfYear : Z) (s : State) : option (Z * Z) :=
  let year := if inputDayOfYear <=? currentDayOfYear s then currentYear s
              else uint16 (currentYear s - 1) in
  monthWalk 13 year inputDayOfYear 1.

(** [void getMonthDayOfYearRange(year, month, &startDay, &endDay)] *)
Definition getMonthDayOfYearRange (year month : Z) : Z * Z :=
  let startDay :=
    fold_left (fun acc m => acc + default 0 (getDaysInMonth year m))
              (seqZ 1 (month - 1)) 1 in
  (startDay, startDay + default 0 (getDaysInMonth year month) - 1).

(** ** The counter log (lines 1124-1181) *)

(** [void validateNextDayCell()] *)
Definition validateNextDayCell (s : State) : State :=
  let nextValue := readCell s (uint16 (currentDayOfYear s + 2)) in
  if (errorCode s =? 0) && negb (nextValue =? EMPTY_VALUE) then
    if (0 <=? nextValue) && (nextValue <? 58) then s
    else set_error 3 s
  else s.

(** The loop "Clear end byte signatures (if any)" of [saveSprint]
    (lines 1167-1174). *)
Definition clearStrayEndBytes (s : State) : State :=
  fold_left
    (fun st address =>
       if (readCell st address =? SPRINTS_END_BYTE)
          && negb (address =? uint16 (currentDayOfYear st + 1))
       then EEPROM_update address EMPTY_VALUE st
       else st)
    (seqZ 2 366) s.

(** [void saveSprint()], on the clock reading [now]. *)
Definition saveSprint (now : RtcDateTime) (s : State) : State :=
  let initialDayOfYear := currentDayOfYear s in
  let s1 := getCurrentDate now s in
  let s2 := validateNextDayCell s1 in
  if errorCode s2 =? 0 then
    let s3 := if currentDayOfYear s2 =? initialDayOfYear then s2
              else set_sprintCounter 1 s2 in
    let s4 := EEPROM_update (currentDayOfYear s3) (sprintCounter s3) s3 in
    let s5 := clearStrayEndBytes s4 in
    EEPROM_update (uint16 (currentDayOfYear s5 + 1)) SPRINTS_END_BYTE s5
  else s2.

(** ** Boot (lines 291-378 of [setup]) *)

(** "Get latest saved date" (lines 325-330). *)
Definition latestSaved (e : gmap Z Z) : Z :=
  fold_left
    (fun latestSavedDayOfYear address =>
       if EEPROM_read e address =? SPRINTS_END_BYTE then address - 1
       else latestSavedDayOfYear)
    (seqZ 2 366) 0.

(** [for (int i = lo; i <= hi; i++) EEPROM.update(i, 0);] *)
Definition fillZero (lo hi : Z) (s : State) : State :=
  fold_left (fun st i => EEPROM_update i 0 st) (seqZ lo (hi - lo + 1)) s.

(** [for (int i = 1; i <= skippedDays; i++)
       EEPROM.update(latestSavedDayOfYear + i, 0);] *)
Definition fillSkipped (latestSavedDayOfYear skippedDays : Z) (s : State) : State :=
  fold_left (fun st i => EEPROM_update (latestSavedDayOfYear + i) 0 st)
            (seqZ 1 skippedDays) s.

(** The block "If no errors check if it is needed to update
    sprintCounter and skipped days" (lines 311-378); [now] is the clock
    reading taken in the new-year branch. *)
Definition reconcileOnBoot (now : RtcDateTime) (s : State) : State :=
  if (errorCode s =? 0) && OperatingStates_eqb (operatingState s) STANDBY then
    let savedSprintCounter := readCell s (currentDayOfYear s) in
    if negb (savedSprintCounter =? EMPTY_VALUE)
       && negb (savedSprintCounter =? SPRINTS_END_BYTE)
       && (readCell s (uint16 (currentDayOfYear s + 1)) =? SPRINTS_END_BYTE)
    then set_sprintCounter savedSprintCounter s
    else
      let latestSavedDayOfYear := latestSaved (eeprom s) in
      let skippedDays := int16 (currentDayOfYear s - latestSavedDayOfYear) in
      let s1 :=
        if (skippedDays <? 0) && (0 <? latestSavedDayOfYear) then
          let currentYear := int16 (Year now) in
          let previousYear := currentYear - 1 in
          let daysInPreviousYear :=
            if isLeapYear (uint16 previousYear) then 366 else 365 in
          fillZero 1 (currentDayOfYear s)
            (fillZero (latestSavedDayOfYear + 1) daysInPreviousYear s)
        else if (0 <? skippedDays) && (0 <? latestSavedDayOfYear) then
          fillSkipped latestSavedDayOfYear skippedDays s
        else s in
      if negb (skippedDays =? 0) && (0 <? latestSavedDayOfYear) then
        EEPROM_update (uint16 (currentDayOfYear s1 + 1)) SPRINTS_END_BYTE s1
      else s1
  else s.

(** [void setup()] from "Initialize RTC" on.  The state [s] is the one
    [loadConfig] leaves: the configuration record, and [operatingState]
    equal to [DATETIMESETUP] on the first run and [STANDBY] otherwise
    ([loadConfig] reads and writes the configuration block at address
    1015 only).  [rtcValid] is [Rtc.IsDateTimeValid()], [now] and [now']
    are the two clock readings. *)
Definition setup (rtcValid : bool) (now now' : RtcDateTime) (s : State) : State :=
  let s1 :=
    if negb (OperatingStates_eqb (operatingState s) DATETIMESETUP) then
      if negb rtcValid then set_error 1 s
      else validateNextDayCell (getCurrentDate now s)
    else s in
  reconcileOnBoot now' s1.

(** The globals as their initialisers leave them (lines 67-68, 213-222,
    261), with the operating state and configuration of [loadConfig]
    and the EEPROM contents [e]. *)
Definition initialState (st : OperatingStates) (cfg : Config) (e : gmap Z Z) : State :=
  mkState st 0 0 0 0 0 0 1 1 1 2025 cfg false ∅ e [].

(** ** Sprint scheduler (lines 462-593, 1112-1122, 1851-1858) *)

(** [void setInterval(int value)] *)
Definition setInterval (value : Z) (s : State) : State :=
  if heroModeEnabled (config s) && ((value =? 5) || (value =? 15)) then
    set_countdown (uint8 value) (tenths s) 1 0 s
  else set_countdown (uint8 value) (tenths s) 0 (int8 value) s.

(** [void startAnimation()]: of its effects only [showStaticInfo] is
    part of the state. *)
Definition startAnimation (s : State) : State := set_showStaticInfo false s.

(** [void runAnimation(duration)]: [timeIsUp] tells whether the
    animation window has elapsed. *)
Definition runAnimation (timeIsUp : bool) (s : State) : State :=
  if timeIsUp then set_showStaticInfo true s else s.

(** The branch of [case COUNTING] of [loop] that is taken when no button
    event is pending (lines 519-591). *)
Definition countingTick (timeIsUp : bool) (now : RtcDateTime) (s : State) : State :=
  if ((currentInterval s =? 5) || (currentInterval s =? 15))
     && negb (showStaticInfo s)
  then runAnimation timeIsUp s
  else
    let t := uint8 (tenths s + 1) in
    if t =? 10 then
      let sec := int8 (seconds s - 1) in
      let '(sec, min) :=
        if (sec <? 0) && (0 <? minutes s) then (59, int8 (minutes s - 1))
        else (sec, minutes s) in
      let s1 := set_countdown (currentInterval s) 0 sec min s in
      if (min =? 0) && (sec =? 0) then
        if currentInterval s1 =? 25 then
          let s2 := setInterval 0 s1 in
          let s3 := set_sprintCounter (uint8 (sprintCounter s2 + 1)) s2 in
          let s4 := saveSprint now s3 in
          let s5 := startAnimation s4 in
          if Z.rem (sprintCounter s5) 4 =? 0 then setInterval 15 s5
          else setInterval 5 s5
        else if (currentInterval s1 =? 15) || (currentInterval s1 =? 5) then
          setInterval 25 s1
        else s1
      else s1
    else set_countdown (currentInterval s) t (seconds s) (minutes s) s.

(** ** Statistics (lines 1185-1274) *)

(** [float] on AVR is IEEE 754 binary32 (and so is [double]). *)
Definition prec : Z := 24.
Definition emax : Z := 128.

Definition float_of_int (z : Z) : spec_float :=
  binary_normalize prec emax z 0 false.

(** Conversion of a [float] to [int]: the fraction is discarded. *)
Definition int_of_float (f : spec_float) : Z :=
  match f with
  | S754_finite sg m e =>
      let v := match e with
               | Z0 => Z.pos m
               | Zpos p => Z.pos m * 2 ^ Zpos p
               | Zneg p => Z.pos m / 2 ^ Zpos p
               end in
      if sg then - v else v
  | _ => 0
  end.

(** The literal [4.16]: the binary32 number nearest to 416/100. *)
Definition float_4_16 : spec_float :=
  Eval vm_compute in SFdiv prec emax (float_of_int 416) (float_of_int 100).

Definition fmul : spec_float -> spec_float -> spec_float := SFmul prec emax.
Definition fdiv : spec_float -> spec_float -> spec_float := SFdiv prec emax.

(* enum StatisticsPeriods *)
Definition ROLL365D : Z := 0.
Definition ROLL100D : Z := 1.
Definition ROLL60D : Z := 2.
Definition ROLL30D : Z := 3.
Definition ROLL7D : Z := 4.
Definition MONTH01 : Z := 5.

(** The local accumulators of [getStatisticsByPeriod]. *)
Record StatAcc : Set := mkStatAcc {
  totalSprints : Z;
  totalDays : Z;
  maximum : Z;
  minimum : Z
}.

(** [dow = x % 7; if (dow == 0) dow = 7;] *)
Definition dowOf (x : Z) : Z :=
  let dow := Z.rem x 7 in if dow =? 0 then 7 else dow.

(** "Calculate DoW of Jan 1 of previous year" (lines 1221-1222). *)
Definition prevStartDowOf (startDow daysInPreviousYear : Z) : Z :=
  dowOf (startDow - Z.rem daysInPreviousYear 7 + 7).

(** The cell index and the day of week of a day of the period
    (lines 1228-1240). *)
Definition resolveDay (startDow daysInPreviousYear day : Z) : Z * Z :=
  if 1 <=? day then
    (day, dowOf (startDow + (day - 1)))
  else
    let mappedDay := day + daysInPreviousYear in
    (mappedDay,
     dowOf (prevStartDowOf startDow daysInPreviousYear + (mappedDay - 1))).

(** One turn of the loop over the days (lines 1224-1260).  The sums are
    [int]; the model lets them wrap. *)
Definition accumulateDay (cfg : Config) (e : gmap Z Z)
    (startDow daysInPreviousYear : Z) (acc : StatAcc) (day : Z) : StatAcc :=
  let '(idx, dow) := resolveDay startDow daysInPreviousYear day in
  let sprintCounter := EEPROM_read e idx in
  if sprintCounter =? EMPTY_VALUE then acc
  else if sprintCounter =? SPRINTS_END_BYTE then acc
  else if (countingDoWs cfg =? NOT_0_DAYS) && (sprintCounter =? 0) then acc
  else if ((countingDoWs cfg =? FIVE_DAYS) && (6 <=? dow))
          || ((countingDoWs cfg =? SIX_DAYS) && (dow =? 7)) then acc
  else
    mkStatAcc (int16 (totalSprints acc + sprintCounter))
              (int16 (totalDays acc + 1))
              (if maximum acc <? sprintCounter then sprintCounter else maximum acc)
              (if sprintCounter <? minimum acc then sprintCounter else minimum acc).

Definition daysInPreviousYearOf (year : Z) : Z :=
  if isLeapYear (uint16 (year - 1)) then 366 else 365.

(** The accumulators after the loop. *)
Definition accumulate (cfg : Config) (e : gmap Z Z)
    (startDay endDay startDow year : Z) : StatAcc :=
  fold_left (accumulateDay cfg e startDow (daysInPreviousYearOf year))
            (seqZ startDay (endDay - startDay + 1))
            (mkStatAcc 0 0 0 100).

(** [void getStatisticsByPeriod(startDay, endDay, startDow, period, year)];
    [statisticsArray] holds [int], so of the value converted from
    [float] the low sixteen bits are stored. *)
Definition getStatisticsByPeriod (startDay endDay startDow period year : Z)
    (s : State) : State :=
  let multiplier :=
    if countingUnits (config s) =? 1 then float_4_16 else float_of_int 10 in
  let acc := accumulate (config s) (eeprom s) startDay endDay startDow year in
  if 0 <? totalDays acc then
    let s1 := set_statistics TOTAL period
                (int16 (int_of_float
                          (fmul multiplier (float_of_int (totalSprints acc))))) s in
    let s2 := set_statistics MINIMUM period
                (int16 (int_of_float
                          (fmul multiplier (float_of_int (minimum acc))))) s1 in
    let s3 := set_statistics AVERAGE period
                (int16 (int_of_float
                          (fmul multiplier
                             (fdiv (float_of_int (totalSprints acc))
                                   (float_of_int (totalDays acc)))))) s2 in
    set_statistics MAXIMUM period
      (int16 (int_of_float (fmul multiplier (float_of_int (maximum acc))))) s3
  else
    set_statistics MAXIMUM period 0
      (set_statistics AVERAGE period 0
         (set_statistics MINIMUM period 0
            (set_statistics TOTAL period 0 s))).

(** [void calculateStatistics()], on the clock reading [now]
    (the assignment to [inputDayOfYear], a cursor of the daily submenu,
    is left out). *)
Definition calculateStatistics (now : RtcDateTime) (s : State) : State :=
  let s0 := getCurrentDate now s in
  let doy := currentDayOfYear s0 in
  let startDow :=
    Z.rem (currentDayOfWeek s0 - Z.rem (uint16 (doy - 1)) 7 + 7) 7 in
  let endDay := if int16 (doy - 1) <? 1 then 1 else int16 (doy - 1) in
  let year := currentYear s0 in
  let s1 := getStatisticsByPeriod (int16 (doy - 365)) endDay startDow ROLL365D year s0 in
  let s2 := getStatisticsByPeriod (int16 (doy - 100)) endDay startDow ROLL100D year s1 in
  let s3 := getStatisticsByPeriod (int16 (doy - 60)) endDay startDow ROLL60D year s2 in
  let s4 := getStatisticsByPeriod (int16 (doy - 30)) endDay startDow ROLL30D year s3 in
  let s5 := getStatisticsByPeriod (int16 (doy - 7)) endDay startDow ROLL7D year s4 in
  fold_left
    (fun st month =>
       let '(startDayMonth, endDayMonth) := getMonthDayOfYearRange year month in
       getStatisticsByPeriod startDayMonth endDayMonth startDow
         (MONTH01 + (month - 1)) year st)
    (seqZ 1 12) s5.

(** The entry of [statisticsArray]; an entry never stored is 0, as a
    global array is initialised. *)
Definition statistic (s : State) (mode period : Z) : Z :=
  default 0 (statisticsArray s !! (mode, period)).

(** [void getDateFromDayOfYear(inputDayOfYear, formattedString)]: the
    text ["%02u.%02u"] of day and month. *)
Definition fmt02u (n : Z) : string :=
  if n <? 10 then "0" +:+ pretty n else pretty n.

Definition getDateFromDayOfYear (inputDayOfYear : Z) (s : State) : option string :=
  (fun dm => fmt02u (fst dm) +:+ "." +:+ fmt02u (snd dm))
    <$> dateFromDayOfYear inputDayOfYear s.

(** ** Further functions of the sketch *)

(** [uint8_t calculateDOW(uint16_t year, uint8_t month, uint8_t day)]
    (lines 780-788); the sum is computed in [unsigned int]. *)
Definition calculateDOW (year month day : Z) : Z :=
  let month' := if month <? 3 then uint8 (month + 12) else month in
  let year' := if month <? 3 then uint16 (year - 1) else year in
  let dow :=
    uint8 (uint16 (day + 2 * month' + Z.quot (3 * (month' + 1)) 5 + year'
                   + Z.quot year' 4 - Z.quot year' 100 + Z.quot year' 400 + 1)
           mod 7) in
  if dow =? 0 then 7 else dow.

(** The button events the sketch tests ([MFS.getButton()]). *)
Inductive Button : Set :=
  | NO_BUTTON
  | BUTTON_1_SHORT_RELEASE | BUTTON_1_LONG_PRESSED | BUTTON_1_LONG_RELEASE
  | BUTTON_2_SHORT_RELEASE | BUTTON_2_LONG_PRESSED | BUTTON_2_LONG_RELEASE
  | BUTTON_3_SHORT_RELEASE | BUTTON_3_LONG_PRESSED | BUTTON_3_LONG_RELEASE.

Definition Button_eqb (a b : Button) : bool :=
  match a, b with
  | NO_BUTTON, NO_BUTTON
  | BUTTON_1_SHORT_RELEASE, BUTTON_1_SHORT_RELEASE
  | BUTTON_1_LONG_PRESSED, BUTTON_1_LONG_PRESSED
  | BUTTON_1_LONG_RELEASE, BUTTON_1_LONG_RELEASE
  | BUTTON_2_SHORT_RELEASE, BUTTON_2_SHORT_RELEASE
  | BUTTON_2_LONG_PRESSED, BUTTON_2_LONG_PRESSED
  | BUTTON_2_LONG_RELEASE, BUTTON_2_LONG_RELEASE
  | BUTTON_3_SHORT_RELEASE, BUTTON_3_SHORT_RELEASE
  | BUTTON_3_LONG_PRESSED, BUTTON_3_LONG_PRESSED
  | BUTTON_3_LONG_RELEASE, BUTTON_3_LONG_RELEASE => true
  | _, _ => false
  end.

Definition set_state (st : OperatingStates) (code : Z) (s : State) : State :=
  mkState st code (currentInterval s) (tenths s) (seconds s) (minutes s)
    (sprintCounter s) (currentDayOfWeek s) (currentDayOfYear s)
    (currentMonth s) (currentYear s) (config s) (showStaticInfo s)
    (statisticsArray s) (eeprom s) (eepromLog s).

(** [case ERROR] of [loop] (lines 679-698). *)
Definition loop_ERROR (btn : Button) (s : State) : State :=
  let '(btn1, s1) :=
    if (errorCode s =? 1) || (errorCode s =? 2) then
      if Button_eqb btn BUTTON_3_LONG_RELEASE
      then (NO_BUTTON, set_state DATETIMESETUP (errorCode s) s) else (btn, s)
    else (btn, s) in
  if errorCode s1 =? 3 then
    if Button_eqb btn1 BUTTON_3_LONG_RELEASE then set_state STANDBY 0 s1 else s1
  else s1.

(** The menu globals that [clearStatistics] and the statistics submenu
    set (lines 150-153, 76). *)
Record Menu : Set := mkMenu {
  mainMenuMode : Z;
  statisticsMenuMode : Z;
  statisticsPeriod : Z;
  inSubmenu : bool
}.

(* enum MainMenuModes *)
Definition SPRINT : Z := 0.
Definition MONTH12 : Z := 16.
Definition STATISTICS_PERIODS_COUNT : Z := 17.

(** The loop of [clearStatistics] (lines 1279-1285). *)
Definition clearAllCells (s : State) : State :=
  fold_left
    (fun st i => if negb (readCell st i =? EMPTY_VALUE)
                 then EEPROM_update i EMPTY_VALUE st else st)
    (seqZ 0 368) s.

(** [void clearStatistics()] (lines 1277-1298). *)
Definition clearStatistics (s : State) (m : Menu) : State * Menu :=
  let s1 := clearAllCells s in
  (set_state STANDBY (errorCode s1) s1,
   mkMenu SPRINT NOW (statisticsPeriod m) false).

(** "Cycle to next period item, skipping current (incomplete) month"
    (lines 1475-1480): the [do ... while] loop; [None] when the fuel
    runs out. *)
Fixpoint nextStatisticsPeriod (fuel : nat) (statisticsPeriod currentMonth : Z)
    : option Z :=
  match fuel with
  | O => None
  | S fuel' =>
      let p := uint8 (Z.rem (statisticsPeriod + 1) STATISTICS_PERIODS_COUNT) in
      if (MONTH01 <=? p) && (p <=? MONTH12) && (p - MONTH01 + 1 =? currentMonth)
      then nextStatisticsPeriod fuel' p currentMonth
      else Some p
  end.

(** The static variables of [setDateTime] (lines 909-915). *)
Record Editor : Set := mkEditor {
  currentField : Z;
  hourTens : Z; hourUnits : Z;
  minuteTens : Z; minuteUnits : Z;
  dayTens : Z; dayUnits : Z;
  monthTens : Z; monthUnits : Z;
  yearTens : Z; yearUnits : Z;
  initialized : bool
}.

(* enum DateTimeModes *)
Definition HOURS_MINUTES : Z := 0.
Definition DAY_MONTH : Z := 1.
Definition YEAR : Z := 2.

(** "Initialize digits from RTC" (lines 918-966). *)
Definition editorInit (dateTimeMode : Z) (now : RtcDateTime) (ed : Editor) : Editor :=
  if initialized ed then ed
  else
    let field := if dateTimeMode =? HOURS_MINUTES then 0
                 else if dateTimeMode =? DAY_MONTH then 4
                 else if dateTimeMode =? YEAR then 8
                 else currentField ed in
    if isRtcDateTimeSane now then
      mkEditor field
        (uint8 (Z.quot (Hour now) 10)) (uint8 (Z.rem (Hour now) 10))
        (uint8 (Z.quot (Minute now) 10)) (uint8 (Z.rem (Minute now) 10))
        (uint8 (Z.quot (Day now) 10)) (uint8 (Z.rem (Day now) 10))
        (uint8 (Z.quot (Month now) 10)) (uint8 (Z.rem (Month now) 10))
        (uint8 (Z.quot (Z.rem (Year now) 100) 10))
        (uint8 (Z.rem (Z.rem (Year now) 100) 10))
        true
    else mkEditor field 1 2 3 0 3 1 1 2 2 5 true.

(** [case BUTTON_2_SHORT_RELEASE]: "Increment current digit with
    clamping" (lines 1016-1077). *)
Definition editorIncrement (ed : Editor) : Editor :=
  let '(mkEditor f ht hu mt mu dt du mot mou yt yu ini) := ed in
  if f =? 0 then
    let ht' := uint8 (Z.rem (ht + 1) 3) in
    mkEditor f ht' (if (ht' =? 2) && (3 <? hu) then 3 else hu)
             mt mu dt du mot mou yt yu ini
  else if f =? 1 then
    let hu' := uint8 (Z.rem (hu + 1) 10) in
    mkEditor f ht (if (ht =? 2) && (3 <? hu') then 0 else hu')
             mt mu dt du mot mou yt yu ini
  else if f =? 2 then
    mkEditor f ht hu (uint8 (Z.rem (mt + 1) 6)) mu dt du mot mou yt yu ini
  else if f =? 3 then
    mkEditor f ht hu mt (uint8 (Z.rem (mu + 1) 10)) dt du mot mou yt yu ini
  else if f =? 4 then
    let dt' := uint8 (Z.rem (dt + 1) 4) in
    mkEditor f ht hu mt mu dt' (if (dt' =? 3) && (1 <? du) then 1 else du)
             mot mou yt yu ini
  else if f =? 5 then
    let du1 := uint8 (Z.rem (du + 1) 10) in
    let du2 := if (dt =? 0) && (du1 =? 0) then 1 else du1 in
    let du3 := if (dt =? 3) && (1 <? du2) then 0 else du2 in
    mkEditor f ht hu mt mu dt du3 mot mou yt yu ini
  else if f =? 6 then
    let mot' := uint8 (Z.rem (mot + 1) 2) in
    mkEditor f ht hu mt mu dt du mot'
             (if (mot' =? 1) && (2 <? mou) then 2 else mou) yt yu ini
  else if f =? 7 then
    let mou1 := uint8 (Z.rem (mou + 1) 10) in
    let mou2 := if (mot =? 0) && (mou1 =? 0) then 1 else mou1 in
    let mou3 := if (mot =? 1) && (2 <? mou2) then 0 else mou2 in
    mkEditor f ht hu mt mu dt du mot mou3 yt yu ini
  else if f =? 8 then
    mkEditor f ht hu mt mu dt du mot mou (uint8 (Z.rem (yt + 1) 10)) yu ini
  else if f =? 9 then
    mkEditor f ht hu mt mu dt du mot mou yt (uint8 (Z.rem (yu + 1) 10)) ini
  else ed.

(** [case BUTTON_3_SHORT_RELEASE] (lines 1079-1082). *)
Definition editorNextField (ed : Editor) : Editor :=
  let '(mkEditor f ht hu mt mu dt du mot mou yt yu ini) := ed in
  mkEditor (uint8 (Z.rem (f + 1) 10)) ht hu mt mu dt du mot mou yt yu ini.

(** The date and time handed to [Rtc.SetDateTime] (lines 976-984), as
    the reading the clock is asked to show. *)
Definition editorDateTime (ed : Editor) : RtcDateTime :=
  mkRtcDateTime (uint16 (2000 + (yearTens ed * 10 + yearUnits ed)))
                (uint8 (monthTens ed * 10 + monthUnits ed))
                (uint8 (dayTens ed * 10 + dayUnits ed))
                (uint8 (hourTens ed * 10 + hourUnits ed))
                (uint8 (minuteTens ed * 10 + minuteUnits ed))
                0 0.

(** The part of [case BUTTON_1_SHORT_RELEASE / BUTTON_3_LONG_PRESSED]
    of [setDateTime] that acts on the globals (lines 987-1011); [now]
    is the clock reading [getCurrentDate] takes. *)
Definition setDateTime_commit (now : RtcDateTime) (s : State) : State :=
  let s1 := getCurrentDate now (set_state STANDBY 0 s) in
  let s2 := clearStrayEndBytes s1 in
  let s3 := if negb (readCell s2 (currentDayOfYear s2) =? EMPTY_VALUE)
            then set_sprintCounter (readCell s2 (currentDayOfYear s2)) s2
            else set_sprintCounter 0 s2 in
  EEPROM_update (uint16 (currentDayOfYear s3 + 1)) SPRINTS_END_BYTE s3.

(** [void setDateTime(byte btn)] without its display output.  The
    result is the editor, the globals and the value written to the
    clock, if any; [nowInit] is the reading taken when the editor is
    initialised, [now] the one taken on leaving. *)
Definition setDateTime (btn : Button) (dateTimeMode : Z)
    (nowInit now : RtcDateTime) (ed : Editor) (s : State)
    : Editor * State * option RtcDateTime :=
  let ed1 := editorInit dateTimeMode nowInit ed in
  let leave := fun written =>
    (mkEditor (currentField ed1) (hourTens ed1) (hourUnits ed1)
              (minuteTens ed1) (minuteUnits ed1) (dayTens ed1) (dayUnits ed1)
              (monthTens ed1) (monthUnits ed1) (yearTens ed1) (yearUnits ed1)
              false,
     setDateTime_commit now s, written) in
  match btn with
  | BUTTON_3_LONG_PRESSED => leave (Some (editorDateTime ed1))
  | BUTTON_1_SHORT_RELEASE => leave None
  | BUTTON_2_SHORT_RELEASE => (editorIncrement ed1, s, None)
  | BUTTON_3_SHORT_RELEASE => (editorNextField ed1, s, None)
  | _ => (ed1, s, None)
  end.

(** The digits of the editor are those of a time of day and of a day
    and month no larger than 31 and 12. *)
Definition editorDigits (ed : Editor) : Prop :=
  0 <= currentField ed <= 9
  /\ 0 <= hourTens ed <= 2 /\ 0 <= hourUnits ed <= 9
  /\ (hourTens ed = 2 -> hourUnits ed <= 3)
  /\ 0 <= minuteTens ed <= 5 /\ 0 <= minuteUnits ed <= 9
  /\ 0 <= dayTens ed <= 3 /\ 0 <= dayUnits ed <= 9
  /\ (dayTens ed = 3 -> dayUnits ed <= 1)
  /\ 0 <= monthTens ed <= 1 /\ 0 <= monthUnits ed <= 9
  /\ (monthTens ed = 1 -> monthUnits ed <= 2)
  /\ 0 <= yearTens ed <= 9 /\ 0 <= yearUnits ed <= 9.

(** A run of ticks of the counting state with no button event, each
    with its animation flag and clock reading. *)
Definition countingTicks (inputs : list (bool * RtcDateTime)) (s : State) : State :=
  fold_left (fun st i => countingTick (fst i) (snd i) st) inputs s.

(** The ticks left on the countdown. *)
Definition ticksLeft (s : State) : Z :=
  600 * minutes s + 10 * seconds s - tenths s.

(** The days of a rolling window of [w] days as [calculateStatistics]
    passes them (lines 1193-1201), on day [doy]. *)
Definition rollingWindowDays (doy w : Z) : list Z :=
  let endDay := if int16 (doy - 1) <? 1 then 1 else int16 (doy - 1) in
  seqZ (int16 (doy - w)) (endDay - int16 (doy - w) + 1).

(** The editor's static variables at power-up (lines 909-915). *)
Definition editorBoot : Editor := mkEditor 0 0 0 0 0 0 0 0 0 0 0 false.

(** A series of calls of [setDateTime], each with its button event, the
    [dateTimeMode], the two clock readings and the globals at the time
    of the call: the editor after them and the values written to the
    clock, oldest first. *)
Definition setDateTimeCalls
    (calls : list (Button * Z * RtcDateTime * RtcDateTime * State))
    (ed : Editor) : Editor * list RtcDateTime :=
  fold_left
    (fun acc c =>
       let '(btn, mode, nowInit, now, s) := c in
       let '(ed', _, written) := setDateTime btn mode nowInit now (fst acc) s in
       (ed', snd acc ++ match written with Some dt => [dt] | None => [] end))
    calls (ed, []).

(** [case DAILY] of [subMenuStatistics] before the detail view is
    entered (lines 1375-1416): the cursor [inputDayOfYear], a
    [uint16_t], after the call, and the text written to the display.
    A cursor that prints as today's date is first moved one day back;
    then the button acts.  [None] is a read outside the table of month
    lengths in [getDateFromDayOfYear]. *)
Definition subMenuStatisticsDaily (btn : Button) (inputDayOfYear : Z) (s : State)
    : option (Z * string) :=
  let daysInPreviousYear :=
    if isLeapYear (uint16 (currentYear s - 1)) then 366 else 365 in
  match getDateFromDayOfYear inputDayOfYear s,
        getDateFromDayOfYear (currentDayOfYear s) s with
  | Some formattedString, Some formattedStringAdditional =>
      let shown :=
        if String.eqb formattedString formattedStringAdditional then
          let i := uint16 (inputDayOfYear - 1) in
          let i := if i <? 1 then daysInPreviousYear else i in
          (fun str => (i, str)) <$> getDateFromDayOfYear i s
        else Some (inputDayOfYear, formattedString) in
      (fun shown =>
         let i := fst shown in
         (match btn with
          | BUTTON_2_SHORT_RELEASE =>
              let j := uint16 (i - 1) in
              if j <? 1 then
                if daysInPreviousYear <=? currentDayOfYear s
                then uint16 (currentDayOfYear s + 1) else daysInPreviousYear
              else j
          | BUTTON_2_LONG_PRESSED =>
              let j := uint16 (i - 10) in
              if j <? 10 then
                if daysInPreviousYear <=? currentDayOfYear s
                then uint16 (currentDayOfYear s + 10) else daysInPreviousYear
              else j
          | _ => i
          end, snd shown)) <$> shown
  | _, _ => None
  end.




(** ** Definitions that follow the words of the specification *)

(** "divisible by 4, not by 100 unless by 400" *)
Definition gregorianLeap (y : Z) : Prop :=
  Z.divide 4 y /\ (~ Z.divide 100 y \/ Z.divide 400 y).

(** The length of a month: thirty days have September, April, June and
    November, February has 28 and 29 in a leap year, the others 31. *)
Definition monthLength (leap : bool) (m : Z) : Z :=
  if m =? 2 then (if leap then 29 else 28)
  else if (m =? 4) || (m =? 6) || (m =? 9) || (m =? 11) then 30
  else 31.

(** A valid calendar date: a month 1..12 and a day within that month's
    length. *)
Definition validDate (y m d : Z) : Prop :=
  1 <= m <= 12 /\ 1 <= d <= monthLength (isLeapYear y) m.

(** The number of days of a year. *)
Definition daysInYear (y : Z) : Z := if isLeapYear y then 366 else 365.

(** The ISO weekday (1 = Monday .. 7 = Sunday) of day [d] of the year
    whose 1 January falls on weekday [startDow]; days [d <= 0] are the
    last days of the year before. *)
Definition isoDow (startDow d : Z) : Z := (startDow + d - 2) mod 7 + 1.

(** Whether a day with the byte [value] on weekday [dow] counts:
    it holds a count, and the filter of [config.countingDoWs] admits it. *)
Definition counted (cfg : Config) (value dow : Z) : bool :=
  negb (value =? EMPTY_VALUE) && negb (value =? SPRINTS_END_BYTE)
  && (if countingDoWs cfg =? NOT_0_DAYS then negb (value =? 0)
      else if countingDoWs cfg =? FIVE_DAYS then dow <? 6
      else if countingDoWs cfg =? SIX_DAYS then dow <? 7
      else true).

Definition Zsum (l : list Z) : Z := foldr Z.add 0 l.
Definition Zmaximum (l : list Z) : Z := foldr Z.max 0 l.
Definition Zminimum (l : list Z) : Z := foldr Z.min 100 l.

(** A re-scan of a list of (byte, weekday) pairs: the counts of the
    days that count, their sum, number, largest and smallest. *)
Definition keptCounts (cfg : Config) (cells : list (Z * Z)) : list Z :=
  fst <$> filter (fun c => counted cfg (fst c) (snd c) = true) cells.

Definition naiveAggregate (cfg : Config) (cells : list (Z * Z)) : StatAcc :=
  let kept := keptCounts cfg cells in
  mkStatAcc (Zsum kept) (Z.of_nat (length kept)) (Zmaximum kept) (Zminimum kept).

(** The log cell of a day of the window: the day itself within the
    year, the day counted from the end of the previous year otherwise. *)
Definition cellOfDay (daysInPreviousYear day : Z) : Z :=
  if 1 <=? day then day else day + daysInPreviousYear.

Definition windowCells (e : gmap Z Z) (startDow daysInPreviousYear : Z)
    (days : list Z) : list (Z * Z) :=
  (fun d => (EEPROM_read e (cellOfDay daysInPreviousYear d), isoDow startDow d))
    <$> days.

(** ** Auxiliary definitions *)

(** A clock reading with the given date (at midnight). *)
Definition dateOf (y m d : Z) : RtcDateTime := mkRtcDateTime y m d 0 0 0 0.

(** The configuration [initConfig] sets (lines 749-763). *)
Definition initConfig : Config := mkConfig true false 0 1 false false.

(** The count [saveSprint] writes: the running counter on the same day,
    1 on a new day. *)
Definition countToSave (now : RtcDateTime) (s : State) : Z :=
  if dayOfYearOf now =? currentDayOfYear s then sprintCounter s else 1.

(** [s'] differs from [s] in the EEPROM and its log only. *)
Definition eeprom_only (s s' : State) : Prop :=
  s' = set_eeprom (eeprom s') (eepromLog s') s.

(** Today's cell is authoritative: it holds a count and the end byte
    follows it. *)
Definition authoritative (s : State) : Prop :=
  readCell s (currentDayOfYear s) <> EMPTY_VALUE
  /\ readCell s (currentDayOfYear s) <> SPRINTS_END_BYTE
  /\ readCell s (uint16 (currentDayOfYear s + 1)) = SPRINTS_END_BYTE.

(** The countdown of [s] shows 00:01 with the last tenth running: the
    next tick brings it to 00:00. *)
Definition lastTick (s : State) : Prop :=
  tenths s = 9 /\ minutes s = 0 /\ seconds s = 1.

(** The state in which [saveSprint] is called when a work interval
    ends, and the state it returns. *)
Definition sprintDone (now : RtcDateTime) (s : State) : State :=
  saveSprint now
    (set_sprintCounter (uint8 (sprintCounter s + 1))
       (setInterval 0 (set_countdown (currentInterval s) 0 0 0 s))).

(** The entry [getStatisticsByPeriod] stores for a mode, given the
    accumulators: the scaled total, minimum, average or maximum, 0 when
    no day counted. *)
Definition storedStatistic (cfg : Config) (acc : StatAcc) (mode : Z) : Z :=
  let multiplier :=
    if countingUnits cfg =? 1 then float_4_16 else float_of_int 10 in
  let scaled := fun x => int16 (int_of_float (fmul multiplier x)) in
  if 0 <? totalDays acc then
    if mode =? TOTAL then scaled (float_of_int (totalSprints acc))
    else if mode =? MINIMUM then scaled (float_of_int (minimum acc))
    else if mode =? AVERAGE then
      scaled (fdiv (float_of_int (totalSprints acc)) (float_of_int (totalDays acc)))
    else scaled (float_of_int (maximum acc))
  else 0.

(** One turn of the loop of [getStatisticsByPeriod] when only non-zero
    days count, as a function of the byte read. *)
Definition countNonZero (acc : StatAcc) (v : Z) : StatAcc :=
  if (v =? EMPTY_VALUE) || (v =? SPRINTS_END_BYTE) || (v =? 0) then acc
  else mkStatAcc (int16 (totalSprints acc + v)) (int16 (totalDays acc + 1))
                 (Z.max (maximum acc) v) (Z.min (minimum acc) v).

(** ** Example states *)

(** A log around New Year 2025: counts on 30 and 31 December 2024 (days
    365 and 366 of a leap year) and on 1 and 3 January 2025, the end
    byte after day 3. *)
Definition logNewYear : gmap Z Z :=
  <[365 := 4]> (<[366 := 0]> (<[1 := 6]> (<[2 := 0]> (<[3 := 2]>
    (<[4 := SPRINTS_END_BYTE]> ∅))))).

(** A week of counts 2, 0, 0, 5, 0, 0, 3 on days 10..16. *)
Definition logWeek : gmap Z Z :=
  <[10 := 2]> (<[11 := 0]> (<[12 := 0]> (<[13 := 5]> (<[14 := 0]>
    (<[15 := 0]> (<[16 := 3]> ∅)))))).

(** The default configuration with the filter set to non-zero days and
    the given counting unit. *)
Definition notZeroConfig (units : Z) : Config :=
  mkConfig true false NOT_0_DAYS units false false.

(** A state of the running device: day 100 of 2025 (10 April), three
    sprints done today, over the EEPROM contents [e]. *)
Definition day100 (e : gmap Z Z) : State :=
  set_sprintCounter 3 (set_date 100 4 4 2025 (initialState STANDBY initConfig e)).

(** The log of the example: the count 3 on day 100, the end byte after it. *)
Definition logDay100 : gmap Z Z := <[100 := 3]> (<[101 := SPRINTS_END_BYTE]> ∅).

(** The last tick of a work interval on day 100, three sprints done. *)
Definition workEnding : State := set_countdown 25 9 1 0 (day100 ∅).

(** ** Checkers used in the proofs *)

(** Of the year only its leap status matters; 2024 and 2025 stand for
    the two kinds. *)
Definition repYear (y : Z) : Z := if isLeapYear y then 2024 else 2025.

Definition pair_eqb (a b : option (Z * Z)) : bool :=
  match a, b with
  | Some (x, y), Some (x', y') => (x =? x') && (y =? y')
  | None, None => true
  | _, _ => false
  end.

(** Date to day of year and back, checked on one month day. *)
Definition there_and_back (y m d : Z) : bool :=
  let doy := dayOfYearOf (dateOf y m d) in
  negb (d <=? monthLength (isLeapYear y) m)
  || ((1 <=? doy) && (doy <=? daysInYear y)
      && pair_eqb (monthWalk 13 y doy 1) (Some (d, m))).

(** Day of year to date and back, checked on one day of the year. *)
Definition back_and_there (y doy : Z) : bool :=
  negb (doy <=? daysInYear y)
  || match monthWalk 13 y doy 1 with
     | Some (d, m) =>
         (1 <=? m) && (m <=? 12) && (1 <=? d)
         && (d <=? monthLength (isLeapYear y) m)
         && (dayOfYearOf (dateOf y m d) =? doy)
     | None => false
     end.

(** Start, end and membership of the months of a year, checked on one
    month. *)
Definition month_range_ok (y m : Z) : bool :=
  let '(startDay, endDay) := getMonthDayOfYearRange y m in
  (startDay =? dayOfYearOf (dateOf y m 1))
  && (endDay =? startDay + monthLength (isLeapYear y) m - 1)
  && (if m =? 1 then startDay =? 1 else true)
  && (if m =? 12 then endDay =? daysInYear y
      else fst (getMonthDayOfYearRange y (m + 1)) =? endDay + 1).

(** The weekday of a date against the weekday of 1 January and the day
    of the year, checked on one date. *)
Definition weekday_ok (y m d : Z) : bool :=
  negb (d <=? monthLength (isLeapYear y) m)
  || ((1 <=? calculateDOW y m d) && (calculateDOW y m d <=? 7)
      && (calculateDOW y m d
          =? isoDow (calculateDOW y 1 1) (dayOfYearOf (dateOf y m d)))).

(** The day of the year grows with the day of the month, checked on
    one date. *)
Definition day_offset_ok (y m d : Z) : bool :=
  negb (d <=? monthLength (isLeapYear y) m)
  || (dayOfYearOf (dateOf y m d) =? dayOfYearOf (dateOf y m 1) + d - 1).

Definition new_year_weekday_ok (y : Z) : bool :=
  calculateDOW (y + 1) 1 1 =? isoDow (calculateDOW y 1 1) (daysInYear y + 1).

(** The day of the year of a date against that of the same date in
    2025, and the start of March, checked on one date. *)
Definition year_shift_ok (y m d : Z) : bool :=
  (dayOfYearOf (dateOf y m d)
   =? dayOfYearOf (dateOf 2025 m d) + (if (2 <? m) && isLeapYear y then 1 else 0))
  && (negb (d <=? monthLength false m)
      || Bool.eqb (3 <=? m) (60 <=? dayOfYearOf (dateOf 2025 m d))).

(** * Properties *)

(** ** Machine integers *)

Lemma uint8_small z : 0 <= z < 256 -> uint8 z = z.
Proof. intros H. unfold uint8. apply Z.mod_small. exact H. Qed.

Lemma uint16_small z : 0 <= z < 65536 -> uint16 z = z.
Proof. intros H. unfold uint16. apply Z.mod_small. exact H. Qed.

Lemma int16_small z : -32768 <= z < 32768 -> int16 z = z.
Proof. intros H. unfold int16. rewrite Z.mod_small; lia. Qed.

Lemma uint8_range z : 0 <= uint8 z < 256.
Proof. unfold uint8. apply Z.mod_pos_bound. lia. Qed.

Lemma uint8_idem z : uint8 (uint8 z) = uint8 z.
Proof. apply uint8_small, uint8_range. Qed.

(** ** Calendar *)

Section Calendar.

Lemma isLeapYear_rep y : isLeapYear (repYear y) = isLeapYear y.
Proof. unfold repYear. destruct (isLeapYear y) eqn:E; reflexivity. Qed.

Lemma getDaysInMonth_rep y m : getDaysInMonth y m = getDaysInMonth (repYear y) m.
Proof. unfold getDaysInMonth. rewrite isLeapYear_rep. reflexivity. Qed.

Lemma monthWalk_rep fuel y d m :
  monthWalk fuel y d m = monthWalk fuel (repYear y) d m.
Proof.
  revert d m. induction fuel as [|fuel IH]; intros d m; simpl; [reflexivity|].
  rewrite <- getDaysInMonth_rep.
  destruct (getDaysInMonth y m) as [len|]; [|reflexivity].
  destruct (len <? d); [apply IH | reflexivity].
Qed.

Lemma dayOfYearOf_rep y m d h mi se dw :
  dayOfYearOf (mkRtcDateTime y m d h mi se dw) = dayOfYearOf (dateOf (repYear y) m d).
Proof. unfold dayOfYearOf, dateOf. simpl. rewrite isLeapYear_rep. reflexivity. Qed.

Lemma monthLength_getDaysInMonth y m :
  1 <= m <= 12 -> getDaysInMonth y m = Some (monthLength (isLeapYear y) m).
Proof.
  intros Hm. unfold getDaysInMonth, monthLength.
  assert (H : m = 1 \/ m = 2 \/ m = 3 \/ m = 4 \/ m = 5 \/ m = 6 \/ m = 7
              \/ m = 8 \/ m = 9 \/ m = 10 \/ m = 11 \/ m = 12) by lia.
  destruct (isLeapYear y);
    repeat (destruct H as [H|H]; [subst m; reflexivity|]); subst m; reflexivity.
Qed.

Lemma pair_eqb_eq a b : pair_eqb a b = true -> a = b.
Proof.
  destruct a as [[x y]|], b as [[x' y']|]; simpl; try discriminate; auto.
  intros H. apply andb_prop in H as [H1 H2].
  apply Z.eqb_eq in H1, H2. congruence.
Qed.

Lemma there_and_back_all :
  forallb (fun y => forallb (fun m => forallb (there_and_back y m)
    (seqZ 1 31)) (seqZ 1 12)) [2024; 2025] = true.
Proof. vm_compute. reflexivity. Qed.

Lemma back_and_there_all :
  forallb (fun y => forallb (back_and_there y) (seqZ 1 366)) [2024; 2025] = true.
Proof. vm_compute. reflexivity. Qed.

Lemma repYear_In y : In (repYear y) [2024; 2025].
Proof. unfold repYear. destruct (isLeapYear y); simpl; auto. Qed.

Lemma In_seqZ a n k : a <= k < a + n -> In k (seqZ a n).
Proof. intros H. apply list_elem_of_In, elem_of_seqZ. exact H. Qed.

Lemma monthLength_le_31 b m : monthLength b m <= 31.
Proof.
  unfold monthLength.
  destruct (m =? 2); [destruct b; lia|].
  destruct ((m =? 4) || (m =? 6) || (m =? 9) || (m =? 11)); lia.
Qed.

(** From a valid date to its day of year and back. *)
Lemma date_doy_date y m d :
  validDate y m d ->
  let doy := dayOfYearOf (dateOf y m d) in
  1 <= doy <= daysInYear y /\ monthWalk 13 y doy 1 = Some (d, m).
Proof.
  intros [Hm Hd]. cbv zeta.
  unfold dateOf. rewrite dayOfYearOf_rep, monthWalk_rep.
  unfold daysInYear. rewrite <- (isLeapYear_rep y).
  rewrite <- (isLeapYear_rep y) in Hd.
  pose proof (monthLength_le_31 (isLeapYear (repYear y)) m) as H31.
  pose proof there_and_back_all as H.
  rewrite forallb_forall in H. specialize (H _ (repYear_In y)).
  rewrite forallb_forall in H. specialize (H m (In_seqZ 1 12 m ltac:(lia))).
  rewrite forallb_forall in H. specialize (H d (In_seqZ 1 31 d ltac:(lia))).
  unfold there_and_back in H. cbv zeta in H.
  apply orb_prop in H as [H|H].
  - apply negb_true_iff, Z.leb_gt in H. lia.
  - apply andb_prop in H as [H H3]. apply andb_prop in H as [H1 H2].
    apply Z.leb_le in H1, H2. apply pair_eqb_eq in H3.
    unfold daysInYear in H2. auto.
Qed.

(** From a day of the year to its date and back. *)
Lemma doy_date_doy y doy :
  1 <= doy <= daysInYear y ->
  exists d m, monthWalk 13 y doy 1 = Some (d, m)
              /\ validDate y m d /\ dayOfYearOf (dateOf y m d) = doy.
Proof.
  intros Hdoy. rewrite monthWalk_rep.
  assert (Hy : daysInYear y = daysInYear (repYear y))
    by (unfold daysInYear; now rewrite isLeapYear_rep).
  assert (H366 : daysInYear y <= 366)
    by (unfold daysInYear; destruct (isLeapYear y); lia).
  pose proof back_and_there_all as H.
  rewrite forallb_forall in H. specialize (H _ (repYear_In y)).
  rewrite forallb_forall in H. specialize (H doy (In_seqZ 1 366 doy ltac:(lia))).
  unfold back_and_there in H.
  apply orb_prop in H as [H|H].
  - apply negb_true_iff, Z.leb_gt in H. lia.
  - destruct (monthWalk 13 (repYear y) doy 1) as [[d m]|]; [|discriminate].
    exists d, m. split; [reflexivity|].
    repeat (apply andb_prop in H as [H ?]).
    rewrite isLeapYear_rep in *.
    unfold validDate. unfold dateOf at 1. rewrite dayOfYearOf_rep.
    repeat split; try (apply Z.leb_le; assumption).
    apply Z.eqb_eq. assumption.
Qed.

Lemma dayOfYearOf_dateOf now :
  dayOfYearOf now = dayOfYearOf (dateOf (Year now) (Month now) (Day now)).
Proof. destruct now; reflexivity. Qed.

Lemma sane_valid now :
  isRtcDateTimeSane now = true ->
  2025 <= Year now <= 2050 /\ validDate (Year now) (Month now) (Day now).
Proof.
  unfold isRtcDateTimeSane, validDate.
  destruct (Z.ltb_spec (Year now) 2025); [discriminate|].
  destruct (Z.ltb_spec 2050 (Year now)); [discriminate|].
  destruct (Z.ltb_spec (Month now) 1); [discriminate|].
  destruct (Z.ltb_spec 12 (Month now)); [discriminate|].
  rewrite monthLength_getDaysInMonth by lia. simpl.
  destruct (Z.ltb_spec (Day now) 1); [discriminate|].
  destruct (Z.ltb_spec (monthLength (isLeapYear (Year now)) (Month now)) (Day now));
    [discriminate|].
  intros _. lia.
Qed.

Lemma sane_dayOfYear now :
  isRtcDateTimeSane now = true -> 1 <= dayOfYearOf now <= 366.
Proof.
  intros H. apply sane_valid in H as [_ H].
  apply date_doy_date in H as [H _]. cbv zeta in H.
  rewrite <- dayOfYearOf_dateOf in H.
  unfold daysInYear in H. destruct (isLeapYear (Year now)); lia.
Qed.

Lemma isLeapYear_gregorian y : isLeapYear y = true <-> gregorianLeap y.
Proof.
  unfold isLeapYear, gregorianLeap.
  rewrite andb_true_iff, orb_true_iff, negb_true_iff.
  rewrite !Z.eqb_eq, Z.eqb_neq.
  rewrite <- !Z.mod_divide by lia. reflexivity.
Qed.

End Calendar.

(** C6.  [isLeapYear] is the Gregorian rule, and on valid dates the
    day-of-year computation of [getCurrentDate] and the month walk of
    [getDateFromDayOfYear] undo each other, in both directions, whenever
    the year the latter resolves is the year of the date, be it the
    current year (a day up to today) or the one before (a later day);
    in particular right after [getCurrentDate] has accepted a clock
    reading, the current day of year prints as the day and month of
    that reading. *)
Theorem calendar_conversions_inverse :
  (forall y, isLeapYear y = true <-> gregorianLeap y)
  /\ (forall y m d s,
        validDate y m d ->
        (if dayOfYearOf (dateOf y m d) <=? currentDayOfYear s
         then currentYear s else uint16 (currentYear s - 1)) = y ->
        dateFromDayOfYear (dayOfYearOf (dateOf y m d)) s = Some (d, m)
        /\ getDateFromDayOfYear (dayOfYearOf (dateOf y m d)) s
           = Some (fmt02u d +:+ "." +:+ fmt02u m))
  /\ (forall y doy s,
        1 <= doy <= daysInYear y ->
        (if doy <=? currentDayOfYear s
         then currentYear s else uint16 (currentYear s - 1)) = y ->
        exists d m, dateFromDayOfYear doy s = Some (d, m)
                    /\ validDate y m d /\ dayOfYearOf (dateOf y m d) = doy)
  /\ (forall now s,
        isRtcDateTimeSane now = true ->
        dateFromDayOfYear (currentDayOfYear (getCurrentDate now s))
                          (getCurrentDate now s)
        = Some (Day now, Month now)).
Proof.
  split; [exact isLeapYear_gregorian|]. split; [|split].
  - intros y m d s Hv Hy.
    assert (H : dateFromDayOfYear (dayOfYearOf (dateOf y m d)) s = Some (d, m)).
    { unfold dateFromDayOfYear. rewrite Hy. apply (date_doy_date y m d Hv). }
    split; [exact H|]. unfold getDateFromDayOfYear. rewrite H. reflexivity.
  - intros y doy s Hdoy Hy. unfold dateFromDayOfYear.
    rewrite Hy. apply doy_date_doy. exact Hdoy.
  - intros now s Hs. unfold getCurrentDate. rewrite Hs.
    unfold dateFromDayOfYear. cbn [set_date currentDayOfYear currentYear].
    rewrite Z.leb_refl.
    apply sane_valid in Hs as [_ Hv].
    rewrite dayOfYearOf_dateOf.
    exact (proj2 (date_doy_date (Year now) (Month now) (Day now) Hv)).
Qed.

(** An instance: 1 March 2028 is day 61 of a leap year and prints as
    "01.03"; asked on 10 April 2025, day 366 is 31 December 2024 and
    prints as "31.12". *)
Lemma calendar_conversions_inverse_witness :
  validDate 2028 3 1
  /\ getDateFromDayOfYear 61
       (set_date 61 3 3 2028 (initialState STANDBY initConfig ∅))
     = Some "01.03"%string
  /\ getDateFromDayOfYear 366 (day100 ∅) = Some "31.12"%string.
Proof.
  assert (V1 : validDate 2028 3 1) by (vm_compute; intuition discriminate).
  assert (V2 : validDate 2024 12 31) by (vm_compute; intuition discriminate).
  assert (E1 : dayOfYearOf (dateOf 2028 3 1) = 61) by (vm_compute; reflexivity).
  assert (E2 : dayOfYearOf (dateOf 2024 12 31) = 366) by (vm_compute; reflexivity).
  destruct calendar_conversions_inverse as (_ & H & _).
  split; [exact V1|]. split.
  - destruct (H 2028 3 1 (set_date 61 3 3 2028 (initialState STANDBY initConfig ∅)) V1)
      as [_ H1]; [rewrite E1; vm_compute; reflexivity|].
    rewrite E1 in H1. rewrite H1. vm_compute. reflexivity.
  - destruct (H 2024 12 31 (day100 ∅) V2) as [_ H2];
      [rewrite E2; vm_compute; reflexivity|].
    rewrite E2 in H2. rewrite H2. vm_compute. reflexivity.
Defined.

(** ** EEPROM cells *)

Section Eeprom.

Lemma EEPROM_read_range e a : 0 <= EEPROM_read e a < 256.
Proof. apply uint8_range. Qed.

Lemma readCell_range s a : 0 <= readCell s a < 256.
Proof. apply EEPROM_read_range. Qed.

Lemma readCell_update idx val s a :
  readCell (EEPROM_update idx val s) a
  = if decide (a = idx) then uint8 val else readCell s a.
Proof.
  unfold readCell, EEPROM_update. simpl.
  destruct (Z.eqb_spec (EEPROM_read (eeprom s) idx) (uint8 val)) as [E|E].
  - destruct (decide (a = idx)) as [->|]; [exact E | reflexivity].
  - unfold EEPROM_read. destruct (decide (a = idx)) as [->|Hne].
    + rewrite lookup_insert_eq. simpl. apply uint8_idem.
    + rewrite lookup_insert_ne by congruence. reflexivity.
Qed.

Lemma readCell_update_eq idx val s : readCell (EEPROM_update idx val s) idx = uint8 val.
Proof. rewrite readCell_update. destruct (decide (idx = idx)); congruence. Qed.

Lemma readCell_update_ne idx val s a :
  a <> idx -> readCell (EEPROM_update idx val s) a = readCell s a.
Proof. intros H. rewrite readCell_update. destruct (decide (a = idx)); congruence. Qed.

(** An update of a cell that already holds the value leaves the EEPROM
    as it is. *)
Lemma eeprom_update_same idx val s :
  readCell s idx = uint8 val -> eeprom (EEPROM_update idx val s) = eeprom s.
Proof.
  unfold readCell, EEPROM_update. simpl. intros ->.
  rewrite Z.eqb_refl. reflexivity.
Qed.

Lemma eeprom_only_refl s : eeprom_only s s.
Proof. destruct s; reflexivity. Qed.

Lemma eeprom_only_trans s1 s2 s3 :
  eeprom_only s1 s2 -> eeprom_only s2 s3 -> eeprom_only s1 s3.
Proof. unfold eeprom_only. intros H12 H23. rewrite H23, H12. reflexivity. Qed.

Lemma eeprom_only_update idx val s : eeprom_only s (EEPROM_update idx val s).
Proof. reflexivity. Qed.

Lemma eeprom_only_globals s s' :
  eeprom_only s s' ->
  operatingState s' = operatingState s /\ errorCode s' = errorCode s
  /\ currentDayOfYear s' = currentDayOfYear s
  /\ sprintCounter s' = sprintCounter s
  /\ currentYear s' = currentYear s /\ config s' = config s.
Proof. intros ->. repeat split. Qed.

End Eeprom.

(** ** The lookahead check *)

Lemma validateNextDayCell_pass s :
  readCell s (uint16 (currentDayOfYear s + 2)) = EMPTY_VALUE
  \/ readCell s (uint16 (currentDayOfYear s + 2)) < 58 ->
  validateNextDayCell s = s.
Proof.
  intros H. unfold validateNextDayCell.
  pose proof (readCell_range s (uint16 (currentDayOfYear s + 2))) as Hr.
  destruct (errorCode s =? 0); [|reflexivity]. cbn [andb].
  destruct (Z.eqb_spec (readCell s (uint16 (currentDayOfYear s + 2))) EMPTY_VALUE);
    [reflexivity|]. cbn [negb].
  destruct (Z.leb_spec 0 (readCell s (uint16 (currentDayOfYear s + 2)))); [|lia].
  destruct (Z.ltb_spec (readCell s (uint16 (currentDayOfYear s + 2))) 58);
    [reflexivity | lia].
Qed.

(** C4 (as amended).  With no fault pending, [validateNextDayCell] raises
    fault 3 and enters the error state exactly when the byte of cell
    d+2 lies in 58..254, that is, is neither EMPTY nor a count below 58;
    an EMPTY cell or a count 0..57 leaves the state as it is. *)
Theorem validateNextDayCell_fault (s : State) (d : Z) :
  1 <= d <= 366 -> currentDayOfYear s = d -> errorCode s = 0 ->
  let v := readCell s (d + 2) in
  (errorCode (validateNextDayCell s) = 3 <-> 58 <= v <= 254)
  /\ (58 <= v <= 254 ->
      validateNextDayCell s = set_error 3 s
      /\ operatingState (validateNextDayCell s) = ERROR)
  /\ (v = EMPTY_VALUE \/ 0 <= v < 58 -> validateNextDayCell s = s).
Proof.
  intros Hd Hcur Herr v.
  pose proof (readCell_range s (d + 2)) as Hv. fold v in Hv.
  unfold validateNextDayCell. rewrite Hcur, Herr.
  rewrite uint16_small by lia. fold v. simpl.
  unfold EMPTY_VALUE in *.
  destruct (Z.eqb_spec v 255) as [E|E]; simpl.
  - rewrite Herr. repeat split; intros; try lia; reflexivity.
  - destruct (Z.leb_spec 0 v); [|lia]. simpl.
    destruct (Z.ltb_spec v 58); simpl.
    + rewrite Herr. repeat split; intros; try lia; reflexivity.
    + repeat split; intros; try lia; reflexivity.
Qed.

Lemma validateNextDayCell_fault_witness :
  let s := set_date 100 4 4 2025
             (initialState STANDBY initConfig {[102 := 200]}) in
  errorCode (validateNextDayCell s) = 3 <-> 58 <= readCell s (100 + 2) <= 254.
Proof.
  exact (proj1 (validateNextDayCell_fault
                  (set_date 100 4 4 2025
                     (initialState STANDBY initConfig {[102 := 200]}))
                  100 ltac:(lia) eq_refl eq_refl)).
Defined.

(** C4 as stated fails: on day 100 the lookahead cell 102 holds the
    count 5, which is not EMPTY, and no fault is raised. *)
Lemma validateNextDayCell_fault_counterexample :
  let s := set_date 100 4 4 2025
             (initialState STANDBY initConfig {[102 := 5]}) in
  readCell s (100 + 2) <> EMPTY_VALUE
  /\ errorCode (validateNextDayCell s) = 0
  /\ operatingState (validateNextDayCell s) = STANDBY.
Proof. vm_compute. repeat split. discriminate. Qed.

(** ** Loops over the log *)

Section Loops.

(** The zero-filling loops: every address visited is updated to 0, in
    the order of the visit. *)
Lemma fill_fold_spec (f : Z -> Z) (l : list Z) (s : State) :
  let s' := fold_left (fun st i => EEPROM_update (f i) 0 st) l s in
  eeprom_only s s'
  /\ eepromLog s' = eepromLog s ++ map (fun i => (f i, 0)) l
  /\ forall a, readCell s' a = if decide (a ∈ f <$> l) then 0 else readCell s a.
Proof.
  induction l as [|x l IH] using rev_ind; cbv zeta.
  - simpl. split; [apply eeprom_only_refl|]. split; [now rewrite app_nil_r|].
    intros a. destruct (decide (a ∈ f <$> [])) as [H|H]; [|reflexivity].
    apply elem_of_nil in H. contradiction.
  - rewrite fold_left_app. simpl.
    destruct IH as (Ho & Hlog & Hread).
    set (sl := fold_left (fun st i => EEPROM_update (f i) 0 st) l s) in *.
    split; [eapply eeprom_only_trans; [exact Ho | apply eeprom_only_update]|].
    split.
    + simpl. rewrite Hlog, map_app, <- app_assoc. reflexivity.
    + intros a. rewrite readCell_update, fmap_app. simpl.
      destruct (decide (a = f x)) as [->|Hne].
      * rewrite decide_True; [reflexivity|].
        apply elem_of_app. right. apply list_elem_of_singleton. reflexivity.
      * rewrite Hread.
        destruct (decide (a ∈ f <$> l)) as [Hin|Hin].
        -- rewrite decide_True; [reflexivity|]. apply elem_of_app. now left.
        -- rewrite decide_False; [reflexivity|].
           intros [H|H]%elem_of_app; [contradiction|].
           apply list_elem_of_singleton in H. contradiction.
Qed.

Lemma fillZero_spec lo hi s :
  let s' := fillZero lo hi s in
  eeprom_only s s'
  /\ eepromLog s' = eepromLog s ++ map (fun i => (i, 0)) (seqZ lo (hi - lo + 1))
  /\ forall a, readCell s' a = if decide (lo <= a <= hi) then 0 else readCell s a.
Proof.
  cbv zeta. unfold fillZero.
  destruct (fill_fold_spec (fun i => i) (seqZ lo (hi - lo + 1)) s) as (Ho & Hlog & Hread).
  split; [exact Ho|]. split; [exact Hlog|].
  intros a. rewrite Hread, list_fmap_id.
  destruct (decide (a ∈ seqZ lo (hi - lo + 1))) as [H|H];
    rewrite elem_of_seqZ in H.
  - rewrite decide_True by lia. reflexivity.
  - rewrite decide_False by lia. reflexivity.
Qed.

Lemma fillSkipped_spec latest skipped s :
  let s' := fillSkipped latest skipped s in
  eeprom_only s s'
  /\ eepromLog s' = eepromLog s ++ map (fun i => (i, 0)) (seqZ (latest + 1) skipped)
  /\ forall a, readCell s' a
               = if decide (latest + 1 <= a <= latest + skipped) then 0
                 else readCell s a.
Proof.
  cbv zeta. unfold fillSkipped.
  destruct (fill_fold_spec (fun i => latest + i) (seqZ 1 skipped) s)
    as (Ho & Hlog & Hread).
  assert (Hseq : Z.add latest <$> seqZ 1 skipped = seqZ (latest + 1) skipped)
    by apply fmap_add_seqZ.
  split; [exact Ho|]. split.
  - rewrite Hlog, <- Hseq. f_equal.
    rewrite <- list_fmap_compose. reflexivity.
  - intros a. rewrite Hread. change (fun i => latest + i) with (Z.add latest).
    rewrite Hseq.
    destruct (decide (a ∈ seqZ (latest + 1) skipped)) as [H|H];
      rewrite elem_of_seqZ in H.
    + rewrite decide_True by lia. reflexivity.
    + rewrite decide_False by lia. reflexivity.
Qed.

(** The loop that clears stray end bytes, over any list of distinct
    addresses: a visited cell is set to EMPTY exactly when it held the
    end byte before the loop and is not the cell after today's. *)
Lemma clear_fold_spec (l : list Z) (s : State) :
  NoDup l ->
  let c := uint16 (currentDayOfYear s + 1) in
  let stray := fun a => readCell s a = SPRINTS_END_BYTE /\ a <> c in
  let s' :=
    fold_left
      (fun st address =>
         if (readCell st address =? SPRINTS_END_BYTE)
            && negb (address =? uint16 (currentDayOfYear st + 1))
         then EEPROM_update address EMPTY_VALUE st
         else st) l s in
  eeprom_only s s'
  /\ eepromLog s' = eepromLog s ++ map (fun a => (a, EMPTY_VALUE)) (filter stray l)
  /\ forall a, readCell s' a
               = if decide (a ∈ l /\ stray a) then EMPTY_VALUE else readCell s a.
Proof.
  intros Hnd c stray.
  induction l as [|x l IH] using rev_ind; cbv zeta.
  - split; [apply eeprom_only_refl|]. split; [simpl; now rewrite app_nil_r|].
    intros a. destruct (decide (a ∈ [] /\ stray a)) as [[H _]|]; [|reflexivity].
    apply elem_of_nil in H. contradiction.
  - apply NoDup_app in Hnd as (Hnd & Hx & _).
    specialize (IH Hnd). cbv zeta in IH.
    rewrite fold_left_app. cbn [fold_left].
    set (sl := fold_left _ l s) in *.
    destruct IH as (Ho & Hlog & Hread).
    assert (Hxl : x ∉ l).
    { intros Hin. apply (Hx x Hin). apply list_elem_of_singleton. reflexivity. }
    assert (Hrx : readCell sl x = readCell s x).
    { rewrite Hread. rewrite decide_False; [reflexivity|]. intros [H _]. contradiction. }
    assert (Hc : uint16 (currentDayOfYear sl + 1) = c).
    { unfold c. destruct (eeprom_only_globals _ _ Ho) as (_ & _ & -> & _). reflexivity. }
    rewrite Hrx, Hc. rewrite filter_app, map_app.
    destruct (Z.eqb_spec (readCell s x) SPRINTS_END_BYTE) as [E|E];
      destruct (Z.eqb_spec x c) as [E'|E']; cbn [andb negb].
    all: try (rewrite filter_cons_False by (unfold stray; tauto);
              rewrite filter_nil; simpl; rewrite app_nil_r;
              split; [exact Ho|]; split; [exact Hlog|];
              intros a; rewrite Hread;
              destruct (decide (a ∈ l /\ stray a)) as [[Hin Hs]|Hn];
              [ rewrite decide_True; [reflexivity|]; split; [|exact Hs];
                apply elem_of_app; now left
              | rewrite decide_False; [reflexivity|];
                intros [[Hin|Hin]%elem_of_app Hs]; [tauto|];
                apply list_elem_of_singleton in Hin; subst a;
                unfold stray in Hs; tauto ]).
    rewrite filter_cons_True by (unfold stray; tauto). rewrite filter_nil.
    split; [eapply eeprom_only_trans; [exact Ho | apply eeprom_only_update]|].
    split.
    + cbn [EEPROM_update set_eeprom eepromLog]. rewrite Hlog, <- app_assoc.
      reflexivity.
    + intros a. rewrite readCell_update.
      destruct (decide (a = x)) as [->|Hne].
      * rewrite decide_True; [reflexivity|].
        split; [|unfold stray; tauto].
        apply elem_of_app. right. apply list_elem_of_singleton. reflexivity.
      * rewrite Hread.
        destruct (decide (a ∈ l /\ stray a)) as [[Hin Hs]|Hn].
        -- rewrite decide_True; [reflexivity|]. split; [|exact Hs].
           apply elem_of_app. now left.
        -- rewrite decide_False; [reflexivity|].
           intros [[Hin|Hin]%elem_of_app Hs]; [tauto|].
           apply list_elem_of_singleton in Hin. contradiction.
Qed.

Lemma clearStrayEndBytes_spec (s : State) :
  let c := uint16 (currentDayOfYear s + 1) in
  let stray := fun a => readCell s a = SPRINTS_END_BYTE /\ a <> c in
  let s' := clearStrayEndBytes s in
  eeprom_only s s'
  /\ eepromLog s'
     = eepromLog s ++ map (fun a => (a, EMPTY_VALUE)) (filter stray (seqZ 2 366))
  /\ forall a, readCell s' a
               = if decide (a ∈ seqZ 2 366 /\ stray a) then EMPTY_VALUE
                 else readCell s a.
Proof. apply (clear_fold_spec (seqZ 2 366) s), NoDup_seqZ. Qed.

End Loops.

(** ** Saving a sprint *)

Section SaveSprint.

Lemma validateNextDayCell_ok s :
  errorCode (validateNextDayCell s) = 0 ->
  validateNextDayCell s = s /\ errorCode s = 0.
Proof.
  unfold validateNextDayCell.
  destruct (Z.eqb_spec (errorCode s) 0) as [E|E]; cbn [andb]; [|tauto].
  destruct (negb _); [|tauto].
  destruct (_ && _); [tauto|]. simpl. discriminate.
Qed.

(** When [saveSprint] ends with no fault, the clock reading was sane,
    no fault was pending and the lookahead check passed. *)
Lemma saveSprint_no_error now s :
  errorCode (saveSprint now s) = 0 ->
  isRtcDateTimeSane now = true /\ errorCode s = 0
  /\ validateNextDayCell (getCurrentDate now s) = getCurrentDate now s.
Proof.
  unfold saveSprint.
  destruct (Z.eqb_spec (errorCode (validateNextDayCell (getCurrentDate now s))) 0)
    as [E|E]; [intros _|intros H; contradiction].
  apply validateNextDayCell_ok in E as [Hv E]. split; [|split; [|exact Hv]].
  - unfold getCurrentDate in E. destruct (isRtcDateTimeSane now); [reflexivity|].
    simpl in E. discriminate.
  - unfold getCurrentDate in E. destruct (isRtcDateTimeSane now); exact E || discriminate.
Qed.

(** The effect of a [saveSprint] that ends with no fault. *)
Lemma saveSprint_spec now s :
  errorCode (saveSprint now s) = 0 ->
  let s' := saveSprint now s in
  let d := dayOfYearOf now in
  let n := countToSave now s in
  let cell := fun a => if decide (a = d) then uint8 n else readCell s a in
  let stray := fun a => cell a = SPRINTS_END_BYTE /\ a <> d + 1 in
  1 <= d <= 366
  /\ currentDayOfYear s' = d /\ sprintCounter s' = n
  /\ eepromLog s'
     = eepromLog s ++ (d, uint8 n)
         :: map (fun a => (a, EMPTY_VALUE)) (filter stray (seqZ 2 366))
         ++ [(d + 1, SPRINTS_END_BYTE)]
  /\ forall a, readCell s' a
               = if decide (a = d + 1) then SPRINTS_END_BYTE
                 else if decide (2 <= a <= 367 /\ cell a = SPRINTS_END_BYTE)
                      then EMPTY_VALUE
                      else cell a.
Proof.
  intros Hok. pose proof (saveSprint_no_error now s Hok) as (Hsane & Herr & Hval).
  pose proof (sane_dayOfYear now Hsane) as Hd.
  cbv zeta. unfold saveSprint. rewrite Hval.
  assert (Hg : getCurrentDate now s
               = set_date (dayOfYearOf now)
                   (if DayOfWeek now =? 0 then 7 else DayOfWeek now)
                   (Month now) (Year now) s)
    by (unfold getCurrentDate; now rewrite Hsane).
  set (s1 := getCurrentDate now s) in *.
  assert (Hd1 : currentDayOfYear s1 = dayOfYearOf now) by (now rewrite Hg).
  assert (Hn1 : sprintCounter s1 = sprintCounter s) by (now rewrite Hg).
  assert (He1 : forall a, readCell s1 a = readCell s a) by (now rewrite Hg).
  assert (Hl1 : eepromLog s1 = eepromLog s) by (now rewrite Hg).
  assert (Hz : (errorCode s1 =? 0) = true) by (apply Z.eqb_eq; now rewrite Hg).
  rewrite Hz. clear Hok Hz.
  set (s3 := if currentDayOfYear s1 =? currentDayOfYear s then s1
             else set_sprintCounter 1 s1).
  assert (H3 : currentDayOfYear s3 = dayOfYearOf now
               /\ sprintCounter s3 = countToSave now s
               /\ (forall a, readCell s3 a = readCell s a)
               /\ eepromLog s3 = eepromLog s).
  { unfold s3, countToSave. rewrite Hd1.
    destruct (dayOfYearOf now =? currentDayOfYear s); auto. }
  destruct H3 as (Hd3 & Hn3 & He3 & Hl3). clearbody s3.
  rewrite Hd3, Hn3.
  set (d := dayOfYearOf now) in *. set (n := countToSave now s) in *.
  set (s4 := EEPROM_update d n s3).
  assert (Hd4 : currentDayOfYear s4 = d) by exact Hd3.
  destruct (clearStrayEndBytes_spec s4) as (Ho & Hlog & Hread).
  set (s5 := clearStrayEndBytes s4) in *.
  destruct (eeprom_only_globals _ _ Ho) as (_ & _ & Hd5 & Hn5 & _).
  rewrite Hd4 in *. rewrite uint16_small in * by lia.
  assert (Hcell : forall a, readCell s4 a
                            = if decide (a = d) then uint8 n else readCell s a).
  { intros a. unfold s4. rewrite readCell_update, He3. reflexivity. }
  rewrite Hd5.
  split; [exact Hd|]. split; [exact Hd5|].
  split; [cbn [EEPROM_update set_eeprom sprintCounter]; rewrite Hn5; exact Hn3|].
  split.
  - cbn [EEPROM_update set_eeprom eepromLog]. rewrite Hlog.
    unfold s4 at 1. cbn [EEPROM_update set_eeprom eepromLog]. rewrite Hl3.
    rewrite <- !app_assoc. cbn [app]. do 2 f_equal. f_equal. f_equal.
    apply list_filter_iff. intros a. rewrite Hcell. reflexivity.
  - intros a. rewrite readCell_update.
    destruct (decide (a = d + 1)) as [->|Hne]; [reflexivity|].
    rewrite Hread, Hcell.
    destruct (decide (a ∈ seqZ 2 366 /\ _)) as [H1|H1];
      destruct (decide (2 <= a <= 367 /\ _)) as [H2|H2];
      try reflexivity; exfalso; rewrite elem_of_seqZ in H1.
    + apply H2. split; [lia | tauto].
    + apply H1. repeat split; [lia | lia | tauto | exact Hne].
Qed.

End SaveSprint.

(** C1 (as amended).  When [saveSprint] ends with no fault on day [d],
    having written the running counter [n] in 0..57, cell [d] reads [n]
    and among the cells 2..367 exactly cell [d+1] holds the end byte;
    cell 1 is not scanned, and holds the end byte afterwards only when
    it did before and [d] is not 1.  The updates are, in this order: the
    count into cell [d], EMPTY into every cell of 2..367 other than
    [d+1] that held the end byte, the end byte into cell [d+1].  The
    day [d] is the day of the clock reading, and [n] is the counter on
    entry when that is the day held before, 1 on a new day. *)
Theorem saveSprint_count_then_marker (s : State) (now : RtcDateTime) (d n : Z) :
  errorCode (saveSprint now s) = 0 ->
  currentDayOfYear (saveSprint now s) = d ->
  sprintCounter (saveSprint now s) = n ->
  0 <= n <= 57 ->
  let s' := saveSprint now s in
  1 <= d <= 366
  /\ readCell s' d = n
  /\ (forall a, 2 <= a <= 367 ->
        (readCell s' a = SPRINTS_END_BYTE <-> a = d + 1))
  /\ (readCell s' 1 = SPRINTS_END_BYTE
      <-> d <> 1 /\ readCell s 1 = SPRINTS_END_BYTE)
  /\ eepromLog s'
     = eepromLog s ++ (d, n)
         :: map (fun a => (a, EMPTY_VALUE))
              (filter (fun a => readCell s a = SPRINTS_END_BYTE
                                /\ a <> d /\ a <> d + 1) (seqZ 2 366))
         ++ [(d + 1, SPRINTS_END_BYTE)]
  /\ d = dayOfYearOf now
  /\ n = (if dayOfYearOf now =? currentDayOfYear s then sprintCounter s else 1).
Proof.
  intros Hok Hd Hn Hrange s'.
  destruct (saveSprint_spec now s Hok) as (Hdr & Hd' & Hn' & Hlog & Hread).
  fold s' in Hd, Hn, Hd', Hn', Hlog, Hread.
  rewrite Hd in Hd'. rewrite Hn in Hn'.
  assert (Ed : d = dayOfYearOf now) by exact Hd'.
  assert (En : n = countToSave now s) by exact Hn'.
  rewrite <- Hd' in Hdr, Hlog, Hread. rewrite <- Hn' in Hlog, Hread.
  clear Hd' Hn'.
  assert (Hu : uint8 n = n) by (apply uint8_small; lia).
  rewrite Hu in *.
  assert (HnE : n <> SPRINTS_END_BYTE) by (unfold SPRINTS_END_BYTE; lia).
  split; [exact Hdr|]. split; [|split; [|split; [|split; [|split]]]].
  - rewrite Hread. rewrite decide_False by lia.
    destruct (decide (d = d)) as [_|]; [|congruence].
    destruct (decide (2 <= d <= 367 /\ n = SPRINTS_END_BYTE)) as [[_ H]|_];
      [contradiction | reflexivity].
  - intros a Ha. rewrite Hread.
    destruct (decide (a = d + 1)) as [->|Hne]; [tauto|].
    split; [|intros; contradiction]. intros H. exfalso.
    destruct (decide (2 <= a <= 367 /\ _)) as [_|Hn2].
    + unfold EMPTY_VALUE, SPRINTS_END_BYTE in H. discriminate.
    + apply Hn2. split; [exact Ha | exact H].
  - rewrite Hread. rewrite decide_False by lia.
    rewrite decide_False by lia.
    destruct (decide (1 = d)) as [<-|Hne]; [split; [congruence | tauto]|].
    split; [intros H; split; [congruence | exact H] | tauto].
  - rewrite Hlog. do 2 f_equal. f_equal. f_equal.
    apply list_filter_iff. intros a.
    destruct (decide (a = d)) as [->|Hne]; [tauto|tauto].
  - exact Ed.
  - exact En.
Qed.

(** An instance: day 100, fourth sprint of the day, over a log whose
    previous marker sits after day 99. *)
Lemma saveSprint_count_then_marker_witness :
  let s := set_sprintCounter 4 (day100 {[100 := SPRINTS_END_BYTE]}) in
  let s' := saveSprint (dateOf 2025 4 10) s in
  readCell s' 100 = 4
  /\ forall a, 2 <= a <= 367 -> (readCell s' a = SPRINTS_END_BYTE <-> a = 100 + 1).
Proof.
  pose proof (saveSprint_count_then_marker
                (set_sprintCounter 4 (day100 {[100 := SPRINTS_END_BYTE]}))
                (dateOf 2025 4 10) 100 4
                eq_refl eq_refl eq_refl ltac:(lia)) as H.
  cbv zeta in H. destruct H as (_ & H1 & H2 & _). split; [exact H1 | exact H2].
Defined.

(** C1 as stated fails: an end byte in cell 1 is outside the cells the
    clearing loop visits, so after a sprint is saved on day 100 both
    cell 1 and cell 101 hold the end byte. *)
Lemma saveSprint_count_then_marker_counterexample :
  let s' := saveSprint (dateOf 2025 4 10) (day100 {[1 := SPRINTS_END_BYTE]}) in
  errorCode s' = 0 /\ currentDayOfYear s' = 100 /\ sprintCounter s' = 3
  /\ readCell s' 100 = 3
  /\ readCell s' 1 = SPRINTS_END_BYTE /\ readCell s' (100 + 1) = SPRINTS_END_BYTE
  /\ ~ (forall a, 1 <= a <= 367 ->
          (readCell s' a = SPRINTS_END_BYTE <-> a = 100 + 1)).
Proof.
  cbv zeta. repeat (split; [vm_compute; reflexivity|]).
  intros H. specialize (H 1 ltac:(lia)).
  assert (E : readCell (saveSprint (dateOf 2025 4 10) (day100 {[1 := SPRINTS_END_BYTE]})) 1
              = SPRINTS_END_BYTE) by (vm_compute; reflexivity).
  apply H in E. discriminate.
Qed.

(** C10.  When the clock read inside [saveSprint] shows another day
    than the one held before, and no fault is raised, the running
    counter is set to 1 and 1 is what is written to the cell of the new
    day, before any other update. *)
Theorem saveSprint_new_day (s : State) (now : RtcDateTime) :
  errorCode (saveSprint now s) = 0 ->
  currentDayOfYear (saveSprint now s) <> currentDayOfYear s ->
  let s' := saveSprint now s in
  currentDayOfYear s' = dayOfYearOf now
  /\ sprintCounter s' = 1
  /\ readCell s' (currentDayOfYear s') = 1
  /\ exists rest, eepromLog s' = eepromLog s ++ (currentDayOfYear s', 1) :: rest.
Proof.
  intros Hok Hday s'.
  destruct (saveSprint_spec now s Hok) as (Hdr & Hd' & Hn' & Hlog & Hread).
  fold s' in Hday, Hd', Hn', Hlog, Hread.
  assert (Hc : countToSave now s = 1).
  { unfold countToSave. rewrite <- Hd'.
    destruct (Z.eqb_spec (currentDayOfYear s') (currentDayOfYear s)); congruence. }
  rewrite Hc in *. rewrite Hd'.
  split; [reflexivity|]. split; [exact Hn'|]. split.
  - rewrite Hread. rewrite decide_False by lia.
    destruct (decide (dayOfYearOf now = dayOfYearOf now)) as [_|]; [|congruence].
    rewrite decide_False; [reflexivity|].
    intros [_ H]. vm_compute in H. discriminate.
  - eexists. rewrite Hlog. reflexivity.
Qed.

(** An instance: four sprints were counted on day 100, the next one
    ends on day 101 (11 April). *)
Lemma saveSprint_new_day_witness :
  let s' := saveSprint (dateOf 2025 4 11) (set_sprintCounter 5 (day100 ∅)) in
  sprintCounter s' = 1 /\ readCell s' (currentDayOfYear s') = 1.
Proof.
  pose proof (saveSprint_new_day (set_sprintCounter 5 (day100 ∅)) (dateOf 2025 4 11)
                eq_refl ltac:(vm_compute; discriminate)) as H.
  cbv zeta in H. destruct H as (_ & H1 & H2 & _). split; [exact H1 | exact H2].
Defined.

(** ** Boot *)

Section Boot.

(** Invariants of a [for] loop over consecutive integers. *)
Lemma fold_seqZ_ind {A : Type} (P : Z -> A -> Prop) (f : A -> Z -> A)
    (lo : Z) (n : nat) (a0 : A) :
  P lo a0 ->
  (forall i a, lo <= i < lo + Z.of_nat n -> P i a -> P (i + 1) (f a i)) ->
  P (lo + Z.of_nat n) (fold_left f (seqZ lo (Z.of_nat n)) a0).
Proof.
  intros H0. induction n as [|n IH]; intros Hstep.
  - simpl. rewrite Z.add_0_r. exact H0.
  - rewrite seqZ_S, fold_left_app. cbn [fold_left].
    replace (lo + Z.of_nat (S n)) with (lo + Z.of_nat n + 1) by lia.
    apply Hstep; [lia|]. apply IH. intros i a Hi. apply Hstep. lia.
Qed.

(** The scan returns the day before the last end byte of cells 2..367,
    and 0 when there is none. *)
Lemma latestSaved_spec e :
  (latestSaved e = 0
   /\ forall a, 2 <= a <= 367 -> EEPROM_read e a <> SPRINTS_END_BYTE)
  \/ (1 <= latestSaved e <= 366
      /\ EEPROM_read e (latestSaved e + 1) = SPRINTS_END_BYTE
      /\ forall a, latestSaved e + 1 < a <= 367 ->
                   EEPROM_read e a <> SPRINTS_END_BYTE).
Proof.
  unfold latestSaved.
  pose (P := fun (i r : Z) =>
    (r = 0 /\ forall a, 2 <= a < i -> EEPROM_read e a <> SPRINTS_END_BYTE)
    \/ (1 <= r /\ r + 1 < i /\ EEPROM_read e (r + 1) = SPRINTS_END_BYTE
        /\ forall a, r + 1 < a < i -> EEPROM_read e a <> SPRINTS_END_BYTE)).
  assert (H : P (2 + Z.of_nat 366)
                (fold_left (fun latestSavedDayOfYear address =>
                   if EEPROM_read e address =? SPRINTS_END_BYTE then address - 1
                   else latestSavedDayOfYear) (seqZ 2 (Z.of_nat 366)) 0)).
  { apply (fold_seqZ_ind P).
    - left. split; [reflexivity|]. intros a Ha. lia.
    - intros i r Hi HP.
      destruct (Z.eqb_spec (EEPROM_read e i) SPRINTS_END_BYTE) as [E|E].
      + right. replace (i - 1 + 1) with i by lia.
        split; [lia|]. split; [lia|]. split; [exact E|]. intros a Ha. lia.
      + destruct HP as [[-> Hn]|(Hr1 & Hr2 & Hr3 & Hr4)].
        * left. split; [reflexivity|]. intros a Ha.
          destruct (decide (a = i)) as [->|]; [exact E | apply Hn; lia].
        * right. split; [lia|]. split; [lia|]. split; [exact Hr3|].
          intros a Ha.
          destruct (decide (a = i)) as [->|]; [exact E | apply Hr4; lia]. }
  change (Z.of_nat 366) with 366 in H.
  destruct H as [[Hr Hn]|(Hr1 & Hr2 & Hr3 & Hr4)].
  - left. split; [exact Hr|]. intros a Ha. apply Hn. lia.
  - right. split; [lia|]. split; [exact Hr3|]. intros a Ha. apply Hr4. lia.
Qed.

Lemma latestSaved_last e m :
  1 <= m <= 366 ->
  EEPROM_read e (m + 1) = SPRINTS_END_BYTE ->
  (forall a, m + 1 < a <= 367 -> EEPROM_read e a <> SPRINTS_END_BYTE) ->
  latestSaved e = m.
Proof.
  intros Hm He Hlast.
  destruct (latestSaved_spec e) as [[_ Hn]|(Hr & Hre & Hrl)].
  - exfalso. apply (Hn (m + 1)); [lia | exact He].
  - destruct (Z.lt_trichotomy (latestSaved e) m) as [Hlt|[Heq|Hgt]]; [|exact Heq|].
    + exfalso. apply (Hrl (m + 1)); [lia | exact He].
    + exfalso. apply (Hlast (latestSaved e + 1)); [lia | exact Hre].
Qed.

Lemma authoritative_test s :
  negb (readCell s (currentDayOfYear s) =? EMPTY_VALUE)
  && negb (readCell s (currentDayOfYear s) =? SPRINTS_END_BYTE)
  && (readCell s (uint16 (currentDayOfYear s + 1)) =? SPRINTS_END_BYTE) = true
  <-> authoritative s.
Proof.
  unfold authoritative.
  rewrite !andb_true_iff, !negb_true_iff, !Z.eqb_neq, Z.eqb_eq. tauto.
Qed.

(** With an authoritative cell for today the boot block only loads the
    counter. *)
Lemma reconcileOnBoot_authoritative now s :
  authoritative s ->
  eeprom (reconcileOnBoot now s) = eeprom s
  /\ eepromLog (reconcileOnBoot now s) = eepromLog s.
Proof.
  intros Ha. apply authoritative_test in Ha.
  unfold reconcileOnBoot. rewrite Ha.
  destruct ((errorCode s =? 0) && _); split; reflexivity.
Qed.

(** The branch for days skipped within the year. *)
Lemma reconcileOnBoot_skipped now s latest :
  errorCode s = 0 -> operatingState s = STANDBY ->
  1 <= currentDayOfYear s <= 366 ->
  latestSaved (eeprom s) = latest -> 1 <= latest < currentDayOfYear s ->
  ~ authoritative s ->
  reconcileOnBoot now s
  = EEPROM_update (currentDayOfYear s + 1) SPRINTS_END_BYTE
      (fillSkipped latest (currentDayOfYear s - latest) s).
Proof.
  intros Herr Hst Hcur Hl Hlat Hna.
  unfold reconcileOnBoot. rewrite Herr, Hst, Hl. cbn [Z.eqb OperatingStates_eqb andb].
  destruct (_ && _ && _) eqn:E; [apply authoritative_test in E; contradiction|].
  rewrite int16_small by lia.
  destruct (Z.ltb_spec (currentDayOfYear s - latest) 0); [lia|].
  destruct (Z.ltb_spec 0 (currentDayOfYear s - latest)); [|lia].
  destruct (Z.ltb_spec 0 latest); [|lia].
  destruct (Z.eqb_spec (currentDayOfYear s - latest) 0); [lia|].
  cbn [andb negb].
  destruct (fillSkipped_spec latest (currentDayOfYear s - latest) s) as (Ho & _).
  destruct (eeprom_only_globals _ _ Ho) as (_ & _ & -> & _).
  rewrite uint16_small by lia. reflexivity.
Qed.

End Boot.

(** C3 (as amended).  When the log holds a single end byte, at the cell
    after [latestSavedDay], and [today] is later, the boot block writes
    0 to the cells [latestSavedDay+1 .. today] -- today's cell
    included -- in ascending order, then the end byte to [today+1], and
    nothing else; every other cell keeps its byte. *)
Theorem reconcileOnBoot_zero_fill (s : State) (now : RtcDateTime)
    (latestSavedDay today : Z) :
  errorCode s = 0 -> operatingState s = STANDBY ->
  currentDayOfYear s = today -> 1 <= today <= 366 ->
  1 <= latestSavedDay <= 366 ->
  (forall a, 2 <= a <= 367 ->
     (readCell s a = SPRINTS_END_BYTE <-> a = latestSavedDay + 1)) ->
  0 < today - latestSavedDay ->
  let s' := reconcileOnBoot now s in
  eepromLog s'
  = eepromLog s
    ++ map (fun a => (a, 0)) (seqZ (latestSavedDay + 1) (today - latestSavedDay))
    ++ [(today + 1, SPRINTS_END_BYTE)]
  /\ forall a, readCell s' a
               = if decide (latestSavedDay + 1 <= a <= today) then 0
                 else if decide (a = today + 1) then SPRINTS_END_BYTE
                 else readCell s a.
Proof.
  intros Herr Hst Hcur Htoday Hlat Hsingle Hskip s'.
  assert (Hl : latestSaved (eeprom s) = latestSavedDay).
  { apply latestSaved_last; [exact Hlat | apply Hsingle; lia |].
    intros a Ha E. apply Hsingle in E; lia. }
  assert (Hna : ~ authoritative s).
  { intros (_ & _ & H). rewrite Hcur, uint16_small in H by lia.
    apply Hsingle in H; lia. }
  unfold s'. rewrite (reconcileOnBoot_skipped now s latestSavedDay) by (auto; lia).
  rewrite Hcur.
  destruct (fillSkipped_spec latestSavedDay (today - latestSavedDay) s)
    as (_ & Hlog & Hread).
  split.
  - cbn [EEPROM_update set_eeprom eepromLog]. rewrite Hlog, <- app_assoc.
    reflexivity.
  - intros a. rewrite readCell_update, Hread.
    replace (latestSavedDay + (today - latestSavedDay)) with today by lia.
    destruct (decide (a = today + 1)) as [->|Hne].
    + rewrite decide_False by lia. reflexivity.
    + reflexivity.
Qed.

Lemma reconcileOnBoot_zero_fill_witness :
  let s := set_date 103 7 4 2025 (initialState STANDBY initConfig logDay100) in
  let s' := reconcileOnBoot (dateOf 2025 4 13) s in
  eepromLog s' = [(101, 0); (102, 0); (103, 0); (104, SPRINTS_END_BYTE)].
Proof.
  assert (Hsingle : forall a, 2 <= a <= 367 ->
            (readCell (set_date 103 7 4 2025
                         (initialState STANDBY initConfig logDay100)) a
             = SPRINTS_END_BYTE <-> a = 100 + 1)).
  { intros a Ha. unfold readCell, EEPROM_read, logDay100.
    cbn [set_date initialState eeprom].
    destruct (decide (a = 100)) as [->|H100]; [split; [discriminate | lia]|].
    rewrite lookup_insert_ne by congruence.
    destruct (decide (a = 101)) as [->|H101]; [split; reflexivity|].
    rewrite lookup_insert_ne by congruence. rewrite lookup_empty.
    split; [discriminate | lia]. }
  exact (proj1 (reconcileOnBoot_zero_fill
                  (set_date 103 7 4 2025 (initialState STANDBY initConfig logDay100))
                  (dateOf 2025 4 13) 100 103
                  eq_refl eq_refl eq_refl ltac:(lia) ltac:(lia) Hsingle ltac:(lia))).
Defined.

(** C3 as stated fails: with the last saved day 100 and today 103, cell
    103 -- today's, not strictly between the two -- is EMPTY before the
    boot block runs and is written 0 by it. *)
Lemma reconcileOnBoot_zero_fill_counterexample :
  let s := set_date 103 7 4 2025 (initialState STANDBY initConfig logDay100) in
  let s' := reconcileOnBoot (dateOf 2025 4 13) s in
  readCell s 103 = EMPTY_VALUE /\ readCell s' 103 = 0
  /\ In (103, 0) (eepromLog s')
  /\ ~ (forall a, In (a, 0) (eepromLog s') -> 100 < a < 103).
Proof.
  cbv zeta.
  assert (Hin : In (103, 0)
                  (eepromLog (reconcileOnBoot (dateOf 2025 4 13)
                     (set_date 103 7 4 2025
                        (initialState STANDBY initConfig logDay100)))))
    by (vm_compute; tauto).
  repeat split; try (vm_compute; reflexivity); [exact Hin|].
  intros H. specialize (H 103 Hin). lia.
Qed.

(** C2.  The log holds 3 in cell 100 and the end byte in cell 101, no
    end byte in later cells, and the lookahead cell 105 passes the
    check.  When the device boots in standby on day 103, the boot
    writes 0 to the cells 101, 102 and 103, then the end byte to cell
    104, and the running counter is 0. *)
Theorem boot_two_days_later (cfg : Config) (e : gmap Z Z) (now now' : RtcDateTime) :
  EEPROM_read e 100 = 3 ->
  EEPROM_read e 101 = SPRINTS_END_BYTE ->
  (forall a, 102 <= a <= 367 -> EEPROM_read e a <> SPRINTS_END_BYTE) ->
  EEPROM_read e 105 = EMPTY_VALUE \/ EEPROM_read e 105 < 58 ->
  isRtcDateTimeSane now = true -> dayOfYearOf now = 103 ->
  let s' := setup true now now' (initialState STANDBY cfg e) in
  errorCode s' = 0
  /\ eepromLog s' = [(101, 0); (102, 0); (103, 0); (104, SPRINTS_END_BYTE)]
  /\ readCell s' 100 = 3
  /\ readCell s' 101 = 0 /\ readCell s' 102 = 0 /\ readCell s' 103 = 0
  /\ readCell s' 104 = SPRINTS_END_BYTE
  /\ sprintCounter s' = 0.
Proof.
  intros H100 H101 Hlast H105 Hsane Hdoy s'.
  set (s1 := getCurrentDate now (initialState STANDBY cfg e)).
  assert (Hg : s1 = set_date 103 (if DayOfWeek now =? 0 then 7 else DayOfWeek now)
                      (Month now) (Year now) (initialState STANDBY cfg e)).
  { unfold s1, getCurrentDate. rewrite Hsane, Hdoy. reflexivity. }
  assert (Hv : validateNextDayCell s1 = s1).
  { apply validateNextDayCell_pass. rewrite Hg. exact H105. }
  assert (Hs' : s' = reconcileOnBoot now' s1).
  { unfold s', setup. rewrite <- Hv. reflexivity. }
  assert (Hl : latestSaved (eeprom s1) = 100).
  { rewrite Hg. apply latestSaved_last; [lia | exact H101 |].
    intros a Ha. apply Hlast. lia. }
  assert (Hna : ~ authoritative s1).
  { intros (_ & _ & H). rewrite Hg in H. apply (Hlast 104); [lia | exact H]. }
  rewrite Hs', (reconcileOnBoot_skipped now' s1 100);
    try (rewrite Hg; reflexivity || (simpl; lia)); [|exact Hl | exact Hna].
  destruct (fillSkipped_spec 100 (currentDayOfYear s1 - 100) s1)
    as (Ho & Hlog & Hread).
  destruct (eeprom_only_globals _ _ Ho) as (_ & He & _ & Hn & _).
  assert (Hc : currentDayOfYear s1 = 103) by (rewrite Hg; reflexivity).
  rewrite Hc in *.
  split; [cbn [EEPROM_update set_eeprom errorCode]; rewrite He, Hg; reflexivity|].
  split; [cbn [EEPROM_update set_eeprom eepromLog]; rewrite Hlog, Hg; reflexivity|].
  assert (Hcell : forall a, a <> 104 ->
            readCell (EEPROM_update (103 + 1) SPRINTS_END_BYTE
                        (fillSkipped 100 (103 - 100) s1)) a
            = if decide (100 + 1 <= a <= 100 + (103 - 100)) then 0 else readCell s1 a).
  { intros a Ha. rewrite readCell_update_ne by lia. apply Hread. }
  split; [rewrite Hcell by lia; rewrite decide_False by lia; rewrite Hg; exact H100|].
  do 3 (split; [rewrite Hcell by lia; rewrite decide_True by lia; reflexivity|]).
  split; [apply readCell_update_eq|].
  cbn [EEPROM_update set_eeprom sprintCounter]. rewrite Hn, Hg. reflexivity.
Qed.

(** The example itself: the rest of the log is empty and the clock
    shows 13 April 2025, day 103. *)
Lemma boot_two_days_later_witness :
  let s' := setup true (dateOf 2025 4 13) (dateOf 2025 4 13)
              (initialState STANDBY initConfig logDay100) in
  eepromLog s' = [(101, 0); (102, 0); (103, 0); (104, SPRINTS_END_BYTE)]
  /\ sprintCounter s' = 0.
Proof.
  assert (Hlast : forall a, 102 <= a <= 367 ->
                            EEPROM_read logDay100 a <> SPRINTS_END_BYTE).
  { intros a Ha. unfold EEPROM_read, logDay100.
    rewrite !lookup_insert_ne by lia. rewrite lookup_empty. discriminate. }
  pose proof (boot_two_days_later initConfig logDay100
                (dateOf 2025 4 13) (dateOf 2025 4 13)
                eq_refl eq_refl Hlast (or_introl eq_refl) eq_refl eq_refl) as H.
  cbv zeta in H. destruct H as (_ & H1 & _ & _ & _ & _ & _ & H2).
  split; [exact H1 | exact H2].
Defined.

Section Idempotence.

Lemma OperatingStates_eqb_eq a b : OperatingStates_eqb a b = true <-> a = b.
Proof. destruct a, b; simpl; split; congruence. Qed.

(** The branch for an end byte found after today's cell: the year has
    turned since the last save. *)
Lemma reconcileOnBoot_new_year now s latest :
  errorCode s = 0 -> operatingState s = STANDBY ->
  1 <= currentDayOfYear s <= 366 ->
  latestSaved (eeprom s) = latest -> currentDayOfYear s < latest <= 366 ->
  ~ authoritative s ->
  reconcileOnBoot now s
  = EEPROM_update (currentDayOfYear s + 1) SPRINTS_END_BYTE
      (fillZero 1 (currentDayOfYear s)
         (fillZero (latest + 1)
            (if isLeapYear (uint16 (int16 (Year now) - 1)) then 366 else 365) s)).
Proof.
  intros Herr Hst Hcur Hl Hlat Hna.
  unfold reconcileOnBoot. rewrite Herr, Hst, Hl. cbn [Z.eqb OperatingStates_eqb andb].
  destruct (_ && _ && _) eqn:E; [apply authoritative_test in E; contradiction|].
  rewrite int16_small by lia.
  destruct (Z.ltb_spec (currentDayOfYear s - latest) 0); [|lia].
  destruct (Z.ltb_spec 0 latest); [|lia].
  destruct (Z.eqb_spec (currentDayOfYear s - latest) 0); [lia|].
  cbn [andb negb].
  set (L := if isLeapYear _ then 366 else 365).
  destruct (fillZero_spec (latest + 1) L s) as (Ho1 & _).
  destruct (fillZero_spec 1 (currentDayOfYear s) (fillZero (latest + 1) L s))
    as (Ho2 & _).
  destruct (eeprom_only_globals _ _ (eeprom_only_trans _ _ _ Ho1 Ho2))
    as (_ & _ & -> & _).
  rewrite uint16_small by lia. reflexivity.
Qed.

(** The cases in which the boot block leaves the state as it is:
    a fault, another operating state, no end byte in the log, or an end
    byte right after today's cell. *)
Lemma reconcileOnBoot_noop now s :
  errorCode s <> 0 \/ operatingState s <> STANDBY
  \/ (~ authoritative s
      /\ (latestSaved (eeprom s) = 0
          \/ int16 (currentDayOfYear s - latestSaved (eeprom s)) = 0)) ->
  reconcileOnBoot now s = s.
Proof.
  intros H. unfold reconcileOnBoot.
  destruct (Z.eqb_spec (errorCode s) 0) as [Herr|Herr]; [|reflexivity].
  destruct (OperatingStates_eqb (operatingState s) STANDBY) eqn:Hst;
    [|reflexivity]. cbn [andb].
  destruct H as [H|[H|[Hna H]]]; [contradiction| |].
  { destruct (operatingState s); discriminate || contradiction. }
  destruct (_ && _ && _) eqn:E; [apply authoritative_test in E; contradiction|].
  destruct H as [-> | ->].
  - rewrite !andb_false_r. reflexivity.
  - reflexivity.
Qed.

(** What the boot block leaves behind: either nothing changed, whatever
    the clock says, or today's cell is authoritative and every cell but
    the one after today's holds its old byte or 0. *)
Lemma reconcileOnBoot_outcome now s :
  1 <= currentDayOfYear s <= 366 ->
  let s' := reconcileOnBoot now s in
  (forall now2, reconcileOnBoot now2 s = s)
  \/ (authoritative s'
      /\ currentDayOfYear s' = currentDayOfYear s
      /\ forall a, a <> currentDayOfYear s + 1 ->
                   readCell s' a = readCell s a \/ readCell s' a = 0).
Proof.
  intros Hcur s'.
  destruct (decide (errorCode s = 0)) as [Herr|Herr];
    [|left; intros; apply reconcileOnBoot_noop; tauto].
  destruct (OperatingStates_eqb (operatingState s) STANDBY) eqn:Hst.
  2:{ left. intros. apply reconcileOnBoot_noop. right. left. intros H.
      apply OperatingStates_eqb_eq in H. congruence. }
  apply OperatingStates_eqb_eq in Hst.
  destruct (authoritative_test s) as [Ht1 Ht2].
  destruct (negb (readCell s (currentDayOfYear s) =? EMPTY_VALUE)
            && negb (readCell s (currentDayOfYear s) =? SPRINTS_END_BYTE)
            && (readCell s (uint16 (currentDayOfYear s + 1)) =? SPRINTS_END_BYTE))
    eqn:E.
  { right. assert (Hs' : s' = set_sprintCounter (readCell s (currentDayOfYear s)) s).
    { unfold s', reconcileOnBoot. rewrite Herr, Hst, E. reflexivity. }
    rewrite Hs'. split; [exact (Ht1 eq_refl)|]. split; [reflexivity|].
    intros a _. left. reflexivity. }
  assert (Hna : ~ authoritative s) by (intros H; apply Ht2 in H; discriminate).
  clear Ht1 Ht2 E.
  set (latest := latestSaved (eeprom s)).
  assert (Hlat : 0 <= latest <= 366).
  { destruct (latestSaved_spec (eeprom s)) as [[H _]|[H _]]; unfold latest; lia. }
  destruct (Z.lt_trichotomy latest (currentDayOfYear s)) as [Hlt|[Heq|Hgt]].
  - destruct (decide (latest = 0)) as [H0|H0];
      [left; intros; apply reconcileOnBoot_noop; tauto|].
    right. unfold s'.
    rewrite (reconcileOnBoot_skipped now s latest) by (auto; lia).
    destruct (fillSkipped_spec latest (currentDayOfYear s - latest) s)
      as (Ho & _ & Hread).
    replace (latest + (currentDayOfYear s - latest)) with (currentDayOfYear s)
      in Hread by lia.
    assert (Hc : currentDayOfYear
                   (EEPROM_update (currentDayOfYear s + 1) SPRINTS_END_BYTE
                      (fillSkipped latest (currentDayOfYear s - latest) s))
                 = currentDayOfYear s)
      by (destruct (eeprom_only_globals _ _ Ho) as (_ & _ & H & _); exact H).
    split; [|split; [exact Hc|]].
    + unfold authoritative. rewrite Hc, uint16_small by lia.
      rewrite readCell_update_eq, readCell_update_ne by lia.
      rewrite Hread, decide_True by lia.
      repeat split; discriminate || reflexivity.
    + intros a Ha. rewrite readCell_update_ne by exact Ha. rewrite Hread.
      destruct (decide _); auto.
  - left. intros now2. apply reconcileOnBoot_noop. right. right.
    split; [exact Hna|]. right. fold latest. rewrite Heq, Z.sub_diag. reflexivity.
  - right. unfold s'.
    rewrite (reconcileOnBoot_new_year now s latest) by (auto; lia).
    set (L := if isLeapYear _ then 366 else 365).
    destruct (fillZero_spec (latest + 1) L s) as (Ho1 & _ & Hread1).
    destruct (fillZero_spec 1 (currentDayOfYear s) (fillZero (latest + 1) L s))
      as (Ho2 & _ & Hread2).
    assert (Hc : currentDayOfYear
                   (EEPROM_update (currentDayOfYear s + 1) SPRINTS_END_BYTE
                      (fillZero 1 (currentDayOfYear s) (fillZero (latest + 1) L s)))
                 = currentDayOfYear s).
    { destruct (eeprom_only_globals _ _ (eeprom_only_trans _ _ _ Ho1 Ho2))
        as (_ & _ & H & _). exact H. }
    split; [|split; [exact Hc|]].
    + unfold authoritative. rewrite Hc, uint16_small by lia.
      rewrite readCell_update_eq, readCell_update_ne by lia.
      rewrite Hread2, decide_True by lia.
      repeat split; discriminate || reflexivity.
    + intros a Ha. rewrite readCell_update_ne by exact Ha.
      rewrite Hread2, Hread1.
      destruct (decide (1 <= a <= _)); [auto|]. destruct (decide _); auto.
Qed.

(** When the lookahead check leaves no fault, the lookahead cell was
    EMPTY or a count below 58. *)
Lemma validateNextDayCell_passed s :
  errorCode (validateNextDayCell s) = 0 ->
  readCell s (uint16 (currentDayOfYear s + 2)) = EMPTY_VALUE
  \/ readCell s (uint16 (currentDayOfYear s + 2)) < 58.
Proof.
  unfold validateNextDayCell.
  destruct (Z.eqb_spec (errorCode s) 0) as [E|E]; [|intros; contradiction].
  cbn [andb].
  destruct (Z.eqb_spec (readCell s (uint16 (currentDayOfYear s + 2))) EMPTY_VALUE);
    [auto|]. cbn [negb].
  destruct (Z.ltb_spec (readCell s (uint16 (currentDayOfYear s + 2))) 58);
    [auto|]. rewrite andb_false_r. simpl. discriminate.
Qed.

(** A boot either leaves the EEPROM as it found it, or ran the boot
    block on a sane date and left today's cell authoritative and the
    lookahead cell acceptable. *)
Lemma setup_outcome rtcValid now now' st cfg e :
  let s' := setup rtcValid now now' (initialState st cfg e) in
  eeprom s' = e
  \/ (rtcValid = true /\ OperatingStates_eqb st DATETIMESETUP = false
      /\ isRtcDateTimeSane now = true
      /\ authoritative s' /\ currentDayOfYear s' = dayOfYearOf now
      /\ (readCell s' (dayOfYearOf now + 2) = EMPTY_VALUE
          \/ readCell s' (dayOfYearOf now + 2) < 58)).
Proof.
  cbv zeta. unfold setup. cbn [initialState operatingState].
  fold (initialState st cfg e).
  destruct (OperatingStates_eqb st DATETIMESETUP) eqn:Hst; cbn [negb].
  { left. rewrite reconcileOnBoot_noop; [reflexivity|].
    right. left. apply OperatingStates_eqb_eq in Hst. simpl. congruence. }
  destruct rtcValid; cbn [negb];
    [|left; rewrite reconcileOnBoot_noop; [reflexivity | left; discriminate]].
  destruct (isRtcDateTimeSane now) eqn:Hsane.
  2:{ left. unfold getCurrentDate. rewrite Hsane.
      rewrite reconcileOnBoot_noop; [reflexivity|].
      left. unfold validateNextDayCell. simpl. discriminate. }
  set (s1 := getCurrentDate now (initialState st cfg e)).
  assert (Hg : s1 = set_date (dayOfYearOf now)
                      (if DayOfWeek now =? 0 then 7 else DayOfWeek now)
                      (Month now) (Year now) (initialState st cfg e))
    by (unfold s1, getCurrentDate; now rewrite Hsane).
  pose proof (sane_dayOfYear now Hsane) as Hd.
  destruct (decide (errorCode (validateNextDayCell s1) = 0)) as [Hok|Hbad].
  2:{ left. rewrite reconcileOnBoot_noop by tauto.
      unfold validateNextDayCell.
      repeat match goal with |- context [if ?b then _ else _] => destruct b end;
        rewrite Hg; reflexivity. }
  pose proof (validateNextDayCell_passed s1 Hok) as Hpass.
  destruct (validateNextDayCell_ok s1 Hok) as [Hv _]. rewrite Hv.
  assert (Hc1 : currentDayOfYear s1 = dayOfYearOf now) by (now rewrite Hg).
  rewrite Hc1, uint16_small in Hpass by lia.
  destruct (reconcileOnBoot_outcome now' s1 ltac:(lia)) as [Hnoop|(Ha & Hc & Hr)].
  - left. rewrite Hnoop, Hg. reflexivity.
  - right. rewrite Hc1 in Hc, Hr. repeat split; try assumption; try apply Ha.
    destruct (Hr (dayOfYearOf now + 2) ltac:(lia)) as [-> | ->];
      [exact Hpass | right; lia].
Qed.

End Idempotence.

(** C5.  Running the boot block a second time, on any clock reading,
    leaves the EEPROM exactly as the first run left it, for every log
    and every day 1..366; and so does a whole second boot of the device
    under the same clock. *)
Theorem reconcileOnBoot_idempotent :
  (forall (s : State) (now now2 : RtcDateTime) (today : Z),
     1 <= today <= 366 -> currentDayOfYear s = today ->
     eeprom (reconcileOnBoot now2 (reconcileOnBoot now s))
     = eeprom (reconcileOnBoot now s))
  /\ (forall (rtcValid : bool) (now now' : RtcDateTime)
             (st : OperatingStates) (cfg : Config) (e : gmap Z Z),
        let boot := fun e => setup rtcValid now now' (initialState st cfg e) in
        eeprom (boot (eeprom (boot e))) = eeprom (boot e)).
Proof.
  split.
  - intros s now now2 today Htoday Hcur.
    destruct (reconcileOnBoot_outcome now s ltac:(lia)) as [Hnoop|(Ha & _)].
    + rewrite (Hnoop now), (Hnoop now2). reflexivity.
    + apply reconcileOnBoot_authoritative. exact Ha.
  - intros rtcValid now now' st cfg e boot.
    destruct (setup_outcome rtcValid now now' st cfg e)
      as [He|(-> & Hst & Hsane & Ha & Hc & Hpass)]; fold (boot e) in *.
    + rewrite He. exact He.
    + pose proof (sane_dayOfYear now Hsane) as Hd.
      set (e' := eeprom (boot e)) in *.
      unfold boot at 1. unfold setup.
      cbn [initialState operatingState]. fold (initialState st cfg e').
      rewrite Hst. cbn [negb].
      set (t1 := getCurrentDate now (initialState st cfg e')).
      assert (Hg : t1 = set_date (dayOfYearOf now)
                          (if DayOfWeek now =? 0 then 7 else DayOfWeek now)
                          (Month now) (Year now) (initialState st cfg e'))
        by (unfold t1, getCurrentDate; now rewrite Hsane).
      assert (Hv : validateNextDayCell t1 = t1).
      { apply validateNextDayCell_pass. rewrite Hg.
        cbn [set_date currentDayOfYear]. rewrite uint16_small by lia.
        exact Hpass. }
      rewrite Hv.
      assert (Hat : authoritative t1).
      { rewrite Hg. unfold authoritative in *. rewrite Hc in Ha. exact Ha. }
      destruct (reconcileOnBoot_authoritative now' t1 Hat) as [-> _].
      rewrite Hg. reflexivity.
Qed.

(** An instance: the log of the example, booted twice on day 103. *)
Lemma reconcileOnBoot_idempotent_witness :
  let s := set_date 103 7 4 2025 (initialState STANDBY initConfig logDay100) in
  eeprom (reconcileOnBoot (dateOf 2025 4 13) (reconcileOnBoot (dateOf 2025 4 13) s))
  = eeprom (reconcileOnBoot (dateOf 2025 4 13) s).
Proof.
  exact (proj1 reconcileOnBoot_idempotent
           (set_date 103 7 4 2025 (initialState STANDBY initConfig logDay100))
           (dateOf 2025 4 13) (dateOf 2025 4 13) 103 ltac:(lia) eq_refl).
Defined.

(** ** The end of an interval *)

Section Scheduler.

(** The fault code after [saveSprint] is the one the calendar refresh
    and the lookahead check leave. *)
Lemma saveSprint_errorCode now s :
  errorCode (saveSprint now s)
  = errorCode (validateNextDayCell (getCurrentDate now s)).
Proof.
  unfold saveSprint.
  set (s2 := validateNextDayCell (getCurrentDate now s)).
  destruct (errorCode s2 =? 0); [|reflexivity].
  set (s3 := if currentDayOfYear s2 =? currentDayOfYear s then s2
             else set_sprintCounter 1 s2).
  assert (H3 : errorCode s3 = errorCode s2)
    by (unfold s3; destruct (_ =? _); reflexivity).
  clearbody s3.
  set (s4 := EEPROM_update (currentDayOfYear s3) (sprintCounter s3) s3).
  assert (H4 : errorCode s4 = errorCode s3) by reflexivity. clearbody s4.
  destruct (clearStrayEndBytes_spec s4) as (Ho & _).
  destruct (eeprom_only_globals _ _ Ho) as (_ & He & _).
  set (s5 := clearStrayEndBytes s4) in *. clearbody s5.
  cbn [EEPROM_update set_eeprom errorCode]. congruence.
Qed.

(** A [saveSprint] that ends in a fault has written nothing. *)
Lemma saveSprint_error now s :
  errorCode (saveSprint now s) <> 0 ->
  eeprom (saveSprint now s) = eeprom s
  /\ eepromLog (saveSprint now s) = eepromLog s
  /\ sprintCounter (saveSprint now s) = sprintCounter s.
Proof.
  rewrite saveSprint_errorCode. unfold saveSprint.
  destruct (Z.eqb_spec (errorCode (validateNextDayCell (getCurrentDate now s))) 0)
    as [E|E]; [intros H; contradiction|intros _].
  unfold validateNextDayCell, getCurrentDate.
  destruct (isRtcDateTimeSane now);
    repeat match goal with |- context [if ?b then _ else _] => destruct b end;
    repeat split.
Qed.

Lemma setInterval_fields value s :
  currentInterval (setInterval value s) = uint8 value
  /\ sprintCounter (setInterval value s) = sprintCounter s
  /\ errorCode (setInterval value s) = errorCode s
  /\ eeprom (setInterval value s) = eeprom s
  /\ currentDayOfYear (setInterval value s) = currentDayOfYear s.
Proof. unfold setInterval. destruct (_ && _); repeat split. Qed.

Lemma countingTick_work_done timeIsUp now s :
  currentInterval s = 25 -> tenths s = 9 -> minutes s = 0 -> seconds s = 1 ->
  countingTick timeIsUp now s
  = setInterval (if Z.rem (sprintCounter (sprintDone now s)) 4 =? 0 then 15 else 5)
      (startAnimation (sprintDone now s)).
Proof.
  intros Hi Ht Hm Hs. unfold countingTick, sprintDone.
  rewrite Hi, Ht, Hm, Hs.
  change (uint8 (9 + 1) =? 10) with true. change (int8 (1 - 1)) with 0.
  cbn [Z.eqb Z.ltb Z.compare andb orb negb set_countdown currentInterval
       Pos.compare Pos.compare_cont].
  destruct (setInterval_fields 0 (set_countdown 25 0 0 0 s)) as (_ & -> & _).
  cbn [set_countdown sprintCounter].
  destruct (Z.rem _ 4 =? 0); reflexivity.
Qed.

Lemma countingTick_break_done timeIsUp now s :
  currentInterval s = 5 \/ currentInterval s = 15 -> showStaticInfo s = true ->
  tenths s = 9 -> minutes s = 0 -> seconds s = 1 ->
  countingTick timeIsUp now s = setInterval 25 (set_countdown (currentInterval s) 0 0 0 s).
Proof.
  intros Hi Hshow Ht Hm Hs. unfold countingTick.
  rewrite Hshow, Ht, Hm, Hs, andb_false_r.
  change (uint8 (9 + 1) =? 10) with true. change (int8 (1 - 1)) with 0.
  destruct Hi as [Hi|Hi]; rewrite Hi; reflexivity.
Qed.

End Scheduler.

(** C9 (as amended).  When the countdown reaches 00:00 in a work
    interval, the counter is incremented and handed to [saveSprint],
    and the break that follows is the long one exactly when the counter
    [saveSprint] leaves is divisible by 4.  With the day unchanged and
    no fault, that counter is the incremented one and it is what cell
    today holds, unless it is 237, the end byte, which the clearing
    loop of [saveSprint] erases again on the days 2..366; when
    [saveSprint] finds a new day the counter is 1, written to the new
    day's cell, and the short break follows; when [saveSprint] ends in
    a fault the incremented counter is kept and nothing is written.
    When the countdown of a break reaches 00:00 the interval is set to
    25. *)
Theorem interval_completion (s : State) (now : RtcDateTime) (timeIsUp : bool) :
  lastTick s ->
  let s' := countingTick timeIsUp now s in
  let n := uint8 (sprintCounter s + 1) in
  (currentInterval s = 25 ->
     (currentInterval s' = 15 <-> Z.divide 4 (sprintCounter s'))
     /\ (currentInterval s' = 5 <-> ~ Z.divide 4 (sprintCounter s'))
     /\ (sprintCounter s' = 4 -> currentInterval s' = 15)
     /\ (errorCode s' = 0 -> dayOfYearOf now = currentDayOfYear s ->
         sprintCounter s' = n
         /\ readCell s' (currentDayOfYear s')
            = (if decide (n = SPRINTS_END_BYTE /\ 2 <= currentDayOfYear s')
               then EMPTY_VALUE else n))
     /\ (errorCode s' = 0 -> dayOfYearOf now <> currentDayOfYear s ->
         sprintCounter s' = 1 /\ readCell s' (currentDayOfYear s') = 1
         /\ currentInterval s' = 5)
     /\ (errorCode s' <> 0 -> sprintCounter s' = n /\ eeprom s' = eeprom s))
  /\ (currentInterval s = 5 \/ currentInterval s = 15 ->
      showStaticInfo s = true -> currentInterval s' = 25).
Proof.
  intros (Ht & Hm & Hs) s' n. split.
  - intros Hi.
    assert (Hs' : s' = setInterval
                         (if Z.rem (sprintCounter (sprintDone now s)) 4 =? 0
                          then 15 else 5)
                         (startAnimation (sprintDone now s)))
      by (apply countingTick_work_done; assumption).
    set (done := sprintDone now s) in *.
    destruct (setInterval_fields
                (if Z.rem (sprintCounter done) 4 =? 0 then 15 else 5)
                (startAnimation done)) as (Hci & Hsc & Hec & Hee & Hcd).
    rewrite <- Hs' in Hci, Hsc, Hec, Hee, Hcd.
    change (sprintCounter (startAnimation done)) with (sprintCounter done) in Hsc.
    change (errorCode (startAnimation done)) with (errorCode done) in Hec.
    change (eeprom (startAnimation done)) with (eeprom done) in Hee.
    change (currentDayOfYear (startAnimation done))
      with (currentDayOfYear done) in Hcd.
    assert (Hdiv : Z.rem (sprintCounter done) 4 = 0 <-> Z.divide 4 (sprintCounter done))
      by (apply Z.rem_divide; lia).
    assert (Hint : currentInterval s' = 15 /\ Z.divide 4 (sprintCounter done)
                   \/ currentInterval s' = 5 /\ ~ Z.divide 4 (sprintCounter done)).
    { rewrite Hci.
      destruct (Z.eqb_spec (Z.rem (sprintCounter done) 4) 0) as [E|E];
        [left | right]; (split; [reflexivity | tauto]). }
    rewrite Hsc.
    set (s0 := set_sprintCounter n (setInterval 0 (set_countdown (currentInterval s) 0 0 0 s))).
    assert (Hdone : done = saveSprint now s0) by reflexivity.
    assert (Hc0 : currentDayOfYear s0 = currentDayOfYear s)
      by (unfold s0, setInterval; destruct (_ && _); reflexivity).
    assert (He0 : eeprom s0 = eeprom s)
      by (unfold s0, setInterval; destruct (_ && _); reflexivity).
    assert (Hn0 : sprintCounter s0 = n) by reflexivity.
    split; [|split; [|split; [|split; [|split]]]].
    + destruct Hint as [[-> H]|[-> H]]; split; intros;
        try reflexivity; try assumption; try discriminate; try contradiction.
    + destruct Hint as [[-> H]|[-> H]]; split; intros;
        try reflexivity; try assumption; try discriminate; try contradiction.
    + intros H4. destruct Hint as [[-> _]|[_ H]]; [reflexivity|].
      exfalso. apply H. rewrite H4. exists 1. reflexivity.
    + intros Hok Hsame. rewrite Hec, Hdone in Hok.
      destruct (saveSprint_spec now s0 Hok) as (Hdr & Hd' & Hn' & _ & Hread).
      rewrite <- Hdone in Hd', Hn', Hread.
      assert (Hcs : countToSave now s0 = n).
      { unfold countToSave. rewrite Hc0, Hsame, Z.eqb_refl. exact Hn0. }
      rewrite Hcs in *. split; [exact Hn'|].
      rewrite Hcd, Hd'. unfold readCell. rewrite Hee. fold (readCell done (dayOfYearOf now)).
      rewrite Hread. rewrite decide_False by lia.
      destruct (decide (dayOfYearOf now = dayOfYearOf now)) as [_|]; [|congruence].
      pose proof (uint8_range (sprintCounter s + 1)) as Hr. fold n in Hr.
      rewrite (uint8_small n) by lia.
      destruct (decide (2 <= dayOfYearOf now <= 367 /\ n = SPRINTS_END_BYTE))
        as [[H2 H3]|Hno].
      * rewrite decide_True by (split; [exact H3 | lia]). reflexivity.
      * rewrite decide_False; [reflexivity|]. intros [H3 H2]. apply Hno.
        split; [lia | exact H3].
    + intros Hok Hnew. rewrite Hec, Hdone in Hok.
      destruct (saveSprint_spec now s0 Hok) as (Hdr & Hd' & Hn' & _ & Hread).
      rewrite <- Hdone in Hd', Hn', Hread.
      assert (Hcs : countToSave now s0 = 1).
      { unfold countToSave. rewrite Hc0.
        destruct (Z.eqb_spec (dayOfYearOf now) (currentDayOfYear s)); congruence. }
      rewrite Hcs in *. split; [exact Hn'|]. split.
      * rewrite Hcd, Hd'. unfold readCell. rewrite Hee.
        fold (readCell done (dayOfYearOf now)).
        rewrite Hread. rewrite decide_False by lia.
        destruct (decide (dayOfYearOf now = dayOfYearOf now)) as [_|]; [|congruence].
        rewrite decide_False; [reflexivity|].
        intros [_ H]. vm_compute in H. discriminate.
      * destruct Hint as [[_ H]|[H _]]; [|exact H].
        rewrite Hn' in H. destruct H as [k Hk]. lia.
    + intros Hbad. rewrite Hec, Hdone in Hbad.
      destruct (saveSprint_error now s0 Hbad) as (He & _ & Hn').
      rewrite Hee, Hdone, He, Hn'. split; [exact Hn0 | exact He0].
  - intros Hi Hshow.
    unfold s'. rewrite countingTick_break_done by assumption.
    destruct (setInterval_fields 25 (set_countdown (currentInterval s) 0 0 0 s))
      as (-> & _). reflexivity.
Qed.

(** The example: the fourth sprint of the day ends, the long break
    follows. *)
Lemma interval_completion_witness :
  lastTick workEnding
  /\ sprintCounter (countingTick false (dateOf 2025 4 10) workEnding) = 4
  /\ currentInterval (countingTick false (dateOf 2025 4 10) workEnding) = 15.
Proof.
  assert (Hl : lastTick workEnding) by (repeat split).
  split; [exact Hl|]. split; [reflexivity|].
  pose proof (interval_completion workEnding (dateOf 2025 4 10) false Hl) as H.
  cbv zeta in H. destruct H as [H _].
  destruct (H eq_refl) as (_ & _ & H4 & _). exact (H4 eq_refl).
Defined.

(** C9 as stated fails: the work interval started on day 100 with three
    sprints done ends after midnight, on day 101.  The incremented
    counter is 4, a multiple of 4, yet the counter left is 1, cell 101
    holds 1, cell 100 holds nothing and the short break follows. *)
Lemma interval_completion_counterexample :
  let s' := countingTick false (dateOf 2025 4 11) workEnding in
  lastTick workEnding /\ currentInterval workEnding = 25
  /\ Z.divide 4 (uint8 (sprintCounter workEnding + 1))
  /\ errorCode s' = 0
  /\ currentInterval s' = 5 /\ sprintCounter s' = 1
  /\ readCell s' 101 = 1 /\ readCell s' 100 = EMPTY_VALUE.
Proof.
  cbv zeta. split; [repeat split|]. split; [reflexivity|].
  split; [exists 1; reflexivity|].
  repeat split; vm_compute; reflexivity.
Qed.

(** ** Statistics over a window of days *)

Section Statistics.

Lemma dowOf_iso x : 0 <= x -> dowOf x = (x - 1) mod 7 + 1.
Proof.
  intros Hx. unfold dowOf. rewrite Z.rem_mod_nonneg by lia.
  destruct (Z.eqb_spec (x mod 7) 0); Z.to_euclidean_division_equations; lia.
Qed.

Lemma isoDow_range startDow d : 1 <= isoDow startDow d <= 7.
Proof. unfold isoDow. Z.to_euclidean_division_equations; lia. Qed.

(** The weekday the loop starts the previous year with is the weekday
    of that year's 1 January. *)
Lemma prevStartDowOf_iso startDow L :
  0 <= startDow <= 7 -> L = 365 \/ L = 366 ->
  prevStartDowOf startDow L = isoDow startDow (1 - L).
Proof.
  intros Hs HL. unfold prevStartDowOf, isoDow.
  destruct HL as [-> | ->];
    [change (Z.rem 365 7) with 1 | change (Z.rem 366 7) with 2];
    rewrite dowOf_iso by lia; Z.to_euclidean_division_equations; lia.
Qed.

(** Cell and weekday of a day of the window, within the year and
    before it. *)
Lemma resolveDay_iso startDow L d :
  0 <= startDow <= 7 -> L = 365 \/ L = 366 -> 1 - L <= d ->
  resolveDay startDow L d = (cellOfDay L d, isoDow startDow d).
Proof.
  intros Hs HL Hd. unfold resolveDay, cellOfDay.
  destruct (Z.leb_spec 1 d).
  - rewrite dowOf_iso by lia. unfold isoDow. do 3 f_equal. lia.
  - rewrite prevStartDowOf_iso by assumption.
    pose proof (isoDow_range startDow (1 - L)) as Hr.
    rewrite dowOf_iso by lia. unfold isoDow in *.
    f_equal. destruct HL as [-> | ->]; Z.to_euclidean_division_equations; lia.
Qed.

Lemma daysInPreviousYearOf_cases year :
  daysInPreviousYearOf year = 365 \/ daysInPreviousYearOf year = 366.
Proof. unfold daysInPreviousYearOf. destruct (isLeapYear _); auto. Qed.

Lemma Zsum_snoc l x : Zsum (l ++ [x]) = Zsum l + x.
Proof. unfold Zsum. induction l as [|y l IH]; simpl; lia. Qed.

Lemma Zmaximum_snoc l x : Zmaximum (l ++ [x]) = Z.max (Zmaximum l) x.
Proof. unfold Zmaximum. induction l as [|y l IH]; simpl; lia. Qed.

Lemma Zminimum_snoc l x : Zminimum (l ++ [x]) = Z.min (Zminimum l) x.
Proof. unfold Zminimum. induction l as [|y l IH]; simpl; lia. Qed.

Lemma keptCounts_snoc cfg cells v dow :
  keptCounts cfg (cells ++ [(v, dow)])
  = keptCounts cfg cells ++ (if counted cfg v dow then [v] else []).
Proof.
  unfold keptCounts. rewrite filter_app, fmap_app. f_equal.
  destruct (counted cfg v dow) eqn:E.
  - rewrite filter_cons_True by exact E. reflexivity.
  - rewrite filter_cons_False by (simpl; congruence). reflexivity.
Qed.

Lemma keptCounts_length cfg cells :
  (length (keptCounts cfg cells) <= length cells)%nat.
Proof. unfold keptCounts. rewrite length_fmap. apply length_filter. Qed.

(** One turn of the loop, on a day whose cell and weekday are the
    expected ones. *)
Lemma accumulateDay_counted cfg e startDow L acc d :
  resolveDay startDow L d = (cellOfDay L d, isoDow startDow d) ->
  accumulateDay cfg e startDow L acc d
  = let v := EEPROM_read e (cellOfDay L d) in
    if counted cfg v (isoDow startDow d) then
      mkStatAcc (int16 (totalSprints acc + v)) (int16 (totalDays acc + 1))
                (Z.max (maximum acc) v) (Z.min (minimum acc) v)
    else acc.
Proof.
  intros Hr. unfold accumulateDay. rewrite Hr. cbv zeta.
  pose proof (isoDow_range startDow d) as Hdow.
  set (v := EEPROM_read e (cellOfDay L d)). set (dow := isoDow startDow d) in *.
  unfold counted.
  destruct (v =? EMPTY_VALUE); [reflexivity|].
  destruct (v =? SPRINTS_END_BYTE); [reflexivity|]. cbn [negb andb].
  unfold NOT_0_DAYS, FIVE_DAYS, SIX_DAYS.
  assert (Hmax : (if maximum acc <? v then v else maximum acc) = Z.max (maximum acc) v)
    by (destruct (Z.ltb_spec (maximum acc) v); lia).
  assert (Hmin : (if v <? minimum acc then v else minimum acc) = Z.min (minimum acc) v)
    by (destruct (Z.ltb_spec v (minimum acc)); lia).
  rewrite Hmax, Hmin.
  destruct (Z.eqb_spec (countingDoWs cfg) 3) as [E3|E3].
  - rewrite E3. cbn [Z.eqb andb orb Pos.eqb].
    destruct (v =? 0); reflexivity.
  - cbn [andb].
    destruct (Z.eqb_spec (countingDoWs cfg) 0) as [E0|E0]; cbn [andb orb].
    + rewrite E0. cbn [Z.eqb andb orb].
      destruct (Z.leb_spec 6 dow), (Z.ltb_spec dow 6); try lia; reflexivity.
    + destruct (Z.eqb_spec (countingDoWs cfg) 1) as [E1|E1]; cbn [andb orb];
        [|reflexivity].
      destruct (Z.eqb_spec dow 7), (Z.ltb_spec dow 7); try lia; reflexivity.
Qed.

(** The loop over a list of days gives the re-scan of their cells, as
    long as the sums stay within [int]. *)
Lemma accumulate_fold cfg e startDow L days :
  Forall (fun d => resolveDay startDow L d = (cellOfDay L d, isoDow startDow d)) days ->
  Zsum (keptCounts cfg (windowCells e startDow L days)) <= 32767 ->
  Z.of_nat (length days) <= 32767 ->
  fold_left (accumulateDay cfg e startDow L) days (mkStatAcc 0 0 0 100)
  = naiveAggregate cfg (windowCells e startDow L days).
Proof.
  induction days as [|d days IH] using rev_ind; intros Hall Hsum Hlen.
  - reflexivity.
  - apply Forall_app in Hall as [Hall Hd]. rewrite Forall_singleton in Hd.
    unfold windowCells in *. rewrite fmap_app in *. cbn [fmap list_fmap] in *.
    rewrite keptCounts_snoc in *. rewrite length_app in Hlen. cbn [length] in Hlen.
    rewrite Zsum_snoc in Hsum || idtac.
    pose proof (EEPROM_read_range e (cellOfDay L d)) as Hv.
    set (v := EEPROM_read e (cellOfDay L d)) in *.
    set (cells := (fun d0 => (EEPROM_read e (cellOfDay L d0), isoDow startDow d0)) <$> days) in *.
    pose proof (keptCounts_length cfg cells) as Hkl.
    assert (Hcl : length cells = length days) by (unfold cells; apply length_fmap).
    assert (Hs0 : 0 <= Zsum (keptCounts cfg cells)).
    { unfold keptCounts, cells. clear.
      induction days as [|x l IH]; [simpl; unfold Zsum; simpl; lia|].
      cbn [fmap list_fmap]. destruct (counted cfg (EEPROM_read e (cellOfDay L x)) (isoDow startDow x)) eqn:E.
      - rewrite filter_cons_True by exact E. cbn [fmap list_fmap fst].
        pose proof (EEPROM_read_range e (cellOfDay L x)).
        unfold Zsum in *. cbn [foldr]. lia.
      - rewrite filter_cons_False by (simpl; congruence). exact IH. }
    rewrite fold_left_app. cbn [fold_left].
    rewrite accumulateDay_counted by exact Hd. cbv zeta. fold v.
    destruct (counted cfg v (isoDow startDow d)) eqn:Hc.
    + rewrite Zsum_snoc in Hsum.
      rewrite IH by (auto; lia).
      unfold naiveAggregate. cbv zeta. rewrite keptCounts_snoc, Hc.
      cbn [totalSprints totalDays maximum minimum].
      rewrite Zsum_snoc, Zmaximum_snoc, Zminimum_snoc, length_app. cbn [length].
      rewrite !int16_small by lia. f_equal. lia.
    + rewrite app_nil_r in *. rewrite IH by (auto; lia).
      unfold naiveAggregate. cbv zeta. rewrite keptCounts_snoc, Hc, app_nil_r.
      reflexivity.
Qed.

Lemma resolveDay_cell startDow L d : fst (resolveDay startDow L d) = cellOfDay L d.
Proof. unfold resolveDay, cellOfDay. destruct (1 <=? d); reflexivity. Qed.

(** With the filter set to non-zero days the weekday plays no part. *)
Lemma accumulateDay_not0 cfg e startDow L acc d :
  countingDoWs cfg = NOT_0_DAYS ->
  accumulateDay cfg e startDow L acc d
  = countNonZero acc (EEPROM_read e (cellOfDay L d)).
Proof.
  intros Hcfg. unfold accumulateDay, countNonZero.
  rewrite <- resolveDay_cell with (startDow := startDow).
  destruct (resolveDay startDow L d) as [idx dow]. cbn [fst].
  rewrite Hcfg. cbn [NOT_0_DAYS FIVE_DAYS SIX_DAYS Z.eqb Pos.eqb andb orb].
  destruct (EEPROM_read e idx =? EMPTY_VALUE); [reflexivity|].
  destruct (EEPROM_read e idx =? SPRINTS_END_BYTE); [reflexivity|].
  destruct (Z.eqb_spec (EEPROM_read e idx) 0); [reflexivity|]. cbn [orb].
  destruct (Z.ltb_spec (maximum acc) (EEPROM_read e idx));
    destruct (Z.ltb_spec (EEPROM_read e idx) (minimum acc)); f_equal; lia.
Qed.

Lemma accumulate_not0 cfg e startDow L days acc :
  countingDoWs cfg = NOT_0_DAYS -> Forall (fun d => 1 <= d) days ->
  fold_left (accumulateDay cfg e startDow L) days acc
  = fold_left countNonZero (EEPROM_read e <$> days) acc.
Proof.
  intros Hcfg Hdays. revert acc.
  induction Hdays as [|d days Hd _ IH]; intros acc; [reflexivity|].
  cbn [fold_left fmap list_fmap]. rewrite accumulateDay_not0 by exact Hcfg.
  unfold cellOfDay. destruct (Z.leb_spec 1 d); [|lia]. apply IH.
Qed.

End Statistics.

Lemma statistic_set_eq mode period v s :
  statistic (set_statistics mode period v s) mode period = v.
Proof. unfold statistic. cbn [set_statistics statisticsArray]. rewrite lookup_insert_eq. reflexivity. Qed.

Lemma statistic_set_ne mode period v s mode' period' :
  (mode', period') <> (mode, period) ->
  statistic (set_statistics mode period v s) mode' period' = statistic s mode' period'.
Proof.
  intros H. unfold statistic. cbn [set_statistics statisticsArray].
  rewrite lookup_insert_ne by congruence. reflexivity.
Qed.

(** What [getStatisticsByPeriod] stores, and what it leaves alone. *)
Lemma getStatisticsByPeriod_stored startDay endDay startDow period year s mode :
  mode = TOTAL \/ mode = MINIMUM \/ mode = AVERAGE \/ mode = MAXIMUM ->
  statistic (getStatisticsByPeriod startDay endDay startDow period year s) mode period
  = storedStatistic (config s)
      (accumulate (config s) (eeprom s) startDay endDay startDow year) mode.
Proof.
  intros Hm. unfold getStatisticsByPeriod, storedStatistic.
  generalize (accumulate (config s) (eeprom s) startDay endDay startDow year).
  intros acc.
  generalize (if countingUnits (config s) =? 1 then float_4_16 else float_of_int 10).
  intros multiplier. cbv zeta.
  destruct (0 <? totalDays acc);
    destruct Hm as [-> | [-> | [-> | ->]]]; cbn [Z.eqb Pos.eqb TOTAL MINIMUM AVERAGE MAXIMUM];
    repeat first [ rewrite statistic_set_eq; reflexivity
                 | rewrite statistic_set_ne by (unfold TOTAL, MINIMUM, AVERAGE, MAXIMUM; intros [=]) ].
Qed.

Lemma getStatisticsByPeriod_frame startDay endDay startDow period year s :
  config (getStatisticsByPeriod startDay endDay startDow period year s) = config s
  /\ eeprom (getStatisticsByPeriod startDay endDay startDow period year s) = eeprom s
  /\ forall mode period', period' <> period ->
       statistic (getStatisticsByPeriod startDay endDay startDow period year s)
         mode period'
       = statistic s mode period'.
Proof.
  unfold getStatisticsByPeriod.
  generalize (accumulate (config s) (eeprom s) startDay endDay startDow year).
  intros acc.
  generalize (if countingUnits (config s) =? 1 then float_4_16 else float_of_int 10).
  intros multiplier. cbv zeta.
  destruct (0 <? totalDays acc); (split; [reflexivity|]; split; [reflexivity|]);
    intros mode period' Hne; rewrite !statistic_set_ne by congruence; reflexivity.
Qed.

(** C7.  In [getStatisticsByPeriod] a day [d <= 0] of the window is
    read from cell [d + daysInPreviousYear], 366 when the year before
    is a leap year and 365 otherwise, and its weekday is counted from
    the weekday of 1 January of that year, which makes it the ISO
    weekday of the day; the accumulators after the loop are those of a
    re-scan of the cells of the window, which for a window inside the
    year are the cells [startDay .. endDay].  The four entries the
    function stores for the period are the scaled total, minimum,
    average and maximum of that re-scan (0 when no day counts); the
    entries of other periods and the EEPROM are left as they were. *)
Theorem getStatisticsByPeriod_window (cfg : Config) (e : gmap Z Z)
    (startDay endDay startDow year : Z) :
  0 <= startDow <= 7 -> 1 <= year < 65536 ->
  let L := daysInPreviousYearOf year in
  let days := seqZ startDay (endDay - startDay + 1) in
  1 - L <= startDay -> endDay - startDay < 32767 ->
  Zsum (keptCounts cfg (windowCells e startDow L days)) <= 32767 ->
  L = (if isLeapYear (year - 1) then 366 else 365)
  /\ prevStartDowOf startDow L = isoDow startDow (1 - L)
  /\ (forall d, d <= 0 ->
        fst (resolveDay startDow L d) = d + L
        /\ snd (resolveDay startDow L d)
           = dowOf (prevStartDowOf startDow L + (d + L - 1)))
  /\ (forall d, startDay <= d <= endDay -> d <= 0 ->
        resolveDay startDow L d = (d + L, isoDow startDow d))
  /\ accumulate cfg e startDay endDay startDow year
     = naiveAggregate cfg (windowCells e startDow L days)
  /\ (1 <= startDay ->
      windowCells e startDow L days
      = (fun d => (EEPROM_read e d, isoDow startDow d)) <$> days)
  /\ (forall s period,
        config s = cfg -> eeprom s = e ->
        let s' := getStatisticsByPeriod startDay endDay startDow period year s in
        (forall mode,
           mode = TOTAL \/ mode = MINIMUM \/ mode = AVERAGE \/ mode = MAXIMUM ->
           statistic s' mode period
           = storedStatistic cfg
               (naiveAggregate cfg (windowCells e startDow L days)) mode)
        /\ (forall mode period', period' <> period ->
              statistic s' mode period' = statistic s mode period')
        /\ eeprom s' = e).
Proof.
  intros Hdow Hyear L days Hstart Hlen Hsum.
  pose proof (daysInPreviousYearOf_cases year) as HL. fold L in HL.
  assert (Hacc : accumulate cfg e startDay endDay startDow year
                 = naiveAggregate cfg (windowCells e startDow L days)).
  { unfold accumulate. fold L. fold days. apply accumulate_fold.
    + apply Forall_forall. intros d Hd. unfold days in Hd.
      apply elem_of_seqZ in Hd. apply resolveDay_iso; auto; lia.
    + exact Hsum.
    + unfold days. rewrite length_seqZ. lia. }
  split; [unfold L, daysInPreviousYearOf; now rewrite uint16_small by lia|].
  split; [apply prevStartDowOf_iso; assumption|].
  split; [|split; [|split; [exact Hacc|split]]].
  - intros d Hd. unfold resolveDay.
    destruct (Z.leb_spec 1 d); [lia|]. split; reflexivity.
  - intros d Hd Hd0. rewrite resolveDay_iso by (auto; lia).
    unfold cellOfDay. destruct (Z.leb_spec 1 d); [lia | reflexivity].
  - intros H1. unfold windowCells. apply list_fmap_ext.
    intros i d Hd. apply list_elem_of_lookup_2 in Hd.
    unfold days in Hd. apply elem_of_seqZ in Hd.
    unfold cellOfDay. destruct (Z.leb_spec 1 d); [reflexivity | lia].
  - intros s period Hc He. cbv zeta.
    destruct (getStatisticsByPeriod_frame startDay endDay startDow period year s)
      as (_ & Hee & Hfr).
    split; [|split; [exact Hfr | congruence]].
    intros mode Hm. rewrite getStatisticsByPeriod_stored by exact Hm.
    rewrite Hc, He, Hacc. reflexivity.
Qed.

(** An instance: the window from 29 December 2024 (day -2) to
    3 January 2025 over [logNewYear]; 1 January 2025 is a Wednesday.
    The five days hold 12 sprints: the total stored is 120, the
    average 24. *)
Lemma getStatisticsByPeriod_window_witness :
  let cfg := mkConfig true false SEVEN_DAYS 0 false false in
  let s' := getStatisticsByPeriod (-2) 3 3 ROLL7D 2025
              (initialState STANDBY cfg logNewYear) in
  accumulate cfg logNewYear (-2) 3 3 2025 = mkStatAcc 12 5 6 0
  /\ resolveDay 3 (daysInPreviousYearOf 2025) (-1) = (365, 1)
  /\ statistic s' TOTAL ROLL7D = 120 /\ statistic s' AVERAGE ROLL7D = 24.
Proof.
  pose proof (getStatisticsByPeriod_window
                (mkConfig true false SEVEN_DAYS 0 false false) logNewYear (-2) 3 3 2025
                ltac:(lia) ltac:(lia) ltac:(vm_compute; discriminate) ltac:(lia)
                ltac:(vm_compute; discriminate)) as H.
  cbv zeta in H. destruct H as (_ & _ & _ & H1 & H2 & _ & H3).
  split; [rewrite H2; reflexivity|].
  split; [exact (H1 (-1) ltac:(lia) ltac:(lia))|].
  destruct (H3 (initialState STANDBY (mkConfig true false SEVEN_DAYS 0 false false)
                  logNewYear) ROLL7D eq_refl eq_refl) as (H4 & _).
  cbv zeta. split.
  - rewrite (H4 TOTAL) by auto. vm_compute. reflexivity.
  - rewrite (H4 AVERAGE) by auto. vm_compute. reflexivity.
Defined.

(** C8.  With the filter set to non-zero days, a week whose cells hold
    2, 0, 0, 5, 0, 0, 3 gives the sum 10 over 3 days, smallest 2 and
    largest 5, whatever the weekdays; the stored values are total 100,
    average 33 (10 x 10/3, fraction dropped), minimum 20 and maximum 50
    in sprints, and 41, 13, 8 and 20 in hours (4.16 x the same).  A day
    whose cell holds 0 never changes the accumulators. *)
Theorem nonzero_days_week (s : State) (startDay startDow period year : Z) :
  countingDoWs (config s) = NOT_0_DAYS -> 1 <= startDay ->
  EEPROM_read (eeprom s) <$> seqZ startDay 7 = [2; 0; 0; 5; 0; 0; 3] ->
  let s' := getStatisticsByPeriod startDay (startDay + 6) startDow period year s in
  accumulate (config s) (eeprom s) startDay (startDay + 6) startDow year
  = mkStatAcc 10 3 5 2
  /\ (countingUnits (config s) <> 1 ->
      statistic s' TOTAL period = 100 /\ statistic s' AVERAGE period = 33
      /\ statistic s' MINIMUM period = 20 /\ statistic s' MAXIMUM period = 50)
  /\ (countingUnits (config s) = 1 ->
      statistic s' TOTAL period = 41 /\ statistic s' AVERAGE period = 13
      /\ statistic s' MINIMUM period = 8 /\ statistic s' MAXIMUM period = 20)
  /\ (forall acc day startDow',
        EEPROM_read (eeprom s) (cellOfDay (daysInPreviousYearOf year) day) = 0 ->
        accumulateDay (config s) (eeprom s) startDow'
          (daysInPreviousYearOf year) acc day = acc).
Proof.
  intros Hcfg Hstart Hcells s'.
  assert (Hacc : accumulate (config s) (eeprom s) startDay (startDay + 6) startDow year
                 = mkStatAcc 10 3 5 2).
  { unfold accumulate. replace (startDay + 6 - startDay + 1) with 7 by lia.
    rewrite accumulate_not0; [rewrite Hcells; reflexivity | exact Hcfg |].
    apply Forall_forall. intros d Hd. apply elem_of_seqZ in Hd. lia. }
  split; [exact Hacc|].
  assert (Hlk : forall (m : gmap (Z * Z) Z) a b c d x,
            default 0 (<[(MAXIMUM, period) := d]> (<[(AVERAGE, period) := c]>
              (<[(MINIMUM, period) := b]> (<[(TOTAL, period) := a]> m))) !! (x, period))
            = if x =? TOTAL then a else if x =? MINIMUM then b
              else if x =? AVERAGE then c else if x =? MAXIMUM then d
              else default 0 (m !! (x, period))).
  { intros m a b c d x. unfold TOTAL, MINIMUM, AVERAGE, MAXIMUM.
    destruct (Z.eqb_spec x 2) as [->|H2];
      [rewrite !lookup_insert_ne by (intros [=]); rewrite lookup_insert_eq; reflexivity|].
    destruct (Z.eqb_spec x 3) as [->|H3];
      [rewrite !lookup_insert_ne by (intros [=]); rewrite lookup_insert_eq; reflexivity|].
    destruct (Z.eqb_spec x 4) as [->|H4];
      [rewrite !lookup_insert_ne by (intros [=]); rewrite lookup_insert_eq; reflexivity|].
    destruct (Z.eqb_spec x 5) as [->|H5]; [rewrite lookup_insert_eq; reflexivity|].
    rewrite !lookup_insert_ne by (intros [=]; congruence). reflexivity. }
  split; [|split].
  - intros Hu. apply Z.eqb_neq in Hu.
    unfold s', getStatisticsByPeriod, statistic. rewrite Hacc, Hu.
    cbn [totalDays totalSprints minimum maximum Z.ltb Z.compare set_statistics statisticsArray].
    rewrite !Hlk. repeat split; vm_compute; reflexivity.
  - intros Hu. apply Z.eqb_eq in Hu.
    unfold s', getStatisticsByPeriod, statistic. rewrite Hacc, Hu.
    cbn [totalDays totalSprints minimum maximum Z.ltb Z.compare set_statistics statisticsArray].
    rewrite !Hlk. repeat split; vm_compute; reflexivity.
  - intros acc day startDow' H0. rewrite accumulateDay_not0 by exact Hcfg.
    rewrite H0. reflexivity.
Qed.

(** The example on days 10..16, in sprints. *)
Lemma nonzero_days_week_witness :
  let s := initialState STANDBY (notZeroConfig 0) logWeek in
  let s' := getStatisticsByPeriod 10 16 3 ROLL7D 2025 s in
  accumulate (config s) (eeprom s) 10 16 3 2025 = mkStatAcc 10 3 5 2
  /\ statistic s' TOTAL ROLL7D = 100 /\ statistic s' AVERAGE ROLL7D = 33.
Proof.
  pose proof (nonzero_days_week (initialState STANDBY (notZeroConfig 0) logWeek)
                10 3 ROLL7D 2025 eq_refl ltac:(lia) eq_refl) as H.
  cbv zeta in H. destruct H as (H1 & H2 & _).
  split; [exact H1|]. destruct (H2 ltac:(discriminate)) as (Ht & Ha & _).
  split; [exact Ht | exact Ha].
Defined.

(** The windows [calculateStatistics] asks for meet the side conditions
    of the statements above: with a sane clock reading whose weekday is
    0..6, the weekday of 1 January it derives lies in 0..6, the year
    fits sixteen bits, and a window of up to 365 days back does not
    reach beyond the previous year. *)
Lemma calculateStatistics_window_arguments (now : RtcDateTime) (s : State) (w : Z) :
  isRtcDateTimeSane now = true -> 0 <= DayOfWeek now <= 6 -> 0 <= w <= 365 ->
  let s0 := getCurrentDate now s in
  let doy := currentDayOfYear s0 in
  let startDow := Z.rem (currentDayOfWeek s0 - Z.rem (uint16 (doy - 1)) 7 + 7) 7 in
  0 <= startDow <= 6
  /\ 1 <= currentYear s0 < 65536
  /\ 1 - daysInPreviousYearOf (currentYear s0) <= int16 (doy - w)
  /\ int16 (doy - w) = doy - w.
Proof.
  intros Hsane Hdw Hw. cbv zeta. unfold getCurrentDate. rewrite Hsane.
  cbn [set_date currentDayOfYear currentDayOfWeek currentYear].
  pose proof (sane_dayOfYear now Hsane) as Hd.
  destruct (sane_valid now Hsane) as [Hy _].
  pose proof (daysInPreviousYearOf_cases (Year now)) as HL.
  rewrite uint16_small, int16_small by lia.
  assert (Hcw : 1 <= (if DayOfWeek now =? 0 then 7 else DayOfWeek now) <= 7)
    by (destruct (Z.eqb_spec (DayOfWeek now) 0); lia).
  repeat split; try lia.
  all: rewrite !Z.rem_mod_nonneg by (try lia; rewrite Z.rem_mod_nonneg by lia;
                                      Z.to_euclidean_division_equations; lia).
  all: Z.to_euclidean_division_equations; lia.
Qed.

(** * Further properties *)

(** ** Months and weekdays *)

Section MonthsAndWeekdays.

Lemma fold_left_ext {A B : Type} (f g : A -> B -> A) (l : list B) (a : A) :
  (forall a x, f a x = g a x) -> fold_left f l a = fold_left g l a.
Proof.
  intros H. revert a. induction l as [|x l IH]; intros a; simpl; [reflexivity|].
  rewrite H. apply IH.
Qed.

Lemma getMonthDayOfYearRange_rep y m :
  getMonthDayOfYearRange y m = getMonthDayOfYearRange (repYear y) m.
Proof.
  unfold getMonthDayOfYearRange. rewrite <- getDaysInMonth_rep.
  rewrite (fold_left_ext _ (fun acc m0 => acc + default 0 (getDaysInMonth (repYear y) m0)));
    [reflexivity|].
  intros a x. now rewrite <- getDaysInMonth_rep.
Qed.

Lemma month_range_all :
  forallb (fun y => forallb (month_range_ok y) (seqZ 1 12)) [2024; 2025] = true.
Proof. vm_compute. reflexivity. Qed.

Lemma day_offset_all :
  forallb (fun y => forallb (fun m => forallb (day_offset_ok y m)
    (seqZ 1 31)) (seqZ 1 12)) [2024; 2025] = true.
Proof. vm_compute. reflexivity. Qed.

Lemma dayOfYearOf_offset y m d :
  validDate y m d ->
  dayOfYearOf (dateOf y m d) = dayOfYearOf (dateOf y m 1) + d - 1.
Proof.
  intros [Hm Hd]. unfold dateOf. rewrite !dayOfYearOf_rep.
  rewrite <- (isLeapYear_rep y) in Hd.
  pose proof (monthLength_le_31 (isLeapYear (repYear y)) m) as H31.
  pose proof day_offset_all as H.
  rewrite forallb_forall in H. specialize (H _ (repYear_In y)).
  rewrite forallb_forall in H. specialize (H m (In_seqZ 1 12 m ltac:(lia))).
  rewrite forallb_forall in H. specialize (H d (In_seqZ 1 31 d ltac:(lia))).
  unfold day_offset_ok in H. apply orb_prop in H as [H|H].
  - apply negb_true_iff, Z.leb_gt in H. lia.
  - apply Z.eqb_eq in H. exact H.
Qed.

Lemma monthLength_pos b m : 28 <= monthLength b m.
Proof.
  unfold monthLength. destruct (m =? 2); [destruct b; lia|].
  destruct ((m =? 4) || (m =? 6) || (m =? 9) || (m =? 11)); lia.
Qed.

End MonthsAndWeekdays.

(** X1.  The ranges [getMonthDayOfYearRange] gives tile the year: the
    first month starts on day 1, each month starts the day after the
    one before ends, the last ends on the last day of the year; the
    days of a month are the days of the year its dates have, and
    [getDateFromDayOfYear] takes each of them back to that month. *)
Theorem months_tile_the_year (y m : Z) :
  1 <= m <= 12 ->
  let r := getMonthDayOfYearRange y m in
  snd r = fst r + monthLength (isLeapYear y) m - 1
  /\ (m = 1 -> fst r = 1)
  /\ (m = 12 -> snd r = daysInYear y)
  /\ (m < 12 -> fst (getMonthDayOfYearRange y (m + 1)) = snd r + 1)
  /\ (forall d, 1 <= d <= monthLength (isLeapYear y) m ->
        dayOfYearOf (dateOf y m d) = fst r + d - 1)
  /\ (forall doy, fst r <= doy <= snd r ->
        monthWalk 13 y doy 1 = Some (doy - fst r + 1, m)).
Proof.
  intros Hm r.
  pose proof month_range_all as H.
  rewrite forallb_forall in H. specialize (H _ (repYear_In y)).
  rewrite forallb_forall in H. specialize (H m (In_seqZ 1 12 m ltac:(lia))).
  unfold month_range_ok in H.
  rewrite <- !getMonthDayOfYearRange_rep in H. fold r in H.
  rewrite isLeapYear_rep in H.
  assert (Hdy : daysInYear (repYear y) = daysInYear y)
    by (unfold daysInYear; now rewrite isLeapYear_rep).
  rewrite Hdy in H.
  assert (H1 : dayOfYearOf (dateOf (repYear y) m 1) = dayOfYearOf (dateOf y m 1))
    by (unfold dateOf; now rewrite (dayOfYearOf_rep y)).
  rewrite H1 in H. destruct r as [startDay endDay]. cbn [fst snd].
  repeat (apply andb_prop in H as [H ?]).
  apply Z.eqb_eq in H.
  match goal with Hx : (endDay =? _) = true |- _ => apply Z.eqb_eq in Hx; rename Hx into Hend end.
  assert (Hoff : forall d, 1 <= d <= monthLength (isLeapYear y) m ->
                           dayOfYearOf (dateOf y m d) = startDay + d - 1).
  { intros d Hd. rewrite dayOfYearOf_offset by (split; assumption). lia. }
  split; [exact Hend|]. split; [|split; [|split; [|split]]].
  - intros ->. match goal with Hx : (if 1 =? 1 then _ else _) = true |- _ =>
      simpl in Hx; apply Z.eqb_eq in Hx; exact Hx end.
  - intros ->. match goal with Hx : (if 12 =? 12 then _ else _) = true |- _ =>
      simpl in Hx; apply Z.eqb_eq in Hx; exact Hx end.
  - intros Hlt. match goal with Hx : (if m =? 12 then _ else _) = true |- _ =>
      destruct (Z.eqb_spec m 12); [lia|]; apply Z.eqb_eq in Hx; exact Hx end.
  - exact Hoff.
  - intros doy Hdoy.
    assert (Hv : validDate y m (doy - startDay + 1)) by (split; lia).
    pose proof (date_doy_date y m _ Hv) as [_ Hw]. cbv zeta in Hw.
    rewrite Hoff in Hw by lia.
    replace (startDay + (doy - startDay + 1) - 1) with doy in Hw by lia.
    exact Hw.
Qed.

(** An instance: March of the leap year 2028 is the days 61..91. *)
Lemma months_tile_the_year_witness :
  getMonthDayOfYearRange 2028 3 = (61, 91)
  /\ monthWalk 13 2028 75 1 = Some (15, 3).
Proof.
  pose proof (months_tile_the_year 2028 3 ltac:(lia)) as H.
  cbv zeta in H. destruct H as (_ & _ & _ & _ & _ & H).
  split; [reflexivity|]. exact (H 75 ltac:(vm_compute; split; discriminate)).
Defined.

Lemma weekday_all :
  forallb (fun y => forallb (fun m => forallb (weekday_ok y m)
    (seqZ 1 31)) (seqZ 1 12)) (seqZ 2000 100) = true.
Proof. vm_compute. reflexivity. Qed.

Lemma new_year_weekday_all :
  forallb new_year_weekday_ok (seqZ 2000 99) = true.
Proof. vm_compute. reflexivity. Qed.

(** X2.  For the years 2000..2099, the years the date editor can set,
    [calculateDOW] gives a weekday 1..7 that advances by one with each
    day of the year and from 31 December to 1 January, starting from
    Saturday (6) on 1 January 2000: it is the ISO weekday. *)
Theorem calculateDOW_iso (y m d : Z) :
  2000 <= y <= 2099 -> validDate y m d ->
  1 <= calculateDOW y m d <= 7
  /\ calculateDOW y m d
     = isoDow (calculateDOW y 1 1) (dayOfYearOf (dateOf y m d))
  /\ (y < 2099 ->
      calculateDOW (y + 1) 1 1 = isoDow (calculateDOW y 1 1) (daysInYear y + 1))
  /\ calculateDOW 2000 1 1 = 6.
Proof.
  intros Hy [Hm Hd].
  pose proof (monthLength_le_31 (isLeapYear y) m) as H31.
  pose proof weekday_all as H.
  rewrite forallb_forall in H. specialize (H y (In_seqZ 2000 100 y ltac:(lia))).
  rewrite forallb_forall in H. specialize (H m (In_seqZ 1 12 m ltac:(lia))).
  rewrite forallb_forall in H. specialize (H d (In_seqZ 1 31 d ltac:(lia))).
  unfold weekday_ok in H. apply orb_prop in H as [H|H];
    [apply negb_true_iff, Z.leb_gt in H; lia|].
  apply andb_prop in H as [H H3]. apply andb_prop in H as [H1 H2].
  apply Z.leb_le in H1, H2. apply Z.eqb_eq in H3.
  split; [lia|]. split; [exact H3|]. split; [|reflexivity].
  intros Hlt. pose proof new_year_weekday_all as Hn.
  rewrite forallb_forall in Hn. specialize (Hn y (In_seqZ 2000 99 y ltac:(lia))).
  apply Z.eqb_eq in Hn. exact Hn.
Qed.

(** An instance: 10 April 2025 is a Thursday. *)
Lemma calculateDOW_iso_witness :
  calculateDOW 2025 4 10 = isoDow (calculateDOW 2025 1 1) 100
  /\ calculateDOW 2025 4 10 = 4.
Proof.
  split; [|reflexivity].
  exact (proj1 (proj2 (calculateDOW_iso 2025 4 10 ltac:(lia)
                         ltac:(vm_compute; intuition discriminate)))).
Defined.

Ltac month_walk_step :=
  match goal with
  | |- context [monthWalk (S ?f) ?y ?d ?m] =>
      let len := eval vm_compute in (getDaysInMonth y m) in
      change (monthWalk (S f) y d m)
        with (match len with
              | None => None
              | Some l => if l <? d then monthWalk f y (d - l) (m + 1)
                          else Some (d, m)
              end);
      cbv iota beta
  end.

Lemma monthWalk_None y doy :
  monthWalk 13 y doy 1 = None <-> daysInYear y < doy.
Proof.
  rewrite monthWalk_rep.
  assert (Hdy : daysInYear y = daysInYear (repYear y))
    by (unfold daysInYear; now rewrite isLeapYear_rep).
  rewrite Hdy. unfold repYear.
  destruct (isLeapYear y);
    [change (daysInYear 2024) with 366 | change (daysInYear 2025) with 365].
  all: repeat (month_walk_step;
               match goal with
               | |- context [if ?a <? ?b then _ else _] =>
                   destruct (Z.ltb_spec a b); [|split; [discriminate | lia]]
               end).
  all: month_walk_step; split; [lia | reflexivity].
Qed.

(** X3.  [getDateFromDayOfYear] resolves the year as the current one
    for a day up to today and the one before otherwise; its month walk
    ends inside the table of month lengths exactly when the day does
    not exceed the length of that year, and on a larger day it reads
    past the twelfth entry.  A day below 1 is returned as it is, in
    January. *)
Theorem dateFromDayOfYear_defined (inputDayOfYear : Z) (s : State) :
  let year := if inputDayOfYear <=? currentDayOfYear s then currentYear s
              else uint16 (currentYear s - 1) in
  (dateFromDayOfYear inputDayOfYear s = None <-> daysInYear year < inputDayOfYear)
  /\ (inputDayOfYear <= 31 ->
      dateFromDayOfYear inputDayOfYear s = Some (inputDayOfYear, 1)).
Proof.
  cbv zeta. unfold dateFromDayOfYear. split; [apply monthWalk_None|].
  intros H. month_walk_step.
  destruct (Z.ltb_spec 31 inputDayOfYear); [lia | reflexivity].
Qed.

(** An instance: on 10 April 2025, day 366 resolves to 2024, a leap
    year, and is 31 December; in the state of 10 April 2026 day 366
    resolves to 2025 and the walk leaves the table. *)
Lemma dateFromDayOfYear_defined_witness :
  dateFromDayOfYear 366 (day100 ∅) = Some (31, 12)
  /\ dateFromDayOfYear 366 (set_date 100 5 4 2026 (day100 ∅)) = None.
Proof.
  split; [reflexivity|].
  apply (proj1 (dateFromDayOfYear_defined 366 (set_date 100 5 4 2026 (day100 ∅)))).
  vm_compute. reflexivity.
Defined.

(** ** Clearing the log *)

Section Clearing.

(** The loop of [clearStatistics] over any list of distinct addresses. *)
Lemma clearAll_fold_spec (l : list Z) (s : State) :
  NoDup l ->
  let s' :=
    fold_left
      (fun st i => if negb (readCell st i =? EMPTY_VALUE)
                   then EEPROM_update i EMPTY_VALUE st else st) l s in
  eeprom_only s s'
  /\ eepromLog s'
     = eepromLog s
       ++ map (fun a => (a, EMPTY_VALUE))
              (filter (fun a => readCell s a <> EMPTY_VALUE) l)
  /\ forall a, readCell s' a = if decide (a ∈ l) then EMPTY_VALUE else readCell s a.
Proof.
  intros Hnd. induction l as [|x l IH] using rev_ind; cbv zeta.
  - split; [apply eeprom_only_refl|]. split; [simpl; now rewrite app_nil_r|].
    intros a. destruct (decide (a ∈ [])) as [H|]; [|reflexivity].
    apply elem_of_nil in H. contradiction.
  - apply NoDup_app in Hnd as (Hnd & Hx & _).
    specialize (IH Hnd). cbv zeta in IH.
    rewrite fold_left_app. cbn [fold_left].
    set (sl := fold_left _ l s) in *.
    destruct IH as (Ho & Hlog & Hread).
    assert (Hxl : x ∉ l).
    { intros Hin. apply (Hx x Hin). apply list_elem_of_singleton. reflexivity. }
    assert (Hrx : readCell sl x = readCell s x).
    { rewrite Hread. destruct (decide (x ∈ l)); [contradiction | reflexivity]. }
    rewrite Hrx, filter_app, map_app.
    assert (Hmem : forall a, a ∈ l ++ [x] <-> a ∈ l \/ a = x).
    { intros a. rewrite elem_of_app, list_elem_of_singleton. reflexivity. }
    destruct (Z.eqb_spec (readCell s x) EMPTY_VALUE) as [E|E]; cbn [negb].
    + rewrite filter_cons_False by tauto. rewrite filter_nil. simpl.
      rewrite app_nil_r. split; [exact Ho|]. split; [exact Hlog|].
      intros a. rewrite Hread.
      destruct (decide (a ∈ l)) as [Hin|Hin];
        destruct (decide (a ∈ l ++ [x])) as [Hin'|Hin']; try reflexivity.
      * exfalso. apply Hin'. apply Hmem. now left.
      * apply Hmem in Hin' as [? | ->]; [contradiction | exact E].
    + rewrite filter_cons_True by exact E. rewrite filter_nil.
      split; [eapply eeprom_only_trans; [exact Ho | apply eeprom_only_update]|].
      split.
      * cbn [EEPROM_update set_eeprom eepromLog]. rewrite Hlog, <- app_assoc.
        reflexivity.
      * intros a. rewrite readCell_update.
        destruct (decide (a = x)) as [->|Hne].
        -- destruct (decide (x ∈ l ++ [x])) as [_|Hn]; [reflexivity|].
           exfalso. apply Hn. apply Hmem. now right.
        -- rewrite Hread.
           destruct (decide (a ∈ l)) as [Hin|Hin];
             destruct (decide (a ∈ l ++ [x])) as [Hin'|Hin']; try reflexivity.
           ++ exfalso. apply Hin'. apply Hmem. now left.
           ++ apply Hmem in Hin' as [?|?]; contradiction.
Qed.

Lemma latestSaved_none e :
  (forall a, 2 <= a <= 367 -> EEPROM_read e a <> SPRINTS_END_BYTE) ->
  latestSaved e = 0.
Proof.
  intros Hn. destruct (latestSaved_spec e) as [[H _]|(Hr & He & _)]; [exact H|].
  exfalso. apply (Hn (latestSaved e + 1)); [lia | exact He].
Qed.

Lemma clearAllCells_spec (s : State) :
  let s' := clearAllCells s in
  eeprom_only s s'
  /\ eepromLog s'
     = eepromLog s
       ++ map (fun a => (a, EMPTY_VALUE))
              (filter (fun a => readCell s a <> EMPTY_VALUE) (seqZ 0 368))
  /\ forall a, readCell s' a
               = if decide (a ∈ seqZ 0 368) then EMPTY_VALUE else readCell s a.
Proof. apply (clearAll_fold_spec (seqZ 0 368) s), NoDup_seqZ. Qed.

Lemma clearStatistics_fst s m :
  fst (clearStatistics s m)
  = set_state STANDBY (errorCode (clearAllCells s)) (clearAllCells s).
Proof. reflexivity. Qed.

Lemma clearStatistics_snd s m :
  snd (clearStatistics s m) = mkMenu SPRINT NOW (statisticsPeriod m) false.
Proof. reflexivity. Qed.

Lemma set_state_fields st code s :
  (forall a, readCell (set_state st code s) a = readCell s a)
  /\ eeprom (set_state st code s) = eeprom s
  /\ eepromLog (set_state st code s) = eepromLog s
  /\ operatingState (set_state st code s) = st
  /\ errorCode (set_state st code s) = code
  /\ sprintCounter (set_state st code s) = sprintCounter s
  /\ currentDayOfYear (set_state st code s) = currentDayOfYear s.
Proof. repeat split. Qed.

Lemma clearStatistics_spec (s : State) (m : Menu) :
  let s' := fst (clearStatistics s m) in
  let m' := snd (clearStatistics s m) in
  (forall a, readCell s' a
             = if decide (0 <= a <= 367) then EMPTY_VALUE else readCell s a)
  /\ eepromLog s'
     = eepromLog s
       ++ map (fun a => (a, EMPTY_VALUE))
              (filter (fun a => readCell s a <> EMPTY_VALUE) (seqZ 0 368))
  /\ operatingState s' = STANDBY
  /\ errorCode s' = errorCode s
  /\ sprintCounter s' = sprintCounter s
  /\ currentDayOfYear s' = currentDayOfYear s
  /\ latestSaved (eeprom s') = 0
  /\ m' = mkMenu SPRINT NOW (statisticsPeriod m) false.
Proof.
  cbv zeta. rewrite clearStatistics_fst, clearStatistics_snd.
  destruct (clearAllCells_spec s) as (Ho & Hlog & Hread).
  generalize dependent (clearAllCells s). intros s1 Ho Hlog Hread.
  destruct (eeprom_only_globals _ _ Ho) as (_ & He & Hd & Hn & _).
  destruct (set_state_fields STANDBY (errorCode s1) s1)
    as (Fr & Fe & Fl & Fo & Fc & Fn & Fd).
  assert (Hcells : forall a, readCell (set_state STANDBY (errorCode s1) s1) a
                             = if decide (0 <= a <= 367) then EMPTY_VALUE
                               else readCell s a).
  { intros a. rewrite Fr, Hread.
    destruct (decide (a ∈ seqZ 0 368)) as [H|H]; rewrite elem_of_seqZ in H;
      destruct (decide (0 <= a <= 367)) as [H'|H'].
    - reflexivity.
    - exfalso; lia.
    - exfalso; lia.
    - reflexivity. }
  split; [exact Hcells|]. split; [rewrite Fl; exact Hlog|]. split; [exact Fo|].
  split; [rewrite Fc; exact He|]. split; [rewrite Fn; exact Hn|].
  split; [rewrite Fd; exact Hd|]. split; [|reflexivity].
  apply latestSaved_none. intros a Ha.
  fold (readCell (set_state STANDBY (errorCode s1) s1) a).
  rewrite Hcells. destruct (decide (0 <= a <= 367)); [discriminate | lia].
Qed.

End Clearing.

(** X4.  [clearStatistics] leaves EMPTY in every cell 0..367 and every
    other cell (the lookahead cell 368 and the configuration block
    among them) as it was; it updates exactly the cells that were not
    EMPTY, in ascending order.  It puts the device in standby, at the
    sprint item of the main menu, and keeps the fault code and the
    running counter of the day. *)
Theorem clearStatistics_clears (s : State) (m : Menu) :
  let s' := fst (clearStatistics s m) in
  let m' := snd (clearStatistics s m) in
  (forall a, readCell s' a
             = if decide (0 <= a <= 367) then EMPTY_VALUE else readCell s a)
  /\ eepromLog s'
     = eepromLog s
       ++ map (fun a => (a, EMPTY_VALUE))
              (filter (fun a => readCell s a <> EMPTY_VALUE) (seqZ 0 368))
  /\ operatingState s' = STANDBY
  /\ errorCode s' = errorCode s
  /\ sprintCounter s' = sprintCounter s
  /\ currentDayOfYear s' = currentDayOfYear s
  /\ latestSaved (eeprom s') = 0
  /\ m' = mkMenu SPRINT NOW (statisticsPeriod m) false.
Proof. exact (clearStatistics_spec s m). Qed.

(** X5.  After [clearStatistics] the boot block finds nothing to repair,
    and the lookahead check passes on every day up to 365.  On day 366
    the check reads cell 368, which [clearStatistics] does not reach:
    fault 3 is raised there exactly when that cell held a byte in
    58..254 before the clearing. *)
Theorem clearStatistics_then_lookahead (s : State) (m : Menu) (now : RtcDateTime) :
  errorCode s = 0 -> 1 <= currentDayOfYear s <= 366 ->
  let s' := fst (clearStatistics s m) in
  reconcileOnBoot now s' = s'
  /\ (currentDayOfYear s <= 365 -> validateNextDayCell s' = s')
  /\ (currentDayOfYear s = 366 ->
      (errorCode (validateNextDayCell s') = 3 <-> 58 <= readCell s 368 <= 254)).
Proof.
  intros Herr Hday s'.
  destruct (clearStatistics_spec s m)
    as (Hcells & _ & Hst & He & _ & Hd & Hl & _).
  fold s' in Hcells, Hst, He, Hd, Hl.
  split; [|split].
  - apply reconcileOnBoot_noop. right. right. split; [|left; exact Hl].
    intros (H & _). apply H. rewrite Hcells, Hd.
    rewrite decide_True by lia. reflexivity.
  - intros H365. apply validateNextDayCell_pass. left.
    rewrite Hd, uint16_small by lia. rewrite Hcells, decide_True by lia.
    reflexivity.
  - intros H366. unfold validateNextDayCell. rewrite He, Herr, Hd, H366.
    change (uint16 (366 + 2)) with 368. rewrite Hcells, decide_False by lia.
    pose proof (readCell_range s 368) as Hr. cbn [Z.eqb andb].
    unfold EMPTY_VALUE.
    destruct (Z.eqb_spec (readCell s 368) 255) as [E|E]; cbn [negb].
    + rewrite He, Herr. split; [discriminate | lia].
    + destruct (Z.leb_spec 0 (readCell s 368)); [|lia].
      destruct (Z.ltb_spec (readCell s 368) 58); cbn [andb].
      * rewrite He, Herr. split; [discriminate | lia].
      * split; [lia | reflexivity].
Qed.

(** An instance: day 366 with a stale byte 200 in cell 368. *)
Lemma clearStatistics_then_lookahead_witness :
  let s := set_date 366 2 12 2024
             (initialState STANDBY initConfig (<[368 := 200]> logNewYear)) in
  let s' := fst (clearStatistics s (mkMenu 1 6 0 true)) in
  readCell s' 365 = EMPTY_VALUE
  /\ errorCode (validateNextDayCell s') = 3.
Proof.
  pose proof (clearStatistics_then_lookahead
                (set_date 366 2 12 2024
                   (initialState STANDBY initConfig (<[368 := 200]> logNewYear)))
                (mkMenu 1 6 0 true) (dateOf 2024 12 31) eq_refl ltac:(simpl; lia)) as H.
  cbv zeta in H. destruct H as (_ & _ & H).
  split; [reflexivity|]. apply (H eq_refl). vm_compute. split; discriminate.
Defined.

(** ** Saving and booting *)

(** X6.  [saveSprint] either ends in a fault and leaves the EEPROM
    untouched, or changes nothing but today's cell, the cell after it
    and cells that held the end byte: the count of every other day is
    kept, and so is every cell outside 2..367 other than today's. *)
Theorem saveSprint_keeps_other_days (s : State) (now : RtcDateTime) :
  let s' := saveSprint now s in
  let d := currentDayOfYear s' in
  (errorCode s' <> 0 -> eeprom s' = eeprom s /\ eepromLog s' = eepromLog s)
  /\ (errorCode s' = 0 ->
      forall a, a <> d -> a <> d + 1 ->
                readCell s a <> SPRINTS_END_BYTE \/ ~ 2 <= a <= 367 ->
                readCell s' a = readCell s a).
Proof.
  cbv zeta. split.
  - intros Hbad. destruct (saveSprint_error now s Hbad) as (He & Hl & _).
    split; assumption.
  - intros Hok a Had Had1 Ha.
    destruct (saveSprint_spec now s Hok) as (_ & Hd & _ & _ & Hread).
    rewrite Hd in Had, Had1. rewrite Hread.
    rewrite decide_False by exact Had1.
    destruct (decide (a = dayOfYearOf now)) as [|_]; [contradiction|].
    destruct (decide (2 <= a <= 367 /\ readCell s a = SPRINTS_END_BYTE))
      as [[H1 H2]|_]; [|reflexivity].
    destruct Ha; contradiction.
Qed.

Lemma saveSprint_keeps_other_days_witness :
  let s' := saveSprint (dateOf 2025 4 10) (day100 logNewYear) in
  readCell s' 365 = readCell (day100 logNewYear) 365
  /\ readCell s' 3 = readCell (day100 logNewYear) 3.
Proof.
  pose proof (saveSprint_keeps_other_days (day100 logNewYear) (dateOf 2025 4 10)) as H.
  cbv zeta in H. destruct H as [_ H].
  assert (Hok : errorCode (saveSprint (dateOf 2025 4 10) (day100 logNewYear)) = 0)
    by (vm_compute; reflexivity).
  split.
  - apply (H Hok 365); [vm_compute; discriminate | vm_compute; discriminate |].
    left. vm_compute. discriminate.
  - apply (H Hok 3); [vm_compute; discriminate | vm_compute; discriminate |].
    left. vm_compute. discriminate.
Defined.

Section SaveThenBoot.

(** With no fault, standby and an authoritative cell for today the boot
    block loads the counter from the cell. *)
Lemma reconcileOnBoot_loads now s :
  errorCode s = 0 -> operatingState s = STANDBY -> authoritative s ->
  reconcileOnBoot now s = set_sprintCounter (readCell s (currentDayOfYear s)) s.
Proof.
  intros Herr Hst Ha. apply authoritative_test in Ha.
  unfold reconcileOnBoot. rewrite Herr, Hst, Ha. reflexivity.
Qed.

End SaveThenBoot.

(** X7.  After a [saveSprint] that ended with no fault and left the
    counter [n] in 0..57, a boot in standby on the same day of the year
    finds today's cell authoritative: it raises no fault, sets the
    running counter to [n] and writes nothing. *)
Theorem saveSprint_then_boot (s : State) (now now2 now2' : RtcDateTime)
    (cfg : Config) (n : Z) :
  errorCode (saveSprint now s) = 0 ->
  sprintCounter (saveSprint now s) = n -> 0 <= n <= 57 ->
  isRtcDateTimeSane now2 = true -> dayOfYearOf now2 = dayOfYearOf now ->
  let booted := setup true now2 now2'
                  (initialState STANDBY cfg (eeprom (saveSprint now s))) in
  errorCode booted = 0 /\ operatingState booted = STANDBY
  /\ sprintCounter booted = n
  /\ eeprom booted = eeprom (saveSprint now s)
  /\ eepromLog booted = [].
Proof.
  intros Hok Hn Hrange Hsane2 Hdoy booted.
  destruct (saveSprint_spec now s Hok) as (Hd & _ & Hn' & _ & Hread).
  destruct (saveSprint_no_error now s Hok) as (Hsane & Herr & Hval).
  rewrite Hn in Hn'. rewrite <- Hn' in Hread. clear Hn'.
  set (s' := saveSprint now s) in *. set (d := dayOfYearOf now) in *.
  assert (Hu : uint8 n = n) by (apply uint8_small; lia). rewrite Hu in Hread.
  assert (Hpass : readCell s (d + 2) = EMPTY_VALUE \/ readCell s (d + 2) < 58).
  { assert (H0 : errorCode (validateNextDayCell (getCurrentDate now s)) = 0)
      by (rewrite Hval; unfold getCurrentDate; rewrite Hsane; exact Herr).
    apply validateNextDayCell_passed in H0.
    unfold getCurrentDate in H0. rewrite Hsane in H0.
    cbn [set_date currentDayOfYear] in H0. fold d in H0.
    rewrite uint16_small in H0 by lia. exact H0. }
  assert (Hcd : readCell s' d = n).
  { rewrite Hread. rewrite decide_False by lia.
    destruct (decide (d = d)) as [_|]; [|congruence].
    rewrite decide_False; [reflexivity|].
    intros [_ H]. unfold SPRINTS_END_BYTE in H. lia. }
  assert (Hcd1 : readCell s' (d + 1) = SPRINTS_END_BYTE).
  { rewrite Hread. destruct (decide (d + 1 = d + 1)); [reflexivity | congruence]. }
  assert (Hcd2 : readCell s' (d + 2) = readCell s (d + 2)).
  { rewrite Hread. rewrite decide_False by lia.
    destruct (decide (d + 2 = d)) as [|_]; [lia|].
    rewrite decide_False; [reflexivity|].
    intros [_ H]. unfold SPRINTS_END_BYTE, EMPTY_VALUE in *. lia. }
  set (t1 := set_date d (if DayOfWeek now2 =? 0 then 7 else DayOfWeek now2)
               (Month now2) (Year now2) (initialState STANDBY cfg (eeprom s'))).
  assert (Hg : getCurrentDate now2 (initialState STANDBY cfg (eeprom s')) = t1)
    by (unfold getCurrentDate; rewrite Hsane2, Hdoy; reflexivity).
  assert (Hr1 : forall a, readCell t1 a = readCell s' a) by reflexivity.
  assert (Hc1 : currentDayOfYear t1 = d) by reflexivity.
  assert (Hv : validateNextDayCell t1 = t1).
  { apply validateNextDayCell_pass. rewrite Hc1, uint16_small by lia.
    rewrite Hr1, Hcd2. exact Hpass. }
  assert (Hat : authoritative t1).
  { unfold authoritative. rewrite Hc1, uint16_small by lia.
    rewrite !Hr1, Hcd, Hcd1. unfold EMPTY_VALUE, SPRINTS_END_BYTE.
    repeat split; lia. }
  assert (Hb : booted = set_sprintCounter (readCell t1 (currentDayOfYear t1)) t1).
  { unfold booted, setup. cbn [initialState operatingState OperatingStates_eqb negb].
    fold (initialState STANDBY cfg (eeprom s')). rewrite Hg, Hv.
    apply reconcileOnBoot_loads; [reflexivity | reflexivity | exact Hat]. }
  rewrite Hb, Hc1, Hr1, Hcd. repeat split.
Qed.

(** An instance: the fourth sprint of day 100 is saved, and the device
    is switched off and on the same day. *)
Lemma saveSprint_then_boot_witness :
  let s' := saveSprint (dateOf 2025 4 10) (set_sprintCounter 4 (day100 ∅)) in
  let booted := setup true (dateOf 2025 4 10) (dateOf 2025 4 10)
                  (initialState STANDBY initConfig (eeprom s')) in
  sprintCounter booted = 4 /\ eepromLog booted = [].
Proof.
  assert (Hok : errorCode (saveSprint (dateOf 2025 4 10)
                             (set_sprintCounter 4 (day100 ∅))) = 0)
    by (vm_compute; reflexivity).
  assert (Hn : sprintCounter (saveSprint (dateOf 2025 4 10)
                                (set_sprintCounter 4 (day100 ∅))) = 4)
    by (vm_compute; reflexivity).
  assert (Hsane : isRtcDateTimeSane (dateOf 2025 4 10) = true)
    by (vm_compute; reflexivity).
  pose proof (saveSprint_then_boot (set_sprintCounter 4 (day100 ∅))
                (dateOf 2025 4 10) (dateOf 2025 4 10) (dateOf 2025 4 10)
                initConfig 4 Hok Hn ltac:(lia) Hsane eq_refl) as H.
  cbv zeta in H. destruct H as (_ & _ & H1 & _ & H2). split; assumption.
Defined.

(** X8.  When the single end byte of the log sits after a day later
    than today (the year has turned since the last save), the boot
    block writes 0 to the cells from the day after the last saved one to
    the last day of the previous year, then to the cells 1..today, then
    the end byte to the cell after today's; all other cells keep their
    byte.  The old end byte is overwritten only when its cell lies
    within the previous year: after a last save on the final day of that
    year it stays, and the log holds two end bytes. *)
Theorem reconcileOnBoot_new_year_fill (s : State) (now : RtcDateTime)
    (latestSavedDay today : Z) :
  errorCode s = 0 -> operatingState s = STANDBY ->
  currentDayOfYear s = today -> 1 <= today <= 366 ->
  today < latestSavedDay <= 366 ->
  (forall a, 2 <= a <= 367 ->
     (readCell s a = SPRINTS_END_BYTE <-> a = latestSavedDay + 1)) ->
  let daysInPreviousYear :=
    if isLeapYear (uint16 (int16 (Year now) - 1)) then 366 else 365 in
  let s' := reconcileOnBoot now s in
  (forall a, readCell s' a
             = if decide (a = today + 1) then SPRINTS_END_BYTE
               else if decide (1 <= a <= today
                               \/ latestSavedDay + 1 <= a <= daysInPreviousYear)
                    then 0 else readCell s a)
  /\ eepromLog s'
     = eepromLog s
       ++ map (fun a => (a, 0))
              (seqZ (latestSavedDay + 1) (daysInPreviousYear - latestSavedDay))
       ++ map (fun a => (a, 0)) (seqZ 1 today)
       ++ [(today + 1, SPRINTS_END_BYTE)]
  /\ (readCell s' (latestSavedDay + 1) = SPRINTS_END_BYTE
      <-> daysInPreviousYear <= latestSavedDay).
Proof.
  intros Herr Hst Hcur Htoday Hlat Hsingle L s'.
  assert (Hl : latestSaved (eeprom s) = latestSavedDay).
  { apply latestSaved_last; [lia | apply Hsingle; lia |].
    intros a Ha E. apply Hsingle in E; lia. }
  assert (Hna : ~ authoritative s).
  { intros (_ & _ & H). rewrite Hcur, uint16_small in H by lia.
    apply Hsingle in H; lia. }
  unfold s'. rewrite (reconcileOnBoot_new_year now s latestSavedDay) by (auto; lia).
  fold L. rewrite Hcur.
  destruct (fillZero_spec (latestSavedDay + 1) L s) as (_ & Hlog1 & Hread1).
  destruct (fillZero_spec 1 today (fillZero (latestSavedDay + 1) L s))
    as (_ & Hlog2 & Hread2).
  assert (Hcells : forall a,
            readCell (EEPROM_update (today + 1) SPRINTS_END_BYTE
                        (fillZero 1 today (fillZero (latestSavedDay + 1) L s))) a
            = if decide (a = today + 1) then SPRINTS_END_BYTE
              else if decide (1 <= a <= today \/ latestSavedDay + 1 <= a <= L)
                   then 0 else readCell s a).
  { intros a. rewrite readCell_update.
    destruct (decide (a = today + 1)) as [_|Hne]; [reflexivity|].
    rewrite Hread2, Hread1.
    destruct (decide (1 <= a <= today)) as [H1|H1];
      destruct (decide (latestSavedDay + 1 <= a <= L)) as [H2|H2];
      destruct (decide (1 <= a <= today \/ latestSavedDay + 1 <= a <= L))
        as [H3|H3]; try reflexivity; exfalso; tauto. }
  split; [exact Hcells|]. split.
  - cbn [EEPROM_update set_eeprom eepromLog]. rewrite Hlog2, Hlog1.
    replace (L - (latestSavedDay + 1) + 1) with (L - latestSavedDay) by lia.
    replace (today - 1 + 1) with today by lia.
    rewrite <- !app_assoc. reflexivity.
  - rewrite Hcells. rewrite decide_False by lia.
    destruct (decide (1 <= latestSavedDay + 1 <= today
                      \/ latestSavedDay + 1 <= latestSavedDay + 1 <= L))
      as [H|H].
    + split; [discriminate | lia].
    + split; [lia|]. intros _. apply Hsingle; lia.
Qed.

(** An instance: the last sprint was saved on 31 December 2025 (day
    365), the device boots on 2 January 2026. *)
Lemma reconcileOnBoot_new_year_fill_witness :
  let s := set_date 2 5 1 2026
             (initialState STANDBY initConfig
                (<[365 := 3]> (<[366 := SPRINTS_END_BYTE]> ∅))) in
  let s' := reconcileOnBoot (dateOf 2026 1 2) s in
  eepromLog s' = [(1, 0); (2, 0); (3, SPRINTS_END_BYTE)]
  /\ readCell s' 366 = SPRINTS_END_BYTE.
Proof.
  assert (Hsingle : forall a, 2 <= a <= 367 ->
            (readCell (set_date 2 5 1 2026
                         (initialState STANDBY initConfig
                            (<[365 := 3]> (<[366 := SPRINTS_END_BYTE]> ∅)))) a
             = SPRINTS_END_BYTE <-> a = 365 + 1)).
  { intros a Ha. unfold readCell, EEPROM_read.
    cbn [set_date initialState eeprom].
    destruct (decide (a = 365)) as [->|H1]; [split; [discriminate | lia]|].
    rewrite lookup_insert_ne by congruence.
    destruct (decide (a = 366)) as [->|H2]; [split; reflexivity|].
    rewrite lookup_insert_ne by congruence. rewrite lookup_empty.
    split; [discriminate | lia]. }
  pose proof (reconcileOnBoot_new_year_fill
                (set_date 2 5 1 2026
                   (initialState STANDBY initConfig
                      (<[365 := 3]> (<[366 := SPRINTS_END_BYTE]> ∅))))
                (dateOf 2026 1 2) 365 2
                eq_refl eq_refl eq_refl ltac:(lia) ltac:(lia) Hsingle) as H.
  cbv zeta in H. destruct H as (_ & H1 & H2).
  split; [exact H1|]. apply H2. vm_compute. discriminate.
Defined.

(** ** Setting the clock *)

Lemma setDateTime_commit_unfold now s :
  setDateTime_commit now s
  = EEPROM_update
      (uint16
         (currentDayOfYear
            (if negb (readCell (clearStrayEndBytes (getCurrentDate now (set_state STANDBY 0 s)))
                        (currentDayOfYear
                           (clearStrayEndBytes (getCurrentDate now (set_state STANDBY 0 s))))
                      =? EMPTY_VALUE)
             then set_sprintCounter
                    (readCell (clearStrayEndBytes (getCurrentDate now (set_state STANDBY 0 s)))
                       (currentDayOfYear
                          (clearStrayEndBytes (getCurrentDate now (set_state STANDBY 0 s)))))
                    (clearStrayEndBytes (getCurrentDate now (set_state STANDBY 0 s)))
             else set_sprintCounter 0
                    (clearStrayEndBytes (getCurrentDate now (set_state STANDBY 0 s)))) + 1))
      SPRINTS_END_BYTE
      (if negb (readCell (clearStrayEndBytes (getCurrentDate now (set_state STANDBY 0 s)))
                  (currentDayOfYear
                     (clearStrayEndBytes (getCurrentDate now (set_state STANDBY 0 s))))
                =? EMPTY_VALUE)
       then set_sprintCounter
              (readCell (clearStrayEndBytes (getCurrentDate now (set_state STANDBY 0 s)))
                 (currentDayOfYear
                    (clearStrayEndBytes (getCurrentDate now (set_state STANDBY 0 s)))))
              (clearStrayEndBytes (getCurrentDate now (set_state STANDBY 0 s)))
       else set_sprintCounter 0
              (clearStrayEndBytes (getCurrentDate now (set_state STANDBY 0 s)))).
Proof. reflexivity. Qed.

Lemma EEPROM_update_fields idx val s :
  operatingState (EEPROM_update idx val s) = operatingState s
  /\ errorCode (EEPROM_update idx val s) = errorCode s
  /\ currentDayOfYear (EEPROM_update idx val s) = currentDayOfYear s
  /\ sprintCounter (EEPROM_update idx val s) = sprintCounter s
  /\ eepromLog (EEPROM_update idx val s) = eepromLog s ++ [(idx, uint8 val)].
Proof. repeat split. Qed.

(** X9.  Leaving the date and time editor puts the device in standby
    with the fault code the clock reading gives: 0 and the day of that
    reading when it is sane, 2 and the day held before when it is not.
    In both cases, for a day 1..366, the end byte ends up in exactly one
    cell of 2..367, the one after that day; no count is changed except
    in that cell; and the running counter is loaded from the day's cell,
    0 standing for an EMPTY cell or a cleared end byte. *)
Theorem setDateTime_commit_marker (s : State) (now : RtcDateTime) :
  let s' := setDateTime_commit now s in
  let d := currentDayOfYear s' in
  1 <= d <= 366 ->
  (if isRtcDateTimeSane now
   then operatingState s' = STANDBY /\ errorCode s' = 0 /\ d = dayOfYearOf now
   else operatingState s' = ERROR /\ errorCode s' = 2 /\ d = currentDayOfYear s)
  /\ (forall a, 2 <= a <= 367 ->
        (readCell s' a = SPRINTS_END_BYTE <-> a = d + 1))
  /\ (forall a, a <> d + 1 ->
        readCell s a <> SPRINTS_END_BYTE \/ ~ 2 <= a <= 367 ->
        readCell s' a = readCell s a)
  /\ sprintCounter s'
     = (if decide (readCell s d = EMPTY_VALUE
                   \/ (2 <= d /\ readCell s d = SPRINTS_END_BYTE))
        then 0 else readCell s d)
  /\ exists cleared,
       eepromLog s'
       = eepromLog s ++ map (fun a => (a, EMPTY_VALUE)) cleared
         ++ [(d + 1, SPRINTS_END_BYTE)]
       /\ forall a, a ∈ cleared
                    <-> 2 <= a <= 367 /\ readCell s a = SPRINTS_END_BYTE
                        /\ a <> d + 1.
Proof.
  cbv zeta. rewrite setDateTime_commit_unfold.
  assert (H1 : (forall a, readCell (getCurrentDate now (set_state STANDBY 0 s)) a
                          = readCell s a)
               /\ eepromLog (getCurrentDate now (set_state STANDBY 0 s)) = eepromLog s
               /\ (if isRtcDateTimeSane now
                   then operatingState (getCurrentDate now (set_state STANDBY 0 s)) = STANDBY
                        /\ errorCode (getCurrentDate now (set_state STANDBY 0 s)) = 0
                        /\ currentDayOfYear (getCurrentDate now (set_state STANDBY 0 s))
                           = dayOfYearOf now
                   else operatingState (getCurrentDate now (set_state STANDBY 0 s)) = ERROR
                        /\ errorCode (getCurrentDate now (set_state STANDBY 0 s)) = 2
                        /\ currentDayOfYear (getCurrentDate now (set_state STANDBY 0 s))
                           = currentDayOfYear s)).
  { unfold getCurrentDate. destruct (isRtcDateTimeSane now); repeat split. }
  revert H1. generalize (getCurrentDate now (set_state STANDBY 0 s)).
  intros s1 (Hr1 & Hl1 & Hst1).
  generalize (clearStrayEndBytes_spec s1). generalize (clearStrayEndBytes s1).
  intros s2 (Ho & Hlog & Hread).
  destruct (eeprom_only_globals _ _ Ho) as (Hop & Hec & Hd2 & _).
  assert (H3 : forall s3,
            s3 = (if negb (readCell s2 (currentDayOfYear s2) =? EMPTY_VALUE)
                  then set_sprintCounter (readCell s2 (currentDayOfYear s2)) s2
                  else set_sprintCounter 0 s2) ->
            (forall a, readCell s3 a = readCell s2 a)
            /\ eepromLog s3 = eepromLog s2
            /\ operatingState s3 = operatingState s2
            /\ errorCode s3 = errorCode s2
            /\ currentDayOfYear s3 = currentDayOfYear s2
            /\ sprintCounter s3
               = if readCell s2 (currentDayOfYear s2) =? EMPTY_VALUE then 0
                 else readCell s2 (currentDayOfYear s2)).
  { intros s3 ->. destruct (readCell s2 (currentDayOfYear s2) =? EMPTY_VALUE);
      repeat split. }
  specialize (H3 _ eq_refl). revert H3.
  generalize (if negb (readCell s2 (currentDayOfYear s2) =? EMPTY_VALUE)
              then set_sprintCounter (readCell s2 (currentDayOfYear s2)) s2
              else set_sprintCounter 0 s2).
  intros s3 (Hr3 & Hl3 & Hop3 & Hec3 & Hd3 & Hn3).
  destruct (EEPROM_update_fields (uint16 (currentDayOfYear s3 + 1))
              SPRINTS_END_BYTE s3) as (Uo & Ue & Ud & Un & Ul).
  rewrite Uo, Ue, Ud, Un, Ul. clear Uo Ue Ud Un Ul.
  rewrite Hd3, Hd2. rewrite Hd2 in Hn3. set (d := currentDayOfYear s1) in *.
  intros Hd.
  rewrite uint16_small in * by lia.
  assert (Hcell : forall a,
            readCell (EEPROM_update (d + 1) SPRINTS_END_BYTE s3) a
            = if decide (a = d + 1) then SPRINTS_END_BYTE
              else if decide (2 <= a <= 367 /\ readCell s a = SPRINTS_END_BYTE)
                   then EMPTY_VALUE else readCell s a).
  { intros a. rewrite readCell_update.
    destruct (decide (a = d + 1)) as [_|Hne]; [reflexivity|].
    rewrite Hr3, Hread, Hr1.
    destruct (decide (a ∈ seqZ 2 366 /\ _)) as [Hin|Hin];
      destruct (decide (2 <= a <= 367 /\ _)) as [H2|H2];
      try reflexivity; exfalso; rewrite elem_of_seqZ in Hin.
    - apply H2. split; [lia | tauto].
    - apply Hin. repeat split; [lia | lia | tauto | exact Hne]. }
  split; [|split; [|split; [|split]]].
  - rewrite Hop3, Hop, Hec3, Hec.
    destruct (isRtcDateTimeSane now); exact Hst1.
  - intros a Ha. rewrite Hcell.
    destruct (decide (a = d + 1)) as [->|Hne]; [tauto|].
    destruct (decide (2 <= a <= 367 /\ _)) as [_|Hn2].
    + split; [discriminate | intros; contradiction].
    + split; [intros H; exfalso; apply Hn2; tauto | intros; contradiction].
  - intros a Hne Ha. rewrite Hcell. rewrite decide_False by exact Hne.
    destruct (decide (2 <= a <= 367 /\ _)) as [[H2 H3]|_]; [|reflexivity].
    destruct Ha; contradiction.
  - rewrite Hn3, Hread, Hr1.
    destruct (decide (d ∈ seqZ 2 366 /\ _)) as [(Hin & He & _)|Hin].
    + rewrite elem_of_seqZ in Hin. change (EMPTY_VALUE =? EMPTY_VALUE) with true.
      rewrite decide_True; [reflexivity|]. right. split; [lia | exact He].
    + destruct (Z.eqb_spec (readCell s d) EMPTY_VALUE) as [E|E].
      * rewrite decide_True by tauto. reflexivity.
      * destruct (decide (readCell s d = EMPTY_VALUE
                          \/ (2 <= d /\ readCell s d = SPRINTS_END_BYTE)))
          as [Hc|Hc]; [|reflexivity].
        exfalso. destruct Hc as [Hc|[Hd2' He]]; [contradiction|]. apply Hin.
        rewrite elem_of_seqZ. repeat split; lia.
  - eexists. split.
    + rewrite Hl3, Hlog, Hl1, <- app_assoc. reflexivity.
    + intros a. rewrite list_elem_of_filter, elem_of_seqZ, Hr1.
      split; [intros ((He & Hne) & Hr); repeat split; try lia; assumption|].
      intros (Hr & He & Hne). repeat split; try lia; assumption.
Qed.

(** An instance: the log was last written on day 100; the clock is set
    to 5 May 2025 (day 125), a day with no count. *)
Lemma setDateTime_commit_marker_witness :
  let s' := setDateTime_commit (dateOf 2025 5 5) (day100 logDay100) in
  readCell s' 101 = EMPTY_VALUE /\ readCell s' 126 = SPRINTS_END_BYTE
  /\ sprintCounter s' = 0.
Proof.
  pose proof (setDateTime_commit_marker (day100 logDay100) (dateOf 2025 5 5)) as H.
  cbv zeta in H.
  assert (Hd : 1 <= currentDayOfYear
                      (setDateTime_commit (dateOf 2025 5 5) (day100 logDay100)) <= 366)
    by (vm_compute; split; discriminate).
  destruct (H Hd) as (_ & _ & _ & _ & _).
  repeat split; vm_compute; reflexivity.
Defined.

(** ** The date and time editor *)

Lemma sane_time now :
  isRtcDateTimeSane now = true ->
  Hour now <= 23 /\ Minute now <= 59 /\ Second now <= 59.
Proof.
  unfold isRtcDateTimeSane.
  destruct (_ || _); [discriminate|].
  destruct (_ || _); [discriminate|].
  destruct (_ || _); [discriminate|].
  destruct (Z.ltb_spec 23 (Hour now)); [discriminate|].
  destruct (Z.ltb_spec 59 (Minute now)); [discriminate|].
  destruct (Z.ltb_spec 59 (Second now)); [discriminate|].
  lia.
Qed.

Lemma two_digits n :
  0 <= n <= 99 ->
  uint8 (Z.quot n 10) = n / 10 /\ uint8 (Z.rem n 10) = n mod 10
  /\ 0 <= n / 10 <= 9 /\ 0 <= n mod 10 <= 9 /\ n = 10 * (n / 10) + n mod 10.
Proof.
  intros H. rewrite Z.quot_div_nonneg, Z.rem_mod_nonneg by lia.
  assert (0 <= n / 10 <= 9 /\ 0 <= n mod 10 <= 9 /\ n = 10 * (n / 10) + n mod 10)
    by (Z.to_euclidean_division_equations; lia).
  rewrite !uint8_small by lia. lia.
Qed.

Lemma editorInit_digits mode now ed :
  0 <= Hour now -> 0 <= Minute now ->
  0 <= currentField ed <= 9 ->
  (initialized ed = true -> editorDigits ed) ->
  editorDigits (editorInit mode now ed) /\ initialized (editorInit mode now ed) = true.
Proof.
  intros Hh Hm Hf Hed. unfold editorInit.
  destruct (initialized ed) eqn:Hi; [split; [apply Hed|]; auto|].
  set (field := if mode =? HOURS_MINUTES then 0 else _).
  assert (Hfield : 0 <= field <= 9).
  { unfold field. repeat (destruct (_ =? _); [lia|]). exact Hf. }
  clearbody field.
  destruct (isRtcDateTimeSane now) eqn:Hs.
  - destruct (sane_valid _ Hs) as (Hy & Hmo & Hd).
    pose proof (monthLength_le_31 (isLeapYear (Year now)) (Month now)).
    destruct (sane_time _ Hs) as (Hh' & Hm' & _).
    assert (Hyy : 0 <= Z.rem (Year now) 100 <= 99).
    { rewrite Z.rem_mod_nonneg by lia. pose proof (Z.mod_pos_bound (Year now) 100). lia. }
    destruct (two_digits (Hour now)) as (-> & -> & ? & ? & ?); [lia|].
    destruct (two_digits (Minute now)) as (-> & -> & ? & ? & ?); [lia|].
    destruct (two_digits (Day now)) as (-> & -> & ? & ? & ?); [lia|].
    destruct (two_digits (Month now)) as (-> & -> & ? & ? & ?); [lia|].
    destruct (two_digits _ Hyy) as (-> & -> & ? & ? & ?).
    split; [|reflexivity]. unfold editorDigits. cbn.
    repeat split; lia.
  - split; [|reflexivity]. unfold editorDigits. cbn. repeat split; lia.
Qed.

Lemma increment_range d n :
  0 <= d < 255 -> 0 < n <= 256 -> 0 <= uint8 (Z.rem (d + 1) n) < n.
Proof.
  intros Hd Hn. rewrite Z.rem_mod_nonneg by lia.
  pose proof (Z.mod_pos_bound (d + 1) n ltac:(lia)).
  rewrite uint8_small; lia.
Qed.

Ltac bool_to_prop :=
  repeat match goal with
    | H : (_ && _) = true |- _ => apply andb_true_iff in H as [? ?]
    | H : (_ && _) = false |- _ => apply andb_false_iff in H
    | H : (_ =? _) = true |- _ => apply Z.eqb_eq in H
    | H : (_ =? _) = false |- _ => apply Z.eqb_neq in H
    | H : (_ <? _) = true |- _ => apply Z.ltb_lt in H
    | H : (_ <? _) = false |- _ => apply Z.ltb_ge in H
    | H : _ \/ _ |- _ => destruct H
    end.

Ltac increment_digit d n :=
  let x := fresh "x" in
  let Hx := fresh "Hx" in
  pose proof (increment_range d n ltac:(lia) ltac:(lia)) as Hx;
  revert Hx; generalize (uint8 (Z.rem (d + 1) n)); intros x Hx;
  repeat match goal with
    | |- context [if ?b then _ else _] => destruct b eqn:?
    end;
  bool_to_prop; repeat split; lia.

Lemma editorIncrement_digits ed : editorDigits ed -> editorDigits (editorIncrement ed).
Proof.
  destruct ed as [f ht hu mt mu dt du mot mou yt yu ini].
  unfold editorDigits, editorIncrement. cbn [currentField hourTens hourUnits minuteTens
    minuteUnits dayTens dayUnits monthTens monthUnits yearTens yearUnits].
  intros (Hf & Hht & Hhu & Hh & Hmt & Hmu & Hdt & Hdu & Hd & Hmot & Hmou & Hmo & Hyt & Hyu).
  assert (Hc : f = 0 \/ f = 1 \/ f = 2 \/ f = 3 \/ f = 4 \/ f = 5 \/ f = 6
               \/ f = 7 \/ f = 8 \/ f = 9) by lia.
  repeat (destruct Hc as [Hc|Hc]; [subst f; cbn [Z.eqb Pos.eqb]|]); try subst f;
    cbn [Z.eqb Pos.eqb currentField hourTens hourUnits minuteTens
    minuteUnits dayTens dayUnits monthTens monthUnits yearTens yearUnits].
  - increment_digit ht 3.
  - increment_digit hu 10.
  - increment_digit mt 6.
  - increment_digit mu 10.
  - increment_digit dt 4.
  - increment_digit du 10.
  - increment_digit mot 2.
  - increment_digit mou 10.
  - increment_digit yt 10.
  - increment_digit yu 10.
Qed.

Lemma editorNextField_digits ed : editorDigits ed -> editorDigits (editorNextField ed).
Proof.
  destruct ed as [f ht hu mt mu dt du mot mou yt yu ini].
  unfold editorDigits, editorNextField. cbn.
  intros (Hf & H). split; [|exact H].
  pose proof (increment_range f 10 ltac:(lia) ltac:(lia)). lia.
Qed.

Lemma editorDateTime_range ed :
  editorDigits ed ->
  0 <= Hour (editorDateTime ed) <= 23 /\ 0 <= Minute (editorDateTime ed) <= 59
  /\ Second (editorDateTime ed) = 0
  /\ 0 <= Day (editorDateTime ed) <= 31 /\ 0 <= Month (editorDateTime ed) <= 12
  /\ 2000 <= Year (editorDateTime ed) <= 2099.
Proof.
  destruct ed as [f ht hu mt mu dt du mot mou yt yu ini].
  unfold editorDigits, editorDateTime. cbn.
  intros (Hf & Hht & Hhu & Hh & Hmt & Hmu & Hdt & Hdu & Hd & Hmot & Hmou & Hmo & Hyt & Hyu).
  rewrite !uint8_small, uint16_small by lia. repeat split; lia.
Qed.

Lemma setDateTime_digits btn mode nowInit now ed s :
  0 <= Hour nowInit -> 0 <= Minute nowInit -> editorDigits ed ->
  editorDigits (fst (fst (setDateTime btn mode nowInit now ed s)))
  /\ forall dt, snd (setDateTime btn mode nowInit now ed s) = Some dt ->
       exists ed', editorDigits ed' /\ dt = editorDateTime ed'.
Proof.
  intros Hh Hm Hed.
  destruct (editorInit_digits mode nowInit ed Hh Hm) as (H1 & _);
    [apply Hed | intros _; exact Hed |].
  unfold setDateTime. revert H1. generalize (editorInit mode nowInit ed). intros ed1 H1.
  assert (Hleave : editorDigits
            (mkEditor (currentField ed1) (hourTens ed1) (hourUnits ed1)
               (minuteTens ed1) (minuteUnits ed1) (dayTens ed1) (dayUnits ed1)
               (monthTens ed1) (monthUnits ed1) (yearTens ed1) (yearUnits ed1) false))
    by exact H1.
  destruct btn; cbn [fst snd]; (split; [|intros dt Hdt; try discriminate]);
    try assumption.
  - apply editorIncrement_digits, H1.
  - apply editorNextField_digits, H1.
  - exists ed1. split; [exact H1 | congruence].
Qed.

(** X10.  Whatever buttons are pressed in the date and time editor, and
    whatever the clock reads, every value the editor writes to the clock
    has an hour of 0..23, a minute of 0..59, second 0, a day of 0..31, a
    month of 0..12 and a year of 2000..2099; and its digits stay those
    of such a value. *)
Theorem setDateTime_writes_in_range
    (calls : list (Button * Z * RtcDateTime * RtcDateTime * State)) :
  Forall (fun c => 0 <= Hour (snd (fst (fst c))) /\ 0 <= Minute (snd (fst (fst c))))
         calls ->
  editorDigits (fst (setDateTimeCalls calls editorBoot))
  /\ Forall (fun dt => 0 <= Hour dt <= 23 /\ 0 <= Minute dt <= 59 /\ Second dt = 0
                       /\ 0 <= Day dt <= 31 /\ 0 <= Month dt <= 12
                       /\ 2000 <= Year dt <= 2099)
            (snd (setDateTimeCalls calls editorBoot)).
Proof.
  unfold setDateTimeCalls.
  assert (H0 : editorDigits (fst (editorBoot, @nil RtcDateTime))
               /\ Forall (fun dt => 0 <= Hour dt <= 23 /\ 0 <= Minute dt <= 59
                                    /\ Second dt = 0 /\ 0 <= Day dt <= 31
                                    /\ 0 <= Month dt <= 12 /\ 2000 <= Year dt <= 2099)
                         (snd (editorBoot, @nil RtcDateTime))).
  { split; [|constructor]. unfold editorDigits, editorBoot. cbn. repeat split; lia. }
  revert H0. generalize (editorBoot, @nil RtcDateTime).
  induction calls as [|[[[[btn mode] nowInit] now] s] calls IH]; intros acc H0 Hc;
    [exact H0|].
  cbn [fold_left]. apply Forall_cons in Hc as [[Hh Hm] Hc]. cbn [fst snd] in Hh, Hm.
  apply IH; [|exact Hc]. destruct H0 as [Hed Hw].
  destruct (setDateTime_digits btn mode nowInit now (fst acc) s Hh Hm Hed) as [H1 H2].
  destruct (setDateTime btn mode nowInit now (fst acc) s) as [[ed' s'] w].
  cbn [fst snd] in *. split; [exact H1|].
  apply Forall_app. split; [exact Hw|].
  destruct w as [dt|]; [|constructor].
  destruct (H2 dt eq_refl) as (ed2 & Hed2 & ->).
  constructor; [|constructor]. apply editorDateTime_range, Hed2.
Qed.

(** An instance: the clock reads 10 April 2025, 09:59; the hour tens are
    raised twice and the value is written. *)
Lemma setDateTime_writes_in_range_witness :
  snd (setDateTimeCalls
         [(BUTTON_2_SHORT_RELEASE, HOURS_MINUTES,
           mkRtcDateTime 2025 4 10 9 59 0 0, dateOf 2025 4 10, day100 logDay100);
          (BUTTON_2_SHORT_RELEASE, HOURS_MINUTES,
           mkRtcDateTime 2025 4 10 9 59 0 0, dateOf 2025 4 10, day100 logDay100);
          (BUTTON_3_LONG_PRESSED, HOURS_MINUTES,
           mkRtcDateTime 2025 4 10 9 59 0 0, dateOf 2025 4 10, day100 logDay100)]
         editorBoot)
  = [mkRtcDateTime 2025 4 10 23 59 0 0].
Proof.
  pose proof (setDateTime_writes_in_range
    [(BUTTON_2_SHORT_RELEASE, HOURS_MINUTES,
      mkRtcDateTime 2025 4 10 9 59 0 0, dateOf 2025 4 10, day100 logDay100);
     (BUTTON_2_SHORT_RELEASE, HOURS_MINUTES,
      mkRtcDateTime 2025 4 10 9 59 0 0, dateOf 2025 4 10, day100 logDay100);
     (BUTTON_3_LONG_PRESSED, HOURS_MINUTES,
      mkRtcDateTime 2025 4 10 9 59 0 0, dateOf 2025 4 10, day100 logDay100)]) as H.
  destruct H as [_ _].
  - repeat constructor; cbn; lia.
  - vm_compute. reflexivity.
Defined.

Lemma increment_value d n :
  0 <= d < n -> n <= 256 ->
  uint8 (Z.rem (d + 1) n) = if d + 1 =? n then 0 else d + 1.
Proof.
  intros Hd Hn. rewrite Z.rem_mod_nonneg by lia.
  destruct (Z.eqb_spec (d + 1) n) as [->|Hne].
  - rewrite Z.mod_same by lia. reflexivity.
  - rewrite Z.mod_small by lia. apply uint8_small. lia.
Qed.

Ltac split_ifs :=
  repeat match goal with
    | |- context [if ?b then _ else _] => destruct b eqn:?
    end;
  bool_to_prop.

(** X11.  The clamping of the editor does not keep the day and the
    month above zero: raising a digit of a value with day and month of
    at least 1 gives day 00 exactly when the day tens of day 30 are
    raised, and month 00 exactly when the month tens of month 10 are
    raised.  The value is then one [isRtcDateTimeSane] rejects. *)
Theorem editorIncrement_zero (ed : Editor) :
  editorDigits ed ->
  1 <= Day (editorDateTime ed) -> 1 <= Month (editorDateTime ed) ->
  let dt := editorDateTime (editorIncrement ed) in
  (Day dt = 0 <-> currentField ed = 4 /\ Day (editorDateTime ed) = 30)
  /\ (Month dt = 0 <-> currentField ed = 6 /\ Month (editorDateTime ed) = 10)
  /\ (Day dt = 0 \/ Month dt = 0 -> isRtcDateTimeSane dt = false).
Proof.
  intros Hed Hd1 Hm1.
  pose proof (editorDateTime_range _ (editorIncrement_digits _ Hed)) as Hr.
  cbv zeta. split; [|split].
  3: { unfold isRtcDateTimeSane. intros [H|H]; rewrite H.
       - destruct (_ || _); [reflexivity|]. destruct (_ || _); reflexivity.
       - destruct (_ || _); reflexivity. }
  all: clear Hr; revert Hed Hd1 Hm1;
    destruct ed as [f ht hu mt mu dt du mot mou yt yu ini];
    unfold editorDigits, editorDateTime, editorIncrement;
    cbn [currentField hourTens hourUnits minuteTens minuteUnits dayTens dayUnits
         monthTens monthUnits yearTens yearUnits Day Month];
    intros (Hf & Hht & Hhu & Hh & Hmt & Hmu & Hdt & Hdu & Hd & Hmot & Hmou & Hmo
            & Hyt & Hyu);
    rewrite !(uint8_small (_ * 10 + _)) by lia; intros Hd1 Hm1;
    assert (Hc : f = 0 \/ f = 1 \/ f = 2 \/ f = 3 \/ f = 4 \/ f = 5 \/ f = 6
                 \/ f = 7 \/ f = 8 \/ f = 9) by lia;
    repeat (destruct Hc as [Hc|Hc]; [subst f; cbn [Z.eqb Pos.eqb]|]); try subst f;
    cbn [Z.eqb Pos.eqb currentField hourTens hourUnits minuteTens
         minuteUnits dayTens dayUnits monthTens monthUnits yearTens yearUnits Day Month];
    try (rewrite !(uint8_small (_ * 10 + _)) by lia; lia).
  - rewrite (increment_value dt 4) by lia. split_ifs; rewrite uint8_small; lia.
  - rewrite (increment_value du 10) by lia. split_ifs; rewrite uint8_small; lia.
  - rewrite (increment_value mot 2) by lia. split_ifs; rewrite uint8_small; lia.
  - rewrite (increment_value mou 10) by lia. split_ifs; rewrite uint8_small; lia.
Qed.

(** An instance: the day tens of 30.04.25 are raised. *)
Lemma editorIncrement_zero_witness :
  Day (editorDateTime (editorIncrement (mkEditor 4 1 2 3 0 3 0 0 4 2 5 true))) = 0.
Proof.
  pose proof (editorIncrement_zero (mkEditor 4 1 2 3 0 3 0 0 4 2 5 true)) as H.
  cbv zeta in H. destruct H as ([_ H] & _).
  - unfold editorDigits. cbn. repeat split; lia.
  - vm_compute. discriminate.
  - vm_compute. discriminate.
  - apply H. split; reflexivity.
Defined.

(** ** The length of an interval *)

Lemma int8_small z : -128 <= z < 128 -> int8 z = z.
Proof. intros H. unfold int8. rewrite Z.mod_small; lia. Qed.

(** One tick of a running countdown that is not the last one. *)
Lemma countingTick_running timeIsUp now base c t sec m :
  (c = 5 \/ c = 15 -> showStaticInfo base = true) ->
  0 <= t <= 9 -> 0 <= sec <= 59 -> 0 <= m <= 127 ->
  2 <= 600 * m + 10 * sec - t ->
  exists t' sec' m',
    countingTick timeIsUp now (set_countdown c t sec m base)
    = set_countdown c t' sec' m' base
    /\ 0 <= t' <= 9 /\ 0 <= sec' <= 59 /\ 0 <= m' <= 127
    /\ 600 * m' + 10 * sec' - t' = 600 * m + 10 * sec - t - 1.
Proof.
  intros Hshow Ht Hsec Hm HN. unfold countingTick.
  cbn [set_countdown currentInterval showStaticInfo tenths seconds minutes].
  assert (Hanim : ((c =? 5) || (c =? 15)) && negb (showStaticInfo base) = false).
  { destruct (Z.eqb_spec c 5) as [H5|H5]; [rewrite Hshow by tauto; reflexivity|].
    destruct (Z.eqb_spec c 15) as [H15|H15]; [rewrite Hshow by tauto|]; reflexivity. }
  rewrite Hanim. rewrite (uint8_small (t + 1)) by lia.
  destruct (Z.eqb_spec (t + 1) 10) as [H10|H10].
  - rewrite (int8_small (sec - 1)) by lia.
    destruct (Z.ltb_spec (sec - 1) 0) as [Hs0|Hs0];
      [destruct (Z.ltb_spec 0 m) as [Hm0|Hm0]|]; cbn [andb].
    + rewrite (int8_small (m - 1)) by lia.
      change (59 =? 0) with false. rewrite andb_false_r.
      exists 0, 59, (m - 1). repeat split; lia.
    + lia.
    + destruct (Z.eqb_spec m 0) as [Hm0|Hm0]; [destruct (Z.eqb_spec (sec - 1) 0)|];
        cbn [andb]; [lia| |]; exists 0, (sec - 1), m; repeat split; lia.
  - exists (t + 1), sec, m. repeat split; lia.
Qed.

Lemma countingTicks_running inputs : forall base c t sec m,
  (c = 5 \/ c = 15 -> showStaticInfo base = true) ->
  0 <= t <= 9 -> 0 <= sec <= 59 -> 0 <= m <= 127 ->
  Z.of_nat (length inputs) < 600 * m + 10 * sec - t ->
  exists t' sec' m',
    countingTicks inputs (set_countdown c t sec m base)
    = set_countdown c t' sec' m' base
    /\ 0 <= t' <= 9 /\ 0 <= sec' <= 59 /\ 0 <= m' <= 127
    /\ 600 * m' + 10 * sec' - t' = 600 * m + 10 * sec - t - Z.of_nat (length inputs).
Proof.
  induction inputs as [|[b now] inputs IH]; intros base c t sec m Hshow Ht Hsec Hm HN.
  - exists t, sec, m. cbn [length] in *. repeat split; try lia.
  - cbn [length] in HN. unfold countingTicks. cbn [fold_left fst snd].
    destruct (countingTick_running b now base c t sec m Hshow Ht Hsec Hm ltac:(lia))
      as (t1 & sec1 & m1 & -> & Ht1 & Hsec1 & Hm1 & HN1).
    destruct (IH base c t1 sec1 m1 Hshow Ht1 Hsec1 Hm1 ltac:(lia))
      as (t' & sec' & m' & He & Ht' & Hsec' & Hm' & HN').
    exists t', sec', m'. split; [exact He|]. cbn [length]. repeat split; lia.
Qed.

(** X12.  A running countdown changes nothing but itself until its
    last tick: with [n] ticks left, any [k < n] ticks of the counting
    state leave every other global, the EEPROM and its write log as
    they were, and [n - k] ticks are left; after [n - 1] ticks the
    countdown shows 00:01 with the last tenth running. *)
Theorem countdown_length (s : State) (inputs : list (bool * RtcDateTime)) :
  (currentInterval s = 5 \/ currentInterval s = 15 -> showStaticInfo s = true) ->
  0 <= tenths s <= 9 -> 0 <= seconds s <= 59 -> 0 <= minutes s <= 127 ->
  Z.of_nat (length inputs) < ticksLeft s ->
  let s1 := countingTicks inputs s in
  s1 = set_countdown (currentInterval s) (tenths s1) (seconds s1) (minutes s1) s
  /\ ticksLeft s1 = ticksLeft s - Z.of_nat (length inputs)
  /\ 0 <= tenths s1 <= 9 /\ 0 <= seconds s1 <= 59 /\ 0 <= minutes s1 <= 127
  /\ (Z.of_nat (length inputs) = ticksLeft s - 1 -> lastTick s1).
Proof.
  intros Hshow Ht Hsec Hm HN. unfold ticksLeft in *.
  assert (Hs : s = set_countdown (currentInterval s) (tenths s) (seconds s)
                     (minutes s) s) by (destruct s; reflexivity).
  destruct (countingTicks_running inputs s (currentInterval s) (tenths s)
              (seconds s) (minutes s) Hshow Ht Hsec Hm HN)
    as (t' & sec' & m' & He & Ht' & Hsec' & Hm' & HN').
  rewrite <- Hs in He. cbv zeta. rewrite He. unfold lastTick.
  cbn [set_countdown tenths seconds minutes]. repeat split; lia.
Qed.

(** An instance: 01:00 left of a work interval, three ticks. *)
Lemma countdown_length_witness :
  let s1 := countingTicks [(false, dateOf 2025 4 10); (false, dateOf 2025 4 10);
                           (true, dateOf 2025 4 10)]
              (set_countdown 25 0 0 1 (day100 logDay100)) in
  tenths s1 = 3 /\ seconds s1 = 0 /\ minutes s1 = 1 /\ ticksLeft s1 = 597.
Proof.
  pose proof (countdown_length (set_countdown 25 0 0 1 (day100 logDay100))
                [(false, dateOf 2025 4 10); (false, dateOf 2025 4 10);
                 (true, dateOf 2025 4 10)]) as H.
  cbv zeta in H. destruct H as (_ & H & _).
  - cbn. intros [H|H]; discriminate.
  - cbn. lia.
  - cbn. lia.
  - cbn. lia.
  - vm_compute. reflexivity.
  - split; [|split; [|split]]; [vm_compute; reflexivity.. | exact H].
Defined.

Lemma countingTicks_app a b s :
  countingTicks (a ++ b) s = countingTicks b (countingTicks a s).
Proof. unfold countingTicks. apply fold_left_app. Qed.

(** While the animation at the start of a break runs, the ticks do not
    count. *)
Lemma countingTicks_animation waits s :
  currentInterval s = 5 \/ currentInterval s = 15 ->
  showStaticInfo s = false ->
  Forall (fun i => fst i = false) waits ->
  countingTicks waits s = s.
Proof.
  intros Hc Hshow. induction 1 as [|[b now] waits Hb _ IH]; [reflexivity|].
  cbn [fst] in Hb. subst b. unfold countingTicks in *. cbn [fold_left fst snd].
  assert (Htick : countingTick false now s = s).
  { unfold countingTick. rewrite Hshow.
    destruct Hc as [-> | ->]; reflexivity. }
  rewrite Htick. exact IH.
Qed.

Lemma countingTick_animation_end now s v :
  v = 5 \/ v = 15 -> currentInterval s = v -> showStaticInfo s = false ->
  countingTick true now s = set_showStaticInfo true s.
Proof.
  intros Hv Hc Hs. unfold countingTick. rewrite Hc, Hs.
  destruct Hv as [-> | ->]; reflexivity.
Qed.

(** X13.  The length of an interval is fixed when [setInterval] starts
    it: with [t] tenths left over from before, a work interval reaches
    its last tick after [15000 - t - 1] ticks, and a break after
    [600 * value - t - 1] ticks ([10 - t - 1] in hero mode) that follow
    the end of the animation [startAnimation] began; the ticks during
    the animation do not count. *)
Theorem interval_length (value : Z) (s : State) (now0 : RtcDateTime)
    (waits inputs : list (bool * RtcDateTime)) :
  0 <= tenths s <= 9 ->
  Forall (fun i => fst i = false) waits ->
  let N := (if heroModeEnabled (config s) && negb (value =? 25) then 10
            else 600 * value) - tenths s in
  Z.of_nat (length inputs) < N ->
  (value = 25 ->
   let s1 := countingTicks inputs (setInterval 25 s) in
   s1 = set_countdown 25 (tenths s1) (seconds s1) (minutes s1) s
   /\ ticksLeft s1 = N - Z.of_nat (length inputs)
   /\ (Z.of_nat (length inputs) = N - 1 -> lastTick s1))
  /\ (value = 5 \/ value = 15 ->
      let s1 := countingTicks (waits ++ (true, now0) :: inputs)
                  (setInterval value (startAnimation s)) in
      s1 = set_countdown value (tenths s1) (seconds s1) (minutes s1)
             (set_showStaticInfo true s)
      /\ ticksLeft s1 = N - Z.of_nat (length inputs)
      /\ (Z.of_nat (length inputs) = N - 1 -> lastTick s1)).
Proof.
  intros Ht Hw N HN.
  assert (Hrun : forall start base sec m,
            start = set_countdown value (tenths s) sec m base ->
            0 <= sec <= 59 -> 0 <= m <= 127 ->
            600 * m + 10 * sec - tenths s = N ->
            (value = 5 \/ value = 15 -> showStaticInfo base = true) ->
            let s1 := countingTicks inputs start in
            s1 = set_countdown value (tenths s1) (seconds s1) (minutes s1) base
            /\ ticksLeft s1 = N - Z.of_nat (length inputs)
            /\ (Z.of_nat (length inputs) = N - 1 -> lastTick s1)).
  { intros start base sec m -> Hsec Hm HN0 Hshow.
    destruct (countingTicks_running inputs base value (tenths s) sec m Hshow Ht
                Hsec Hm) as (t' & sec' & m' & He' & Ht' & Hsec' & Hm' & HN'); [lia|].
    cbv zeta. rewrite He'. unfold ticksLeft, lastTick.
    cbn [set_countdown tenths seconds minutes]. repeat split; lia. }
  split.
  - intros Hv. subst value. apply (Hrun _ s 0 25).
    + unfold setInterval. rewrite andb_false_r. reflexivity.
    + lia.
    + lia.
    + unfold N. cbn [Z.eqb Pos.eqb negb]. rewrite andb_false_r. lia.
    + intros [H|H]; discriminate.
  - intros Hv.
    assert (Hne : (value =? 25) = false) by (destruct Hv as [-> | ->]; reflexivity).
    assert (Hanim : countingTicks waits (setInterval value (startAnimation s))
                    = setInterval value (startAnimation s)).
    { apply countingTicks_animation; [| |exact Hw].
      - destruct (setInterval_fields value (startAnimation s)) as (Hc & _).
        rewrite Hc. destruct Hv as [-> | ->]; [left|right]; reflexivity.
      - unfold setInterval.
        match goal with |- context [if ?b then _ else _] => destruct b end;
          reflexivity. }
    assert (Htick : countingTick true now0 (setInterval value (startAnimation s))
                    = setInterval value (set_showStaticInfo true s)).
    { rewrite (countingTick_animation_end now0 _ value Hv).
      - unfold setInterval, startAnimation. cbn [config set_showStaticInfo].
        match goal with |- context [if ?b then _ else _] => destruct b end;
          reflexivity.
      - destruct (setInterval_fields value (startAnimation s)) as (Hc & _).
        rewrite Hc. destruct Hv as [-> | ->]; reflexivity.
      - unfold setInterval.
        match goal with |- context [if ?b then _ else _] => destruct b end;
          reflexivity. }
    rewrite countingTicks_app, Hanim.
    change (countingTicks ((true, now0) :: inputs)
              (setInterval value (startAnimation s)))
      with (countingTicks inputs
              (countingTick true now0 (setInterval value (startAnimation s)))).
    rewrite Htick.
    assert (HN0 : N = (if heroModeEnabled (config s) then 10 else 600 * value)
                      - tenths s).
    { unfold N. rewrite Hne. cbn [negb]. rewrite andb_true_r. reflexivity. }
    unfold setInterval. cbn [config set_showStaticInfo].
    destruct (heroModeEnabled (config s)).
    + apply (Hrun _ (set_showStaticInfo true s) 1 0).
      * destruct Hv as [-> | ->]; reflexivity.
      * lia.
      * lia.
      * lia.
      * reflexivity.
    + apply (Hrun _ (set_showStaticInfo true s) 0 value).
      * destruct Hv as [-> | ->]; reflexivity.
      * lia.
      * lia.
      * lia.
      * reflexivity.
Qed.

(** An instance: a short break in hero mode, two ticks of animation,
    then nine ticks. *)
Lemma interval_length_witness :
  lastTick
    (countingTicks
       ([(false, dateOf 2025 4 10); (false, dateOf 2025 4 10)]
        ++ (true, dateOf 2025 4 10) :: repeat (false, dateOf 2025 4 10) 9)
       (setInterval 5
          (startAnimation
             (mkState COUNTING 0 0 0 0 0 1 4 100 4 2025
                (mkConfig true false 0 1 true false) true ∅ logDay100 [])))).
Proof.
  assert (Ht : 0 <= tenths (mkState COUNTING 0 0 0 0 0 1 4 100 4 2025
                 (mkConfig true false 0 1 true false) true ∅ logDay100 []) <= 9)
    by (cbn; lia).
  assert (Hw : Forall (fun i : bool * RtcDateTime => fst i = false)
                 [(false, dateOf 2025 4 10); (false, dateOf 2025 4 10)])
    by (repeat constructor).
  pose proof (interval_length 5 _ (dateOf 2025 4 10) _
                (repeat (false, dateOf 2025 4 10) 9) Ht Hw) as H.
  cbv zeta in H. destruct H as (_ & H).
  - vm_compute. reflexivity.
  - destruct H as (_ & _ & H); [left; reflexivity|].
    apply H. vm_compute. reflexivity.
Defined.

(** ** The statistics menu *)

Lemma dateFromDayOfYear_None i s :
  dateFromDayOfYear i s = None
  <-> daysInYear (if i <=? currentDayOfYear s then currentYear s
                  else uint16 (currentYear s - 1)) < i.
Proof. unfold dateFromDayOfYear. apply monthWalk_None. Qed.

Lemma year_shift_all :
  forallb (fun y => forallb (fun m => forallb (year_shift_ok y m)
    (seqZ 1 31)) (seqZ 1 12)) [2024; 2025] = true.
Proof. vm_compute. reflexivity. Qed.

(** The day of the year of a date in two years differs by the leap day
    alone, and in a year of 365 days it reaches 60 with March. *)
Lemma dayOfYearOf_year_shift y m d :
  1 <= m <= 12 -> 1 <= d <= 31 ->
  dayOfYearOf (dateOf y m d)
  = dayOfYearOf (dateOf 2025 m d) + (if (2 <? m) && isLeapYear y then 1 else 0)
  /\ (d <= monthLength false m -> (3 <= m <-> 60 <= dayOfYearOf (dateOf 2025 m d))).
Proof.
  intros Hm Hd. unfold dateOf at 1. rewrite dayOfYearOf_rep.
  rewrite <- (isLeapYear_rep y).
  pose proof year_shift_all as H.
  rewrite forallb_forall in H. specialize (H _ (repYear_In y)).
  rewrite forallb_forall in H. specialize (H m (In_seqZ 1 12 m ltac:(lia))).
  rewrite forallb_forall in H. specialize (H d (In_seqZ 1 31 d ltac:(lia))).
  unfold year_shift_ok in H. apply andb_prop in H as [H1 H2].
  apply Z.eqb_eq in H1. split; [exact H1|].
  intros Hv. apply orb_prop in H2 as [H2|H2].
  - apply negb_true_iff, Z.leb_gt in H2. lia.
  - apply Bool.eqb_prop in H2.
    destruct (Z.leb_spec 3 m); destruct (Z.leb_spec 60 (dayOfYearOf (dateOf 2025 m d)));
      try discriminate; lia.
Qed.

Lemma fmt02u_all :
  forallb (fun n => (String.length (fmt02u n) =? 2)%nat
                    && forallb (fun n' => negb (String.eqb (fmt02u n) (fmt02u n'))
                                          || (n =? n'))
                         (seqZ 0 32)) (seqZ 0 32) = true.
Proof. vm_compute. reflexivity. Qed.

Lemma fmt02u_spec n :
  0 <= n <= 31 ->
  (exists a b, fmt02u n = String a (String b EmptyString))
  /\ forall n', 0 <= n' <= 31 -> fmt02u n = fmt02u n' -> n = n'.
Proof.
  intros Hn. pose proof fmt02u_all as H.
  rewrite forallb_forall in H. specialize (H n (In_seqZ 0 32 n ltac:(lia))).
  apply andb_prop in H as [H1 H2]. split.
  - apply Nat.eqb_eq in H1.
    destruct (fmt02u n) as [|a [|b [|c t]]]; try discriminate. eauto.
  - intros n' Hn' E. rewrite forallb_forall in H2.
    specialize (H2 n' (In_seqZ 0 32 n' ltac:(lia))).
    apply orb_prop in H2 as [H2|H2]; [|apply Z.eqb_eq; exact H2].
    apply negb_true_iff in H2. rewrite E, String.eqb_refl in H2. discriminate.
Qed.

(** The text of a date determines its day and month. *)
Lemma date_text_inj d m d' m' :
  0 <= d <= 31 -> 0 <= m <= 31 -> 0 <= d' <= 31 -> 0 <= m' <= 31 ->
  fmt02u d +:+ "." +:+ fmt02u m = fmt02u d' +:+ "." +:+ fmt02u m' ->
  d = d' /\ m = m'.
Proof.
  intros Hd Hm Hd' Hm' E.
  destruct (fmt02u_spec d Hd) as ((a & b & Ed) & Id).
  destruct (fmt02u_spec d' Hd') as ((a' & b' & Ed') & _).
  destruct (fmt02u_spec m Hm) as (_ & Im).
  assert (E2 : fmt02u d = fmt02u d' /\ fmt02u m = fmt02u m').
  { rewrite Ed, Ed' in *. cbn in E. injection E as -> -> E. split; [reflexivity|exact E]. }
  destruct E2 as [E1 E2]. split; [apply Id | apply Im]; assumption.
Qed.

(** A day within the year [getDateFromDayOfYear] resolves has a date,
    valid in that year, whose day of the year it is. *)
Lemma dateFromDayOfYear_valid i s :
  let y := if i <=? currentDayOfYear s then currentYear s
           else uint16 (currentYear s - 1) in
  1 <= i <= daysInYear y ->
  exists d m, dateFromDayOfYear i s = Some (d, m)
              /\ getDateFromDayOfYear i s = Some (fmt02u d +:+ "." +:+ fmt02u m)
              /\ validDate y m d /\ dayOfYearOf (dateOf y m d) = i.
Proof.
  intros y Hi. destruct (doy_date_doy y i Hi) as (d & m & Hw & Hv & Hdoy).
  exists d, m. unfold getDateFromDayOfYear, dateFromDayOfYear. fold y.
  rewrite Hw. repeat split; try assumption; apply Hv.
Qed.

Lemma validDate_range y m d : validDate y m d -> 1 <= m <= 12 /\ 1 <= d <= 31.
Proof.
  intros [Hm Hd]. pose proof (monthLength_le_31 (isLeapYear y) m). lia.
Qed.

(** When the cursor of the daily submenu prints as today's date. *)
Lemma daily_shows_today input s :
  let doy := currentDayOfYear s in
  let Y := currentYear s in
  let Yp := uint16 (currentYear s - 1) in
  1 <= doy <= daysInYear Y ->
  1 <= input <= (if input <=? doy then daysInYear Y else daysInYear Yp) ->
  exists a b,
    getDateFromDayOfYear input s = Some a
    /\ getDateFromDayOfYear doy s = Some b
    /\ (a = b <-> input = doy
                  \/ (input = doy + 1 /\ isLeapYear Yp = true
                      /\ isLeapYear Y = false /\ 60 <= doy)).
Proof.
  intros doy Y Yp Hd Hi.
  destruct (dateFromDayOfYear_valid doy s) as (d0 & m0 & _ & Hb & Hv0 & Hdoy0).
  { cbv zeta. fold doy. rewrite Z.leb_refl. exact Hd. }
  cbv zeta in Hv0, Hdoy0. fold doy in Hv0, Hdoy0. rewrite Z.leb_refl in Hv0, Hdoy0.
  fold Y in Hv0, Hdoy0.
  destruct (dateFromDayOfYear_valid input s) as (d & m & Hwi & Ha & Hv & Hdoyi).
  { cbv zeta. fold doy Y Yp.
    destruct (input <=? doy); exact Hi. }
  cbv zeta in Hv, Hdoyi. fold doy Y Yp in Hv, Hdoyi.
  exists (fmt02u d +:+ "." +:+ fmt02u m), (fmt02u d0 +:+ "." +:+ fmt02u m0).
  split; [exact Ha|]. split; [exact Hb|].
  pose proof (validDate_range _ _ _ Hv0) as [Rm0 Rd0].
  pose proof (validDate_range _ _ _ Hv) as [Rm Rd].
  destruct (dayOfYearOf_year_shift Y m0 d0 Rm0 Rd0) as [S0 T0].
  destruct (dayOfYearOf_year_shift Yp m0 d0 Rm0 Rd0) as [Sp _].
  unfold dateFromDayOfYear in Hwi. fold doy Y Yp in Hwi.
  clear Ha Hb. revert Hi Hv Hdoyi Hwi.
  destruct (Z.leb_spec input doy) as [Hle|Hgt]; intros Hi Hv Hdoyi Hwi;
    change (uint16 (Y - 1)) with Yp in *.
  { split.
    2:{ intros [-> | (? & _)]; [|lia].
        destruct (date_doy_date Y m0 d0 Hv0) as [_ Hw]. cbv zeta in Hw.
        rewrite Hdoy0 in Hw. rewrite Hw in Hwi. injection Hwi as <- <-.
        reflexivity. }
    intros E. apply date_text_inj in E as [-> ->]; lia. }
  split.
  - intros E. apply date_text_inj in E as [-> ->]; try lia.
    right. rewrite Sp in Hdoyi. rewrite S0 in Hdoy0.
    destruct Hv0 as [_ Hv0].
    destruct (Z.ltb_spec 2 m0); cbn [andb] in *;
      destruct (isLeapYear Yp); destruct (isLeapYear Y); lia.
  - intros [-> | (Ein & HYp & HY & H60)]; [lia|].
    destruct Hv0 as [Hm0 Hd0]. rewrite HY in Hd0.
    rewrite S0, HY, andb_false_r in Hdoy0.
    assert (Hm3 : 3 <= m0) by (apply T0; [exact (proj2 Hd0) | lia]).
    assert (HvP : validDate Yp m0 d0).
    { split; [exact Hm0|]. rewrite HYp. unfold monthLength in *.
      destruct (Z.eqb_spec m0 2); [lia | exact Hd0]. }
    assert (HdP : dayOfYearOf (dateOf Yp m0 d0) = input).
    { rewrite Sp, HYp. destruct (Z.ltb_spec 2 m0); cbn [andb]; lia. }
    destruct (date_doy_date Yp m0 d0 HvP) as [_ Hw]. cbv zeta in Hw.
    rewrite HdP in Hw.
    rewrite Hw in Hwi. injection Hwi as <- <-. reflexivity.
Qed.

(** X14.  The cursor of the daily submenu, for a cursor and a today
    that [getDateFromDayOfYear] resolves.  A cursor that prints as
    today's date (today itself, or the day after it when only the
    previous year has a leap day and today is past February) is first
    moved one day back, wrapping from day 1 to the last day of the
    previous year; the date of the cursor so reached is what the
    display shows.  From there "previous" leaves the cursor on a day
    that cannot be resolved (the month walk leaves its table) exactly
    when the cursor stood on day 1 and today is not before the length
    of the previous year; "fast previous" does so exactly when the
    cursor stood below day 10, where the unsigned subtraction wraps to
    65526 + cursor, or below day 20 on such a day; any other button
    leaves the cursor where it stood. *)
Theorem daily_cursor_resolves (btn : Button) (inputDayOfYear : Z) (s : State) :
  let doy := currentDayOfYear s in
  let L := daysInYear (uint16 (currentYear s - 1)) in
  1 <= doy <= daysInYear (currentYear s) ->
  1 <= inputDayOfYear
    <= (if inputDayOfYear <=? doy then daysInYear (currentYear s) else L) ->
  let today :=
    inputDayOfYear = doy
    \/ (inputDayOfYear = doy + 1 /\ isLeapYear (uint16 (currentYear s - 1)) = true
        /\ isLeapYear (currentYear s) = false /\ 60 <= doy) in
  let c := if decide today
           then (if inputDayOfYear =? 1 then L else inputDayOfYear - 1)
           else inputDayOfYear in
  exists r str,
    subMenuStatisticsDaily btn inputDayOfYear s = Some (r, str)
    /\ getDateFromDayOfYear c s = Some str
    /\ 1 <= c <= 366
    /\ (btn = BUTTON_2_SHORT_RELEASE ->
        r = (if c =? 1 then (if L <=? doy then doy + 1 else L) else c - 1)
        /\ (dateFromDayOfYear r s = None <-> c = 1 /\ L <= doy))
    /\ (btn = BUTTON_2_LONG_PRESSED ->
        r = (if c <? 10 then 65526 + c
             else if c <? 20 then (if L <=? doy then doy + 10 else L)
             else c - 10)
        /\ (dateFromDayOfYear r s = None <-> c < 10 \/ (c < 20 /\ L <= doy)))
    /\ (btn <> BUTTON_2_SHORT_RELEASE -> btn <> BUTTON_2_LONG_PRESSED -> r = c).
Proof.
  intros doy L Hd Hi today c.
  destruct (daily_shows_today inputDayOfYear s Hd Hi) as (a & b & Ha & Hb & Hab).
  fold doy in Hab. fold today in Hab.
  assert (HL : L = 365 \/ L = 366) by (unfold L, daysInYear; destruct (isLeapYear (uint16 (currentYear s - 1))); lia).
  assert (HY : daysInYear (currentYear s) = 365 \/ daysInYear (currentYear s) = 366)
    by (unfold daysInYear; destruct (isLeapYear (currentYear s)); lia).
  assert (Hc : 1 <= c <= (if c <=? doy then daysInYear (currentYear s) else L)).
  { unfold c. destruct (decide today) as [Ht|Ht].
    - destruct (Z.eqb_spec inputDayOfYear 1) as [E1|E1].
      + destruct (Z.leb_spec L doy); lia.
      + revert Hi. destruct (Z.leb_spec inputDayOfYear doy);
          destruct (Z.leb_spec (inputDayOfYear - 1) doy); lia.
    - exact Hi. }
  destruct (dateFromDayOfYear_valid c s) as (dc & mc & _ & Hstr & _).
  { cbv zeta. fold doy L. destruct (c <=? doy); exact Hc. }
  assert (Hc366 : 1 <= c <= 366) by (destruct (c <=? doy); lia).
  assert (Hi366 : 1 <= inputDayOfYear <= 366)
    by (destruct (inputDayOfYear <=? doy); lia).
  assert (Hshown :
            (if String.eqb a b
             then (fun str => ((if uint16 (inputDayOfYear - 1) <? 1
                                then (if isLeapYear (uint16 (currentYear s - 1))
                                      then 366 else 365)
                                else uint16 (inputDayOfYear - 1)), str))
                  <$> getDateFromDayOfYear
                        (if uint16 (inputDayOfYear - 1) <? 1
                         then (if isLeapYear (uint16 (currentYear s - 1))
                               then 366 else 365)
                         else uint16 (inputDayOfYear - 1)) s
             else Some (inputDayOfYear, a))
            = Some (c, fmt02u dc +:+ "." +:+ fmt02u mc)).
  { fold (daysInYear (uint16 (currentYear s - 1))). fold L.
    rewrite (uint16_small (inputDayOfYear - 1)) by lia.
    revert Hstr. unfold c.
    destruct (String.eqb_spec a b) as [E|E]; destruct (decide today) as [Ht|Ht];
      try tauto.
    - destruct (Z.ltb_spec (inputDayOfYear - 1) 1);
        destruct (Z.eqb_spec inputDayOfYear 1); try lia;
        intros ->; reflexivity.
    - intros Hstr. congruence. }
  unfold subMenuStatisticsDaily. rewrite Ha, Hb. cbv zeta.
  rewrite Hshown. cbn [fmap option_fmap option_map fst snd].
  fold (daysInYear (uint16 (currentYear s - 1))). fold L. fold doy.
  eexists _, _. split; [reflexivity|]. split; [exact Hstr|]. split; [exact Hc366|].
  assert (Hd366 : 1 <= doy <= 366) by lia.
  revert Hd366 Hc366 HL. generalize c. clear. intros c Hd Hc HL. unfold doy in *.
  split; [|split].
  - intros ->. rewrite dateFromDayOfYear_None.
    rewrite (uint16_small (c - 1)), (uint16_small (currentDayOfYear s + 1)) by lia.
    fold L.
    assert (HY : 365 <= daysInYear (currentYear s))
      by (unfold daysInYear; destruct (isLeapYear (currentYear s)); lia).
    assert (Hif : forall (x : bool) u v,
               daysInYear (if x then u else v)
               = if x then daysInYear u else daysInYear v)
      by (intros [|]; reflexivity).
    rewrite Hif. fold L.
    destruct (Z.ltb_spec (c - 1) 1); destruct (Z.eqb_spec c 1); try lia;
      repeat match goal with
        | |- context [if ?x <=? ?y then _ else _] => destruct (Z.leb_spec x y)
        end; first [ exfalso; lia | split; [reflexivity | lia] ].
  - intros ->. rewrite dateFromDayOfYear_None.
    assert (Hw : uint16 (c - 10) = if c <? 10 then 65526 + c else c - 10).
    { unfold uint16. destruct (Z.ltb_spec c 10).
      - rewrite <- (Z.mod_add _ 1) by lia. rewrite Z.mod_small; lia.
      - apply Z.mod_small. lia. }
    rewrite Hw, (uint16_small (currentDayOfYear s + 10)) by lia.
    fold L.
    assert (HY : 365 <= daysInYear (currentYear s))
      by (unfold daysInYear; destruct (isLeapYear (currentYear s)); lia).
    assert (Hif : forall (x : bool) u v,
               daysInYear (if x then u else v)
               = if x then daysInYear u else daysInYear v)
      by (intros [|]; reflexivity).
    rewrite Hif. fold L.
    destruct (Z.ltb_spec c 10);
      repeat match goal with
        | |- context [if ?x <? ?y then _ else _] => destruct (Z.ltb_spec x y)
        | |- context [if ?x <=? ?y then _ else _] => destruct (Z.leb_spec x y)
        end; first [ exfalso; lia | split; [reflexivity | lia] ].
  - intros H1 H2. destruct btn; try reflexivity; contradiction.
Qed.

(** An instance: on 10 January 2025 the cursor stands on today; it is
    moved to day 9, and "fast previous" wraps it to 65535. *)
Lemma daily_cursor_resolves_witness :
  fst <$> subMenuStatisticsDaily BUTTON_2_LONG_PRESSED 10
            (set_date 10 5 1 2025 (day100 logDay100))
  = Some 65535.
Proof.
  pose proof (daily_cursor_resolves BUTTON_2_LONG_PRESSED 10
                (set_date 10 5 1 2025 (day100 logDay100))) as H.
  cbv zeta in H.
  assert (Hd : 1 <= currentDayOfYear (set_date 10 5 1 2025 (day100 logDay100))
               <= daysInYear (currentYear (set_date 10 5 1 2025 (day100 logDay100))))
    by (vm_compute; split; discriminate).
  assert (Hi : 1 <= 10
               <= (if 10 <=? currentDayOfYear (set_date 10 5 1 2025 (day100 logDay100))
                   then daysInYear (currentYear (set_date 10 5 1 2025 (day100 logDay100)))
                   else daysInYear
                          (uint16 (currentYear (set_date 10 5 1 2025 (day100 logDay100))
                                   - 1))))
    by (vm_compute; split; discriminate).
  destruct (H Hd Hi) as (r & str & Hs & _ & _ & _ & Hl & _).
  destruct (Hl eq_refl) as [Hr _].
  rewrite decide_True in Hr by (left; reflexivity).
  rewrite Hs. cbn [fmap option_fmap option_map fst]. rewrite Hr. reflexivity.
Defined.

Lemma nextStatisticsPeriod_step p :
  0 <= p < 17 ->
  uint8 (Z.rem (p + 1) STATISTICS_PERIODS_COUNT) = (if p =? 16 then 0 else p + 1).
Proof.
  intros Hp. unfold STATISTICS_PERIODS_COUNT.
  rewrite Z.rem_mod_nonneg by lia.
  destruct (Z.eqb_spec p 16) as [->|Hne]; [reflexivity|].
  rewrite Z.mod_small by lia. apply uint8_small. lia.
Qed.

(** X15.  "Next period" in the statistics menu ends after at most two
    turns of its loop; the period it selects is the next of the 17 in
    a cycle, or the one after when the next is the month that is
    running, and it is never that month. *)
Theorem nextStatisticsPeriod_skips (fuel : nat) (statisticsPeriod currentMonth : Z) :
  0 <= statisticsPeriod < STATISTICS_PERIODS_COUNT -> (2 <= fuel)%nat ->
  let next := fun p => (p + 1) mod STATISTICS_PERIODS_COUNT in
  let running := fun p => MONTH01 <= p <= MONTH12 /\ p - MONTH01 + 1 = currentMonth in
  exists q,
    nextStatisticsPeriod fuel statisticsPeriod currentMonth = Some q
    /\ 0 <= q < STATISTICS_PERIODS_COUNT
    /\ ~ running q
    /\ q <> statisticsPeriod
    /\ (if decide (running (next statisticsPeriod))
        then q = next (next statisticsPeriod)
        else q = next statisticsPeriod).
Proof.
  intros Hp Hfuel. cbv zeta.
  destruct fuel as [|[|fuel]]; [lia | lia | clear Hfuel].
  unfold STATISTICS_PERIODS_COUNT, MONTH01, MONTH12 in *.
  assert (Hnext : forall p, 0 <= p < 17 ->
             (p + 1) mod 17 = if p =? 16 then 0 else p + 1).
  { intros p Hp'. destruct (Z.eqb_spec p 16) as [->|Hne]; [reflexivity|].
    apply Z.mod_small. lia. }
  cbn [nextStatisticsPeriod].
  rewrite !(nextStatisticsPeriod_step statisticsPeriod Hp).
  rewrite (Hnext _ Hp).
  set (p1 := if statisticsPeriod =? 16 then 0 else statisticsPeriod + 1).
  assert (Hp1 : (statisticsPeriod = 16 /\ p1 = 0)
                \/ (statisticsPeriod < 16 /\ p1 = statisticsPeriod + 1))
    by (unfold p1; destruct (Z.eqb_spec statisticsPeriod 16); lia).
  clearbody p1.
  assert (Hr1 : 0 <= p1 < 17) by lia.
  unfold MONTH01, MONTH12.
  destruct (Z.leb_spec 5 p1) as [H5|H5]; cbn [andb];
    [destruct (Z.leb_spec p1 16) as [H16|H16]; cbn [andb];
     [destruct (Z.eqb_spec (p1 - 5 + 1) currentMonth) as [Hm|Hm]|]|].
  - rewrite !(nextStatisticsPeriod_step p1 Hr1). rewrite (Hnext _ Hr1).
    set (p2 := if p1 =? 16 then 0 else p1 + 1).
    assert (Hp2 : (p1 = 16 /\ p2 = 0) \/ (p1 < 16 /\ p2 = p1 + 1))
      by (unfold p2; destruct (Z.eqb_spec p1 16); lia).
    clearbody p2.
    exists p2.
    destruct (Z.leb_spec 5 p2); cbn [andb];
      [destruct (Z.leb_spec p2 16); cbn [andb];
       [destruct (Z.eqb_spec (p2 - 5 + 1) currentMonth); [lia|]|]|].
    all: rewrite decide_True by lia.
    all: repeat split; try lia; try reflexivity.
  - exists p1. rewrite decide_False by lia. repeat split; try lia; reflexivity.
  - lia.
  - exists p1. rewrite decide_False by lia. repeat split; try lia; reflexivity.
Qed.

(** An instance: in May the period after April is June. *)
Lemma nextStatisticsPeriod_skips_witness :
  nextStatisticsPeriod 2 8 5 = Some 10.
Proof.
  destruct (nextStatisticsPeriod_skips 2 8 5) as (q & Hq & _ & _ & _ & Hn).
  - unfold STATISTICS_PERIODS_COUNT. lia.
  - lia.
  - rewrite Hq. rewrite decide_True in Hn by (vm_compute; repeat split; discriminate).
    rewrite Hn. reflexivity.
Defined.

Lemma calculateStatistics_months_frame year startDow (months : list Z) : forall s,
  let s' := fold_left
              (fun st month =>
                 let '(startDayMonth, endDayMonth) := getMonthDayOfYearRange year month in
                 getStatisticsByPeriod startDayMonth endDayMonth startDow
                   (MONTH01 + (month - 1)) year st) months s in
  forall mode p, Forall (fun month => MONTH01 + (month - 1) <> p) months ->
                 statistic s' mode p = statistic s mode p.
Proof.
  induction months as [|month months IH]; intros s; cbv zeta; intros mode p Hp;
    [reflexivity|].
  apply Forall_cons in Hp as [Hm Hp]. cbn [fold_left].
  rewrite (IH _ mode p Hp).
  destruct (getMonthDayOfYearRange year month) as [a b].
  apply (getStatisticsByPeriod_frame a b startDow (MONTH01 + (month - 1)) year s).
  congruence.
Qed.

(** X16.  The rolling windows of [calculateStatistics].  The entries
    it stores for a rolling period of [w] days are those of the days
    [rollingWindowDays]: the window ends yesterday and has [w] days,
    except on 1 January, where its end is clamped to day 1 and it has
    [w + 1]; all its cells lie in 1..366.  Today's cell is among them
    on 1 January, and in the 365-day window whenever the previous year
    has 365 days (today not being day 366): the day one year back
    shares its cell with today. *)
Theorem rolling_window_today (now : RtcDateTime) (s : State) (p w : Z) :
  In (p, w) [(ROLL365D, 365); (ROLL100D, 100); (ROLL60D, 60); (ROLL30D, 30);
             (ROLL7D, 7)] ->
  let s0 := getCurrentDate now s in
  let doy := currentDayOfYear s0 in
  1 <= doy <= 366 ->
  let startDow := Z.rem (currentDayOfWeek s0 - Z.rem (uint16 (doy - 1)) 7 + 7) 7 in
  let L := daysInPreviousYearOf (currentYear s0) in
  let days := rollingWindowDays doy w in
  let cells := (fun d => fst (resolveDay startDow L d)) <$> days in
  (forall mode,
     mode = TOTAL \/ mode = MINIMUM \/ mode = AVERAGE \/ mode = MAXIMUM ->
     statistic (calculateStatistics now s) mode p
     = storedStatistic (config s)
         (fold_left (accumulateDay (config s) (eeprom s) startDow L) days
            (mkStatAcc 0 0 0 100)) mode)
  /\ Z.of_nat (length cells) = (if doy =? 1 then w + 1 else w)
  /\ Forall (fun c => 1 <= c <= 366) cells
  /\ (doy ∈ cells <-> doy = 1 \/ (w = 365 /\ L = 365 /\ doy <= 365)).
Proof.
  intros Hpw s0 doy Hd startDow L days cells.
  assert (Hw : 1 <= w <= 365 /\ 0 <= p <= 4).
  { cbn [In] in Hpw. unfold ROLL365D, ROLL100D, ROLL60D, ROLL30D, ROLL7D in Hpw.
    repeat (destruct Hpw as [Hpw|Hpw]; [injection Hpw as <- <-; lia|]).
    contradiction. }
  split.
  - intros mode Hmode.
    assert (Hcfg : config s0 = config s /\ eeprom s0 = eeprom s)
      by (unfold s0, getCurrentDate; destruct (isRtcDateTimeSane now); split; reflexivity).
    destruct Hcfg as [Hc He]. rewrite <- Hc, <- He.
    unfold calculateStatistics. fold s0. cbv zeta. fold doy. fold startDow.
    rewrite calculateStatistics_months_frame.
    2:{ apply Forall_forall. intros month Hin. apply elem_of_seqZ in Hin.
        unfold MONTH01. lia. }
    cbn [In] in Hpw. unfold days, rollingWindowDays, L.
    repeat (destruct Hpw as [Hpw|Hpw];
      [injection Hpw as <- <-;
       repeat match goal with
         | |- context [statistic (getStatisticsByPeriod ?a ?b ?c ?q ?y ?st) mode ?pp] =>
             first
               [ rewrite (proj2 (proj2 (getStatisticsByPeriod_frame a b c q y st)) mode pp)
                   by (unfold ROLL365D, ROLL100D, ROLL60D, ROLL30D, ROLL7D; lia)
               | rewrite (getStatisticsByPeriod_stored a b c q y st mode Hmode) ]
         end;
       repeat match goal with
         | |- context [config (getStatisticsByPeriod ?a ?b ?c ?q ?y ?st)] =>
             rewrite (proj1 (getStatisticsByPeriod_frame a b c q y st))
         | |- context [eeprom (getStatisticsByPeriod ?a ?b ?c ?q ?y ?st)] =>
             rewrite (proj1 (proj2 (getStatisticsByPeriod_frame a b c q y st)))
         end;
       unfold accumulate; reflexivity|]).
    contradiction.
  - destruct Hw as [Hw _].
    pose proof (daysInPreviousYearOf_cases (currentYear s0)) as HL. fold L in HL.
    unfold cells, days. clear cells days.
    revert HL. generalize L. intros L' HL.
    revert Hd. generalize startDow. generalize doy. intros doy' startDow' Hd.
    unfold rollingWindowDays. rewrite !int16_small by lia.
    set (endDay := if doy' - 1 <? 1 then 1 else doy' - 1).
    assert (He : endDay = if doy' =? 1 then 1 else doy' - 1).
    { unfold endDay. destruct (Z.ltb_spec (doy' - 1) 1); destruct (Z.eqb_spec doy' 1); lia. }
    clearbody endDay.
    split; [|split].
    + rewrite length_fmap, length_seqZ. destruct (Z.eqb_spec doy' 1); lia.
    + apply Forall_forall. intros c Hc.
      apply list_elem_of_fmap in Hc as (d & -> & Hin).
      apply elem_of_seqZ in Hin. rewrite resolveDay_cell. unfold cellOfDay.
      destruct (Z.leb_spec 1 d); destruct (Z.eqb_spec doy' 1); lia.
    + rewrite list_elem_of_fmap. split.
      * intros (d & Hc & Hin). apply elem_of_seqZ in Hin.
        rewrite resolveDay_cell in Hc. unfold cellOfDay in Hc.
        destruct (Z.leb_spec 1 d); destruct (Z.eqb_spec doy' 1); lia.
      * intros [H1|(-> & HL365 & H365)].
        -- exists 1. split; [rewrite resolveDay_cell; unfold cellOfDay; simpl; lia|].
           apply elem_of_seqZ. destruct (Z.eqb_spec doy' 1); lia.
        -- exists (doy' - 365). split.
           ++ rewrite resolveDay_cell. unfold cellOfDay.
              destruct (Z.leb_spec 1 (doy' - 365)); lia.
           ++ apply elem_of_seqZ. destruct (Z.eqb_spec doy' 1); lia.
Qed.

(** An instance: the 365-day window on 10 April 2026, a Friday. *)
Lemma rolling_window_today_witness :
  100 ∈ (fun d => fst (resolveDay 4 365 d)) <$> rollingWindowDays 100 365.
Proof.
  pose proof (rolling_window_today (mkRtcDateTime 2026 4 10 0 0 0 5)
                (day100 logDay100) ROLL365D 365 ltac:(left; reflexivity)) as H.
  cbv zeta in H.
  assert (Hd : currentDayOfYear
                 (getCurrentDate (mkRtcDateTime 2026 4 10 0 0 0 5) (day100 logDay100))
               = 100) by (vm_compute; reflexivity).
  assert (Hs : Z.rem
                 (currentDayOfWeek
                    (getCurrentDate (mkRtcDateTime 2026 4 10 0 0 0 5)
                       (day100 logDay100))
                  - Z.rem (uint16 (100 - 1)) 7 + 7) 7 = 4)
    by (vm_compute; reflexivity).
  assert (HL : daysInPreviousYearOf
                 (currentYear
                    (getCurrentDate (mkRtcDateTime 2026 4 10 0 0 0 5)
                       (day100 logDay100))) = 365)
    by (vm_compute; reflexivity).
  rewrite Hd in H. rewrite Hs, HL in H.
  destruct (H ltac:(lia)) as (_ & _ & _ & H4).
  apply H4. right. split; [reflexivity | split; [reflexivity | lia]].
Defined.

(** ** The fault display *)

(** X17.  Acknowledging fault 3 does not repair the log.  In the fault
    state only a long release of button 3 acts; on fault 3 it returns
    the device to standby with the fault cleared and the EEPROM as it
    was, so that with cell d+2 still holding a byte in 58..254 the next
    [saveSprint] raises fault 3 again and writes nothing, and so does
    the next boot. *)
Theorem fault3_returns (btn : Button) (s : State) (now now' : RtcDateTime)
    (cfg : Config) :
  errorCode s = 3 -> isRtcDateTimeSane now = true ->
  58 <= readCell s (dayOfYearOf now + 2) <= 254 ->
  let s1 := loop_ERROR btn s in
  (btn <> BUTTON_3_LONG_RELEASE -> s1 = s)
  /\ (btn = BUTTON_3_LONG_RELEASE ->
      operatingState s1 = STANDBY /\ errorCode s1 = 0
      /\ eeprom s1 = eeprom s /\ eepromLog s1 = eepromLog s
      /\ operatingState (saveSprint now s1) = ERROR
      /\ errorCode (saveSprint now s1) = 3
      /\ eeprom (saveSprint now s1) = eeprom s
      /\ eepromLog (saveSprint now s1) = eepromLog s)
  /\ (let s2 := setup true now now' (initialState STANDBY cfg (eeprom s)) in
      operatingState s2 = ERROR /\ errorCode s2 = 3 /\ eeprom s2 = eeprom s
      /\ eepromLog s2 = []).
Proof.
  intros Herr Hsane Hcell. cbv zeta.
  pose proof (sane_dayOfYear now Hsane) as Hd.
  assert (Hval : forall s0,
            errorCode s0 = 0 -> eeprom s0 = eeprom s ->
            validateNextDayCell (getCurrentDate now s0)
            = set_error 3 (getCurrentDate now s0)).
  { intros s0 H0 He. unfold validateNextDayCell, getCurrentDate. rewrite Hsane.
    cbn [set_date errorCode currentDayOfYear]. rewrite H0.
    rewrite uint16_small by lia.
    assert (Hr : readCell (set_date (dayOfYearOf now)
                             (if DayOfWeek now =? 0 then 7 else DayOfWeek now)
                             (Month now) (Year now) s0) (dayOfYearOf now + 2)
                 = readCell s (dayOfYearOf now + 2))
      by (unfold readCell; cbn [set_date eeprom]; rewrite He; reflexivity).
    rewrite Hr. cbn [Z.eqb andb].
    destruct (Z.eqb_spec (readCell s (dayOfYearOf now + 2)) EMPTY_VALUE) as [E|E];
      [unfold EMPTY_VALUE in E; lia|]. cbn [negb].
    destruct (Z.ltb_spec (readCell s (dayOfYearOf now + 2)) 58); [lia|].
    rewrite andb_false_r. reflexivity. }
  split; [|split].
  - intros Hb. unfold loop_ERROR. rewrite Herr. cbn [Z.eqb Pos.eqb orb].
    rewrite Herr. cbn [Z.eqb Pos.eqb].
    destruct btn; try reflexivity. exfalso. apply Hb. reflexivity.
  - intros ->. unfold loop_ERROR. rewrite Herr. cbn [Z.eqb Pos.eqb orb].
    rewrite Herr. cbn [Z.eqb Pos.eqb Button_eqb].
    repeat (split; [reflexivity|]).
    assert (Hs : saveSprint now (set_state STANDBY 0 s)
                 = set_error 3 (getCurrentDate now (set_state STANDBY 0 s))).
    { unfold saveSprint. rewrite Hval by reflexivity. reflexivity. }
    rewrite Hs. unfold getCurrentDate. rewrite Hsane. repeat split.
  - unfold setup. cbn [initialState operatingState OperatingStates_eqb negb].
    fold (initialState STANDBY cfg (eeprom s)).
    rewrite Hval by reflexivity.
    rewrite reconcileOnBoot_noop by (left; discriminate).
    unfold getCurrentDate. rewrite Hsane. repeat split.
Qed.

(** An instance: on day 100 cell 102 holds the byte 200. *)
Lemma fault3_returns_witness :
  let s := set_error 3 (day100 (<[102 := 200]> logDay100)) in
  errorCode (saveSprint (dateOf 2025 4 10)
               (loop_ERROR BUTTON_3_LONG_RELEASE s)) = 3.
Proof.
  assert (Hsane : isRtcDateTimeSane (dateOf 2025 4 10) = true) by reflexivity.
  assert (Hcell : 58 <= readCell (set_error 3 (day100 (<[102 := 200]> logDay100)))
                          (dayOfYearOf (dateOf 2025 4 10) + 2) <= 254)
    by (vm_compute; split; discriminate).
  pose proof (fault3_returns BUTTON_3_LONG_RELEASE
                (set_error 3 (day100 (<[102 := 200]> logDay100)))
                (dateOf 2025 4 10) (dateOf 2025 4 10) initConfig
                eq_refl Hsane Hcell) as H.
  cbv zeta in H. destruct H as (_ & H & _).
  destruct (H eq_refl) as (_ & _ & _ & _ & _ & H3 & _). exact H3.
Defined.

(** ** The LEDs *)



